(** * Booking / availability consistency core of the parking marketplace backend

    A shallow embedding of the model layer (models/booking.js,
    models/spotAvailability.js, models/transaction.js, models/parkingSpot.js, models/user.js)
    and of the controllers that drive it (controllers/booking.js,
    controllers/spotAvailability.js, controllers/paymentController.js,
    controllers/transaction.js).

    The relational store is a record of tables, each table a list of rows in
    insertion order.  Every [pool.query] of the source is one function on the
    store (one round trip); a model method or controller is the composition of
    its round trips in program order.  DATETIME values are instants on a
    totally ordered time line, written as integers, and so are the dates of
    a validated request (dates that a DATETIME column cannot hold, or that
    differ by less than its resolution, are not told apart here); amounts of
    money are whole; [affectedRows] of an UPDATE counts the rows its WHERE
    clause matches; the store runs in strict mode, where a value a column
    cannot hold makes it refuse the statement; the housekeeping columns
    [created_at] and [updated_at], which no handler writes, are left out of
    the rows.

    A last part models [processStripePayment] on the body as the client
    sends it, before any typing of its fields. *)

From Stdlib Require Import ZArith List Ascii String Bool Lia DecimalString.
From Stdlib Require Import Sorted Permutation.
Import ListNotations.
Local Open Scope string_scope.
Local Open Scope list_scope.
Local Open Scope Z_scope.

(** ** Enumerated column types *)

(** [bookings.booking_status], the eight strings accepted by
    [updateBookingStatusSchema]. *)
Inductive BookingStatus : Type :=
| pending
| confirmed
| rejected
| cancelled_by_driver
| cancelled_by_homeowner
| checked_in
| checked_out
| completed.

(** [bookings.payment_status], as in [updatePaymentStatusSchema]. *)
Inductive PaymentStatus : Type :=
| pay_pending
| pay_paid
| pay_refunded
| pay_failed.

(** [parking_spots.status]. *)
Inductive SpotStatus : Type :=
| pending_verification
| active
| inactive
| spot_rejected.

(** [users.user_type], carried in [req.user] by the [protect] middleware. *)
Inductive Role : Type :=
| driver
| homeowner
| admin.

(** [transactions.status] and [transactions.type]. *)
Inductive TransactionStatus : Type :=
| tx_pending
| tx_completed
| tx_failed
| tx_refunded.

Inductive TransactionType : Type :=
| booking_payment
| payout
| refund
| platform_fee.

Definition booking_status_eqb (a b : BookingStatus) : bool :=
  match a, b with
  | pending, pending
  | confirmed, confirmed
  | rejected, rejected
  | cancelled_by_driver, cancelled_by_driver
  | cancelled_by_homeowner, cancelled_by_homeowner
  | checked_in, checked_in
  | checked_out, checked_out
  | completed, completed => true
  | _, _ => false
  end.

Definition role_eqb (a b : Role) : bool :=
  match a, b with
  | driver, driver | homeowner, homeowner | admin, admin => true
  | _, _ => false
  end.

(** The string literals of the source and the enumerated values. *)
Definition booking_status_of_string (s : string) : option BookingStatus :=
  if String.eqb s "pending" then Some pending
  else if String.eqb s "confirmed" then Some confirmed
  else if String.eqb s "rejected" then Some rejected
  else if String.eqb s "cancelled_by_driver" then Some cancelled_by_driver
  else if String.eqb s "cancelled_by_homeowner" then Some cancelled_by_homeowner
  else if String.eqb s "checked_in" then Some checked_in
  else if String.eqb s "checked_out" then Some checked_out
  else if String.eqb s "completed" then Some completed
  else None.

Definition payment_status_of_string (s : string) : option PaymentStatus :=
  if String.eqb s "pending" then Some pay_pending
  else if String.eqb s "paid" then Some pay_paid
  else if String.eqb s "refunded" then Some pay_refunded
  else if String.eqb s "failed" then Some pay_failed
  else None.

(** *** Values of an ENUM column

    What the store, in strict mode, makes of a value assigned to an ENUM
    column.  A string stands for the member it equals in the
    case-insensitive collation of the column; failing that, a string of
    decimal digits stands for the member at that index, as a number does,
    the members being counted from 1 in the order of the column definition;
    any other value is refused. *)

Definition lower (c : ascii) : ascii :=
  let n := nat_of_ascii c in
  if Nat.leb 65 n && Nat.leb n 90 then ascii_of_nat (n + 32) else c.

Fixpoint lowercase (s : string) : string :=
  match s with
  | EmptyString => EmptyString
  | String c rest => String (lower c) (lowercase rest)
  end.

Definition numeral (s : string) : option Z :=
  match s with
  | EmptyString => None
  | _ => option_map Z.of_uint (NilEmpty.uint_of_string s)
  end.

Definition enum_at {A : Type} (members : list (string * A)) (index : Z)
  : option A :=
  if 1 <=? index
  then option_map snd (nth_error members (Z.to_nat (index - 1)))
  else None.

Definition enum_of_string {A : Type} (members : list (string * A)) (s : string)
  : option A :=
  match find (fun m => String.eqb (fst m) (lowercase s)) members with
  | Some m => Some (snd m)
  | None =>
      match numeral s with
      | Some index => enum_at members index
      | None => None
      end
  end.

(** [payment_status ENUM('pending', 'paid', 'refunded', 'failed')]. *)
Definition payment_status_members : list (string * PaymentStatus) :=
  [("pending", pay_pending); ("paid", pay_paid);
   ("refunded", pay_refunded); ("failed", pay_failed)].

(** [booking_status]: the seven members of the schema file in its order,
    followed by ['rejected'], which the handlers write and that file does
    not list yet. *)
Definition booking_status_members : list (string * BookingStatus) :=
  [("pending", pending); ("confirmed", confirmed); ("checked_in", checked_in);
   ("checked_out", checked_out); ("cancelled_by_driver", cancelled_by_driver);
   ("cancelled_by_homeowner", cancelled_by_homeowner); ("completed", completed);
   ("rejected", rejected)].

(** ** Rows *)

Module parking_spots.
Record row : Type := mk {
  spot_id : Z;
  homeowner_id : Z;
  is_available : bool;
  status : SpotStatus
}.
End parking_spots.

Module bookings.
Record row : Type := mk {
  booking_id : Z;
  spot_id : Z;
  driver_id : Z;
  homeowner_id : Z;
  start_time : Z;
  end_time : Z;
  total_price : Z;
  booking_status : BookingStatus;
  payment_status : PaymentStatus;
  stripe_payment_intent_id : option string;
  driver_check_in_time : option Z;
  driver_check_out_time : option Z;
  homeowner_confirm_time : option Z;
  homeowner_reject_time : option Z
}.
End bookings.

Module spot_availability.
Record row : Type := mk {
  availability_id : Z;
  spot_id : Z;
  start_time : Z;
  end_time : Z;
  is_booked : bool
}.
End spot_availability.

Module transactions.
Record row : Type := mk {
  transaction_id : Z;
  user_id : option Z;
  booking_id : option Z;
  payer_id : option Z;
  receiver_id : option Z;
  amount : Z;
  currency : string;
  type : TransactionType;
  gateway : string;
  gateway_reference_id : option string;
  status : TransactionStatus;
  description : option string
}.
End transactions.

(** A row of [users] as far as the core reads it; also the shape of
    [req.user] set by the [protect] middleware. *)
Record user : Type := mkUser {
  user_id : Z;
  user_type : Role
}.

(** The store: the tables the core reads and writes, and the AUTO_INCREMENT
    counters of the tables it inserts into. *)
Record store : Type := mkStore {
  tbl_users : list user;
  tbl_parking_spots : list parking_spots.row;
  tbl_bookings : list bookings.row;
  tbl_spot_availability : list spot_availability.row;
  tbl_transactions : list transactions.row;
  next_booking_id : Z;
  next_availability_id : Z;
  next_transaction_id : Z
}.

Definition with_bookings (st : store) (bs : list bookings.row) (next : Z) : store :=
  {| tbl_users := tbl_users st;
     tbl_parking_spots := tbl_parking_spots st;
     tbl_bookings := bs;
     tbl_spot_availability := tbl_spot_availability st;
     tbl_transactions := tbl_transactions st;
     next_booking_id := next;
     next_availability_id := next_availability_id st;
     next_transaction_id := next_transaction_id st |}.

Definition with_spot_availability (st : store)
    (sl : list spot_availability.row) (next : Z) : store :=
  {| tbl_users := tbl_users st;
     tbl_parking_spots := tbl_parking_spots st;
     tbl_bookings := tbl_bookings st;
     tbl_spot_availability := sl;
     tbl_transactions := tbl_transactions st;
     next_booking_id := next_booking_id st;
     next_availability_id := next;
     next_transaction_id := next_transaction_id st |}.

Definition with_transactions (st : store)
    (ts : list transactions.row) (next : Z) : store :=
  {| tbl_users := tbl_users st;
     tbl_parking_spots := tbl_parking_spots st;
     tbl_bookings := tbl_bookings st;
     tbl_spot_availability := tbl_spot_availability st;
     tbl_transactions := ts;
     next_booking_id := next_booking_id st;
     next_availability_id := next_availability_id st;
     next_transaction_id := next |}.

(** ** Time-range predicates *)

(** The policy of the design: half-open [s1,e1) and [s2,e2) overlap iff
    [s1 < e2] and [s2 < e1]. *)
Definition overlaps (s1 e1 s2 e2 : Z) : bool :=
  (s1 <? e2) && (s2 <? e1).

(** The instant [t] lies in the half-open range [s,e). *)
Definition contains (s e t : Z) : bool :=
  (s <=? t) && (t <? e).

(** The SQL list [('rejected','cancelled_by_driver','cancelled_by_homeowner',
    'completed')] of Booking.create. *)
Definition terminal (s : BookingStatus) : bool :=
  match s with
  | rejected | cancelled_by_driver | cancelled_by_homeowner | completed => true
  | _ => false
  end.

(** [Number.MAX_SAFE_INTEGER]: [Joi.number()] refuses a number beyond it. *)
Definition max_safe_integer : Z := 9007199254740991.

(** ** Results of model methods *)

(** An async model method either resolves to a value or rejects with an
    error; [statusCode] is the [error.statusCode] property the model sets on
    the errors it raises itself ([None] for errors raised by the store or by
    the runtime). *)
Inductive outcome (A : Type) : Type :=
| Return (a : A)
| Throw (statusCode : option Z).
Arguments Return {A} a.
Arguments Throw {A} statusCode.

(** Values bound to the [?] placeholders of the dynamically built UPDATE
    statements. *)
Inductive sql_param : Type :=
| PNull
| PStr (s : string).

(** The argument [updateFields] of [Booking.updatePaymentStatus] as JavaScript
    sees it: an object with its own enumerable properties in order, or a
    primitive string. *)
Inductive js_value : Type :=
| JObject (props : list (string * sql_param))
| JString (s : string).

(** ** models/booking.js *)

Module Booking.
Import bookings.

(** The destructured [bookingData]; the last two fields are [None] when the
    caller leaves them undefined, and then default to ["pending"]. *)
Record bookingData : Type := mkData {
  bd_spot_id : Z;
  bd_driver_id : Z;
  bd_start_time : Z;
  bd_end_time : Z;
  bd_total_price : Z;
  bd_stripe_payment_intent_id : option string;
  bd_booking_status : option BookingStatus;
  bd_payment_status : option PaymentStatus
}.

(** [SELECT homeowner_id FROM parking_spots WHERE spot_id = ?] *)
Definition select_spot (spot : Z) (st : store) : list Z :=
  map parking_spots.homeowner_id
      (filter (fun ps => parking_spots.spot_id ps =? spot)
              (tbl_parking_spots st)).

(** The three-clause time condition of the overlap query, with the bound
    parameters [end_time, start_time, start_time, end_time, start_time,
    end_time] in place: [s], [e] are the columns of the existing row,
    [cs], [ce] the candidate's start and end. *)
Definition time_conflict (s e cs ce : Z) : bool :=
  ((s <? ce) && (e >? cs))
  || ((s <? cs) && (e >? ce))
  || ((s >=? cs) && (e <=? ce)).

(** The WHERE clause of the overlap query. *)
Definition conflicts (spot cs ce : Z) (b : row) : bool :=
  (spot_id b =? spot)
  && time_conflict (start_time b) (end_time b) cs ce
  && negb (terminal (booking_status b)).

(** [SELECT booking_id FROM bookings WHERE ...] *)
Definition select_overlap (spot cs ce : Z) (st : store) : list Z :=
  map booking_id (filter (conflicts spot cs ce) (tbl_bookings st)).

Definition default {A : Type} (d : A) (o : option A) : A :=
  match o with Some a => a | None => d end.

(** The row written by the INSERT; the lifecycle timestamps are not listed
    in the statement and start as NULL. *)
Definition new_row (id owner : Z) (d : bookingData) : row :=
  {| booking_id := id;
     spot_id := bd_spot_id d;
     driver_id := bd_driver_id d;
     homeowner_id := owner;
     start_time := bd_start_time d;
     end_time := bd_end_time d;
     total_price := bd_total_price d;
     booking_status := default pending (bd_booking_status d);
     payment_status := default pay_pending (bd_payment_status d);
     stripe_payment_intent_id := bd_stripe_payment_intent_id d;
     driver_check_in_time := None;
     driver_check_out_time := None;
     homeowner_confirm_time := None;
     homeowner_reject_time := None |}.

(** The constraints of [bookings] that the VALUES of the INSERT can violate:
    [CHECK (end_time > start_time)], and the range of [total_price
    DECIMAL(10,2) CHECK (total_price >= 0)], prices being whole amounts
    here.  The foreign keys hold at this point: the spot has just been
    selected, its homeowner is a user, and the driver is the user [protect]
    read from [users]. *)
Definition accepts (d : bookingData) : bool :=
  (bd_start_time d <? bd_end_time d)
  && (0 <=? bd_total_price d) && (bd_total_price d <=? 99999999).

(** [INSERT INTO bookings (...) VALUES (...)]; [result.insertId] is the
    AUTO_INCREMENT value.  A row the table does not accept makes the store
    reject the statement: the promise is rejected and nothing is written. *)
Definition insert (owner : Z) (d : bookingData) (st : store)
  : outcome row * store :=
  if accepts d then
    let r := new_row (next_booking_id st) owner d in
    (Return r, with_bookings st (tbl_bookings st ++ [r]) (next_booking_id st + 1))
  else (Throw None, st).

(** [Booking.create]: the three round trips in program order. *)
Definition create (d : bookingData) (st : store) : outcome row * store :=
  match select_spot (bd_spot_id d) st with
  | [] => (Throw (Some 404), st)
  | owner :: _ =>
      match select_overlap (bd_spot_id d) (bd_start_time d) (bd_end_time d) st with
      | _ :: _ => (Throw (Some 409), st)
      | [] => insert owner d st
      end
  end.

(** [Booking.findById]: the row joined with its parking spot (an inner
    join: no spot, no row); [rows[0]] or null. *)
Definition findById (bookingId : Z) (st : store) : option row :=
  find (fun b =>
          (booking_id b =? bookingId)
          && existsb (fun ps => parking_spots.spot_id ps =? spot_id b)
                     (tbl_parking_spots st))
       (tbl_bookings st).

(** Row writes: the DATETIME columns together, then each text-valued column
    on its own. *)
Definition set_times (sta en : Z) (ci co hc hr : option Z) (b : row) : row :=
  {| booking_id := booking_id b; spot_id := spot_id b;
     driver_id := driver_id b; homeowner_id := homeowner_id b;
     start_time := sta; end_time := en;
     total_price := total_price b;
     booking_status := booking_status b;
     payment_status := payment_status b;
     stripe_payment_intent_id := stripe_payment_intent_id b;
     driver_check_in_time := ci; driver_check_out_time := co;
     homeowner_confirm_time := hc; homeowner_reject_time := hr |}.

Definition set_booking_status (s : BookingStatus) (b : row) : row :=
  {| booking_id := booking_id b; spot_id := spot_id b;
     driver_id := driver_id b; homeowner_id := homeowner_id b;
     start_time := start_time b; end_time := end_time b;
     total_price := total_price b;
     booking_status := s;
     payment_status := payment_status b;
     stripe_payment_intent_id := stripe_payment_intent_id b;
     driver_check_in_time := driver_check_in_time b;
     driver_check_out_time := driver_check_out_time b;
     homeowner_confirm_time := homeowner_confirm_time b;
     homeowner_reject_time := homeowner_reject_time b |}.

Definition set_payment_status (p : PaymentStatus) (b : row) : row :=
  {| booking_id := booking_id b; spot_id := spot_id b;
     driver_id := driver_id b; homeowner_id := homeowner_id b;
     start_time := start_time b; end_time := end_time b;
     total_price := total_price b;
     booking_status := booking_status b;
     payment_status := p;
     stripe_payment_intent_id := stripe_payment_intent_id b;
     driver_check_in_time := driver_check_in_time b;
     driver_check_out_time := driver_check_out_time b;
     homeowner_confirm_time := homeowner_confirm_time b;
     homeowner_reject_time := homeowner_reject_time b |}.

Definition set_stripe_payment_intent_id (i : option string) (b : row) : row :=
  {| booking_id := booking_id b; spot_id := spot_id b;
     driver_id := driver_id b; homeowner_id := homeowner_id b;
     start_time := start_time b; end_time := end_time b;
     total_price := total_price b;
     booking_status := booking_status b;
     payment_status := payment_status b;
     stripe_payment_intent_id := i;
     driver_check_in_time := driver_check_in_time b;
     driver_check_out_time := driver_check_out_time b;
     homeowner_confirm_time := homeowner_confirm_time b;
     homeowner_reject_time := homeowner_reject_time b |}.

(** [UPDATE bookings SET ... WHERE booking_id = ?] with the SET list given as
    a row transformer; [affectedRows] counts the rows the WHERE clause
    matches. *)
Definition update_where_id (bookingId : Z) (f : row -> row) (st : store)
  : nat * store :=
  (List.length (filter (fun b => booking_id b =? bookingId) (tbl_bookings st)),
   with_bookings st
     (map (fun b => if booking_id b =? bookingId then f b else b)
          (tbl_bookings st))
     (next_booking_id st)).

(** [SET <column> = NOW()] for a column named by a string spliced into the
    statement: the write it performs on a row, or [None] when the text does
    not name a DATETIME column of [bookings] and the store rejects the
    statement.  The housekeeping columns are not part of the rows, so a write
    to one of them leaves the row as it is.  (A write to [start_time] or
    [end_time] that empties the range of a row would be stopped by the CHECK
    of the table; the handlers never name these two columns.) *)
Definition set_now (column : string) (now : Z) : option (row -> row) :=
  if String.eqb column "driver_check_in_time" then
    Some (fun b => set_times (start_time b) (end_time b)
                     (Some now) (driver_check_out_time b)
                     (homeowner_confirm_time b) (homeowner_reject_time b) b)
  else if String.eqb column "driver_check_out_time" then
    Some (fun b => set_times (start_time b) (end_time b)
                     (driver_check_in_time b) (Some now)
                     (homeowner_confirm_time b) (homeowner_reject_time b) b)
  else if String.eqb column "homeowner_confirm_time" then
    Some (fun b => set_times (start_time b) (end_time b)
                     (driver_check_in_time b) (driver_check_out_time b)
                     (Some now) (homeowner_reject_time b) b)
  else if String.eqb column "homeowner_reject_time" then
    Some (fun b => set_times (start_time b) (end_time b)
                     (driver_check_in_time b) (driver_check_out_time b)
                     (homeowner_confirm_time b) (Some now) b)
  else if String.eqb column "start_time" then
    Some (fun b => set_times now (end_time b)
                     (driver_check_in_time b) (driver_check_out_time b)
                     (homeowner_confirm_time b) (homeowner_reject_time b) b)
  else if String.eqb column "end_time" then
    Some (fun b => set_times (start_time b) now
                     (driver_check_in_time b) (driver_check_out_time b)
                     (homeowner_confirm_time b) (homeowner_reject_time b) b)
  else if String.eqb column "created_at" || String.eqb column "updated_at" then
    Some (fun b => b)
  else None.

(** [Booking.updateStatus(bookingId, newStatus, timeFieldToUpdate)]:
    [timeFieldToUpdate] is spliced in as a column name when it is truthy
    (neither null nor the empty string).  A statement the store cannot
    execute rejects the promise and changes nothing. *)
Definition updateStatus (now : Z) (bookingId : Z) (newStatus : BookingStatus)
    (timeFieldToUpdate : option string) (st : store) : outcome bool * store :=
  let truthy := match timeFieldToUpdate with
                | Some column => negb (String.eqb column EmptyString)
                | None => false
                end in
  let sets : option (row -> row) :=
    match timeFieldToUpdate with
    | Some column =>
        if truthy then
          option_map (fun w b => w (set_booking_status newStatus b))
                     (set_now column now)
        else Some (set_booking_status newStatus)
    | None => Some (set_booking_status newStatus)
    end in
  match sets with
  | None => (Throw None, st)
  | Some f =>
      let (n, st') := update_where_id bookingId f st in
      (Return (Nat.ltb 0 n), st')
  end.

(** The [for (const key in updateFields)] loop: own enumerable keys with
    their values.  A primitive string enumerates its indices, each with the
    one-character string at that index. *)
Fixpoint string_entries (i : nat) (s : string) : list (string * sql_param) :=
  match s with
  | EmptyString => []
  | String c rest =>
      (NilEmpty.string_of_uint (Nat.to_uint i), PStr (String c EmptyString))
        :: string_entries (S i) rest
  end.

Definition entries (updateFields : js_value) : list (string * sql_param) :=
  match updateFields with
  | JObject props => props
  | JString s => string_entries 0 s
  end.

(** What the store makes of a SET list.  A key that is not a column makes it
    refuse the statement as such.  A value that the column does not hold is
    only met when a row is written: the statement is refused if the WHERE
    clause matches a row, and changes nothing if it matches none. *)
Inductive item : Type :=
| NoSuchColumn
| NotStorable
| Stores (w : row -> row).

Definition stores_if {A : Type} (set : A -> row -> row) (o : option A) : item :=
  match o with
  | Some a => Stores (set a)
  | None => NotStorable
  end.

(** One [key = ?] item of the SET list, for the keys the callers on the
    payment path write and for [booking_status]: the two ENUM columns, both
    NOT NULL, and [stripe_payment_intent_id], a VARCHAR(255) that may be
    NULL.  A string bound to a numeric or DATETIME column would go through
    the store's implicit conversions, which no caller in the source relies
    on. *)
Definition assign (key : string) (v : sql_param) : item :=
  if String.eqb key "payment_status" then
    match v with
    | PStr s => stores_if set_payment_status
                  (enum_of_string payment_status_members s)
    | PNull => NotStorable
    end
  else if String.eqb key "stripe_payment_intent_id" then
    match v with
    | PStr s => if Nat.leb (String.length s) 255
                then Stores (set_stripe_payment_intent_id (Some s))
                else NotStorable
    | PNull => Stores (set_stripe_payment_intent_id None)
    end
  else if String.eqb key "booking_status" then
    match v with
    | PStr s => stores_if set_booking_status
                  (enum_of_string booking_status_members s)
    | PNull => NotStorable
    end
  else NoSuchColumn.

(** The items of a SET list take effect from left to right. *)
Fixpoint assign_all (sets : list (string * sql_param)) : item :=
  match sets with
  | [] => Stores (fun b => b)
  | (k, v) :: rest =>
      match assign k v, assign_all rest with
      | NoSuchColumn, _ | _, NoSuchColumn => NoSuchColumn
      | NotStorable, _ | _, NotStorable => NotStorable
      | Stores w, Stores ws => Stores (fun b => ws (w b))
      end
  end.

(** [Booking.updatePaymentStatus(bookingId, updateFields)]. *)
Definition updatePaymentStatus (bookingId : Z) (updateFields : js_value)
    (st : store) : outcome bool * store :=
  match entries updateFields with
  | [] => (Return false, st)
  | sets =>
      match assign_all sets with
      | NoSuchColumn => (Throw None, st)
      | NotStorable =>
          if existsb (fun b => booking_id b =? bookingId) (tbl_bookings st)
          then (Throw None, st)
          else (Return false, st)
      | Stores f =>
          let (n, st') := update_where_id bookingId f st in
          (Return (Nat.ltb 0 n), st')
      end
  end.
End Booking.

(** ** models/parkingSpot.js, models/user.js *)

Module ParkingSpot.
(** [ParkingSpot.findById]: the spot row or null. *)
Definition findById (spotId : Z) (st : store) : option parking_spots.row :=
  find (fun ps => parking_spots.spot_id ps =? spotId) (tbl_parking_spots st).
End ParkingSpot.

Module User.
Definition findById (userId : Z) (st : store) : option user :=
  find (fun u => user_id u =? userId) (tbl_users st).
End User.

(** ** models/spotAvailability.js *)

Module SpotAvailability.
Import spot_availability.

(** [createAvailability]: INSERT of (spot_id, start_time, end_time);
    [is_booked] takes its default FALSE. *)
Definition createAvailability (spotId startTime endTime : Z) (st : store)
  : row * store :=
  let r := {| availability_id := next_availability_id st;
              spot_id := spotId;
              start_time := startTime;
              end_time := endTime;
              is_booked := false |} in
  (r, with_spot_availability st (tbl_spot_availability st ++ [r])
        (next_availability_id st + 1)).

Definition findById (availabilityId : Z) (st : store) : option row :=
  find (fun r => availability_id r =? availabilityId) (tbl_spot_availability st).

(** The three-clause time condition of [isTimeRangeAvailable], with the
    bound parameters [endTime, startTime, startTime, endTime, startTime,
    endTime] in place. *)
Definition time_conflict (s e cs ce : Z) : bool :=
  ((s <? ce) && (e >? cs))
  || ((s >=? cs) && (s <? ce))
  || ((e >? cs) && (e <=? ce)).

(** The WHERE clause of [isTimeRangeAvailable]; the last conjunct is
    appended only when [excludeAvailabilityId] is given. *)
Definition conflicts (spotId cs ce : Z) (excludeAvailabilityId : option Z)
    (r : row) : bool :=
  (spot_id r =? spotId)
  && time_conflict (start_time r) (end_time r) cs ce
  && negb (is_booked r)
  && match excludeAvailabilityId with
     | Some x => negb (availability_id r =? x)
     | None => true
     end.

(** [isTimeRangeAvailable]: [COUNT( * ) === 0]. *)
Definition isTimeRangeAvailable (spotId cs ce : Z)
    (excludeAvailabilityId : option Z) (st : store) : bool :=
  Nat.eqb (List.length (filter (conflicts spotId cs ce excludeAvailabilityId)
                               (tbl_spot_availability st))) 0.

(** The WHERE clause of [checkAvailabilityForBooking]. *)
Definition covers (spotId bs be : Z) (r : row) : bool :=
  (spot_id r =? spotId)
  && (start_time r <=? bs)
  && (end_time r >=? be)
  && negb (is_booked r).

(** [checkAvailabilityForBooking]: [COUNT( * ) > 0]. *)
Definition checkAvailabilityForBooking (spotId bs be : Z) (st : store) : bool :=
  Nat.ltb 0 (List.length (filter (covers spotId bs be) (tbl_spot_availability st))).

(** [updateData] of [updateAvailability]: each field present or not. *)
Record updateData : Type := mkUpdate {
  startTime : option Z;
  endTime : option Z;
  isBooked : option bool
}.

Definition apply_update (u : updateData) (r : row) : row :=
  {| availability_id := availability_id r;
     spot_id := spot_id r;
     start_time := match startTime u with Some t => t | None => start_time r end;
     end_time := match endTime u with Some t => t | None => end_time r end;
     is_booked := match isBooked u with Some b => b | None => is_booked r end |}.

(** [updateAvailability]: false without touching the store when no field
    is given, otherwise one UPDATE by primary key. *)
Definition updateAvailability (availabilityId : Z) (u : updateData) (st : store)
  : bool * store :=
  match startTime u, endTime u, isBooked u with
  | None, None, None => (false, st)
  | _, _, _ =>
      (Nat.ltb 0 (List.length (filter (fun r => availability_id r =? availabilityId)
                                      (tbl_spot_availability st))),
       with_spot_availability st
         (map (fun r => if availability_id r =? availabilityId
                        then apply_update u r else r)
              (tbl_spot_availability st))
         (next_availability_id st))
  end.

Definition deleteAvailability (availabilityId : Z) (st : store) : bool * store :=
  (Nat.ltb 0 (List.length (filter (fun r => availability_id r =? availabilityId)
                                  (tbl_spot_availability st))),
   with_spot_availability st
     (filter (fun r => negb (availability_id r =? availabilityId))
             (tbl_spot_availability st))
     (next_availability_id st)).
End SpotAvailability.

(** ** models/transaction.js *)

Module Transaction.
Import transactions.

(** [transactionData]: the validated request body plus [userId]. *)
Record transactionData : Type := mkData {
  userId : option Z;
  bookingId : option Z;
  payerId : option Z;
  receiverId : option Z;
  td_amount : Z;
  td_currency : string;
  td_type : TransactionType;
  td_gateway : string;
  gatewayReferenceId : option string;
  td_status : TransactionStatus;
  td_description : option string
}.

(** [createTransaction]: one INSERT; the returned object carries the
    fields of [transactionData] and the new id. *)
Definition createTransaction (d : transactionData) (st : store)
  : outcome (Z * transactionData) * store :=
  let r := {| transaction_id := next_transaction_id st;
              user_id := userId d;
              booking_id := bookingId d;
              payer_id := payerId d;
              receiver_id := receiverId d;
              amount := td_amount d;
              currency := td_currency d;
              type := td_type d;
              gateway := td_gateway d;
              gateway_reference_id := gatewayReferenceId d;
              status := td_status d;
              description := td_description d |} in
  (Return (next_transaction_id st, d),
   with_transactions st (tbl_transactions st ++ [r]) (next_transaction_id st + 1)).

Definition findById (transactionId : Z) (st : store) : option row :=
  find (fun r => transaction_id r =? transactionId) (tbl_transactions st).

Definition set_status (s : TransactionStatus) (r : row) : row :=
  {| transaction_id := transaction_id r;
     user_id := user_id r;
     booking_id := booking_id r;
     payer_id := payer_id r;
     receiver_id := receiver_id r;
     amount := amount r;
     currency := currency r;
     type := type r;
     gateway := gateway r;
     gateway_reference_id := gateway_reference_id r;
     status := s;
     description := description r |}.

(** [updateStatus]: [UPDATE transactions SET status = ? WHERE
    transaction_id = ?]. *)
Definition updateStatus (transactionId : Z) (newStatus : TransactionStatus)
    (st : store) : bool * store :=
  (Nat.ltb 0 (List.length (filter (fun r => transaction_id r =? transactionId)
                                  (tbl_transactions st))),
   with_transactions st
     (map (fun r => if transaction_id r =? transactionId
                    then set_status newStatus r else r)
          (tbl_transactions st))
     (next_transaction_id st)).

(** The signature of a method that takes a [transactionData]. *)
Definition creator : Type :=
  transactionData -> store -> outcome (Z * transactionData) * store.

(** Property lookup on the exported object for a call with a
    [transactionData]: the object defines [createTransaction], [findById],
    [findByGatewayReferenceId], [updateStatus], [findByBookingId] and
    [findByUserId]; it has no property [create] (the method was renamed to
    [createTransaction]), so that name resolves to undefined. *)
Definition method (name : string) : option creator :=
  if String.eqb name "createTransaction" then Some createTransaction else None.
End Transaction.

(** ** controllers/booking.js

    A controller maps the authenticated user, the request and the store to
    the HTTP status it answers with and the store it leaves. *)

Definition payment_status_eqb (a b : PaymentStatus) : bool :=
  match a, b with
  | pay_pending, pay_pending | pay_paid, pay_paid
  | pay_refunded, pay_refunded | pay_failed, pay_failed => true
  | _, _ => false
  end.

Definition payment_status_to_string (p : PaymentStatus) : string :=
  match p with
  | pay_pending => "pending"
  | pay_paid => "paid"
  | pay_refunded => "refunded"
  | pay_failed => "failed"
  end.

Module BookingController.

(** The request body accepted by [createBookingSchema]. *)
Record createBody : Type := mkCreate {
  spotId : Z;
  startTime : Z;
  endTime : Z;
  totalPrice : Z;
  stripePaymentIntentId : option string
}.

(** [createBookingSchema]: [spotId] a positive integer and [totalPrice] a
    positive number, both within the safe range of [Joi.number()];
    [stripePaymentIntentId] of at most 255 characters when it is given; the
    two dates are only required to be dates, in no order. *)
Definition createBookingSchema (body : createBody) : bool :=
  (0 <? spotId body) && (spotId body <=? max_safe_integer)
  && (0 <? totalPrice body) && (totalPrice body <=? max_safe_integer)
  && match stripePaymentIntentId body with
     | Some s => Nat.leb (String.length s) 255
     | None => true
     end.

Definition bookingData (u : user) (body : createBody) : Booking.bookingData :=
  {| Booking.bd_spot_id := spotId body;
     Booking.bd_driver_id := user_id u;
     Booking.bd_start_time := startTime body;
     Booking.bd_end_time := endTime body;
     Booking.bd_total_price := totalPrice body;
     Booking.bd_stripe_payment_intent_id := stripePaymentIntentId body;
     Booking.bd_booking_status := None;
     Booking.bd_payment_status := None |}.

(** The catch block of [createBooking]. *)
Definition create_response (o : outcome bookings.row) : Z :=
  match o with
  | Return _ => 201
  | Throw (Some 404) => 404
  | Throw (Some 409) => 409
  | Throw _ => 500
  end.

Definition createBooking (u : user) (body : createBody) (st : store)
  : Z * store :=
  if createBookingSchema body then
    let (o, st') := Booking.create (bookingData u body) st in
    (create_response o, st')
  else (400, st).

(** The guard of one [case] of the switch in [updateBookingStatus]: the
    status to answer with when the request is refused there, and the
    timestamp column to set otherwise. *)
Inductive verdict : Type :=
| Refuse (status : Z)
| Proceed (timeFieldToUpdate : option string).

Definition isCancelBlocked (other : BookingStatus) (current : BookingStatus) : bool :=
  booking_status_eqb current completed
  || booking_status_eqb current checked_out
  || booking_status_eqb current rejected
  || booking_status_eqb current other.

Definition transition (u : user) (booking : bookings.row) (status : BookingStatus)
  : verdict :=
  let isDriver :=
    (bookings.driver_id booking =? user_id u) && role_eqb (user_type u) driver in
  let isHomeowner :=
    (bookings.homeowner_id booking =? user_id u) && role_eqb (user_type u) homeowner in
  let isAdmin := role_eqb (user_type u) admin in
  let current := bookings.booking_status booking in
  match status with
  | confirmed =>
      if negb isHomeowner && negb isAdmin then Refuse 403
      else if negb (booking_status_eqb current pending) then Refuse 400
      else Proceed (Some "homeowner_confirm_time")
  | rejected =>
      if negb isHomeowner && negb isAdmin then Refuse 403
      else if negb (booking_status_eqb current pending) then Refuse 400
      else Proceed (Some "homeowner_reject_time")
  | cancelled_by_driver =>
      if negb isDriver && negb isAdmin then Refuse 403
      else if isCancelBlocked cancelled_by_homeowner current then Refuse 400
      else Proceed None
  | cancelled_by_homeowner =>
      if negb isHomeowner && negb isAdmin then Refuse 403
      else if isCancelBlocked cancelled_by_driver current then Refuse 400
      else Proceed None
  | checked_in =>
      if negb isDriver && negb isAdmin then Refuse 403
      else if negb (booking_status_eqb current confirmed)
              && negb (booking_status_eqb current pending) then Refuse 400
      else Proceed (Some "driver_check_in_time")
  | checked_out =>
      if negb isDriver && negb isAdmin then Refuse 403
      else if negb (booking_status_eqb current checked_in) then Refuse 400
      else Proceed (Some "driver_check_out_time")
  | completed =>
      if negb isHomeowner && negb isAdmin then Refuse 403
      else if negb (role_eqb (user_type u) admin)
              && negb (booking_status_eqb current checked_out) then Refuse 400
      else Proceed None
  | pending => Refuse 400
  end.

Definition updateBookingStatus (now : Z) (u : user) (id : Z)
    (status : BookingStatus) (st : store) : Z * store :=
  match Booking.findById id st with
  | None => (404, st)
  | Some booking =>
      match transition u booking status with
      | Refuse code => (code, st)
      | Proceed timeFieldToUpdate =>
          match Booking.updateStatus now id status timeFieldToUpdate st with
          | (Throw _, st') => (500, st')
          | (Return false, st') => (400, st')
          | (Return true, st') => (200, st')
          end
      end
  end.

(** [updatePaymentStatus]: [stripePaymentIntentId] is [None] when the body
    leaves it undefined, [Some None] when it is null. *)
Definition updateFields (paymentStatus : PaymentStatus)
    (stripePaymentIntentId : option (option string)) : js_value :=
  JObject
    (("payment_status", PStr (payment_status_to_string paymentStatus))
     :: match stripePaymentIntentId with
        | None => []
        | Some None => [("stripe_payment_intent_id", PNull)]
        | Some (Some s) => [("stripe_payment_intent_id", PStr s)]
        end).

(** [updatePaymentStatusSchema]: [paymentStatus] is one of the four strings
    of [PaymentStatus], which the type of the argument says;
    [stripePaymentIntentId] may be left out, null, empty or a string of at
    most 255 characters. *)
Definition updatePaymentStatusSchema
    (stripePaymentIntentId : option (option string)) : bool :=
  match stripePaymentIntentId with
  | Some (Some s) => Nat.leb (String.length s) 255
  | _ => true
  end.

Definition updatePaymentStatus (u : user) (id : Z)
    (paymentStatus : PaymentStatus)
    (stripePaymentIntentId : option (option string)) (st : store) : Z * store :=
  if negb (updatePaymentStatusSchema stripePaymentIntentId) then (400, st)
  else
  match Booking.findById id st with
  | None => (404, st)
  | Some booking =>
      if negb (bookings.homeowner_id booking =? user_id u)
         && negb (role_eqb (user_type u) admin)
      then (403, st)
      else
        match Booking.updatePaymentStatus id
                (updateFields paymentStatus stripePaymentIntentId) st with
        | (Throw _, st') => (500, st')
        | (Return false, st') => (400, st')
        | (Return true, st') => (200, st')
        end
  end.
End BookingController.

(** ** controllers/paymentController.js *)

Module PaymentController.
Section Gateway.
(** [stripe.paymentIntents.retrieve]: the status of the intent the
    gateway reports, or a rejected call. *)
Variable retrieve : string -> outcome string.

Record body : Type := mkBody {
  bookingId : Z;
  paymentIntentId : string;
  paymentStatus : string
}.

Definition processStripePayment (u : user) (b : body) (st : store)
  : Z * store :=
  if (bookingId b =? 0)
     || String.eqb (paymentIntentId b) EmptyString
     || String.eqb (paymentStatus b) EmptyString
  then (400, st)
  else
    match retrieve (paymentIntentId b) with
    | Throw _ => (500, st)
    | Return intent_status =>
        if negb (String.eqb intent_status "succeeded") then (400, st)
        else
          let updateFields :=
            JObject [("payment_status", PStr (paymentStatus b));
                     ("stripe_payment_intent_id", PStr (paymentIntentId b))] in
          match Booking.updatePaymentStatus (bookingId b) updateFields st with
          | (Throw _, st') => (500, st')
          | (Return true, st') => (200, st')
          | (Return false, st') => (400, st')
          end
    end.

(** [stripe.paymentIntents.create]: the client secret of the new intent, or
    a rejected call. *)
Variable create_intent : Z -> string -> Z -> Z -> outcome string.

Record intentBody : Type := mkIntent {
  amount : Z;
  currency : string;
  intent_bookingId : Z
}.

Definition createPaymentIntent (u : user) (b : intentBody) (st : store)
  : Z * store :=
  if (amount b =? 0) || String.eqb (currency b) EmptyString || (intent_bookingId b =? 0)
  then (400, st)
  else if negb (role_eqb (user_type u) driver) then (403, st)
  else
    match create_intent (amount b) (currency b) (intent_bookingId b) (user_id u) with
    | Return _ => (200, st)
    | Throw _ => (500, st)
    end.
End Gateway.
End PaymentController.

(** ** The body of [processStripePayment] as the client sends it

    [processStripePayment] runs no schema over its body: past the truthiness
    test, [bookingId], [paymentIntentId] and [paymentStatus] are whatever
    JSON values the client sent, and [Booking.updatePaymentStatus] hands them
    to [pool.query] as the values of the placeholders.  mysql2 formats the
    statement on the client, replacing each [?] by [SqlString.escape] of its
    value: a null, boolean, number or string becomes one literal, and an
    object becomes the list [`key` = value, `key` = value, ...] of its
    properties.  So [payment_status = ?] with an object reads
    [payment_status = `k1` = v1, `k2` = v2, ...]: the column is assigned the
    truth value of the comparison [`k1` = v1], and every further property is
    one more assignment of the SET list.

    The handler is modelled for the statements that stay within the three
    text-valued columns and compare a numeric column with a number; it is
    [None] for the others (an array, a nested list, a column that the rows
    leave out, a column assigned twice, an intent id that is not a
    string). *)

Module Untyped.
Import bookings.

(** A JSON value of the request body; numbers are whole. *)
#[local] Unset Elimination Schemes.
Inductive value : Type :=
| Null
| Bool (b : bool)
| Number (n : Z)
| Str (s : string)
| Array (items : list value)
| Object (props : list (string * value)).
#[local] Set Elimination Schemes.

(** The three fields read from [req.body]; [None] for a field that the body
    does not have. *)
Record body : Type := mkBody {
  bookingId : option value;
  paymentIntentId : option value;
  paymentStatus : option value
}.

(** [!v] is false. *)
Definition truthy (v : option value) : bool :=
  match v with
  | None | Some Null => false
  | Some (Bool b) => b
  | Some (Number n) => negb (n =? 0)
  | Some (Str s) => negb (String.eqb s EmptyString)
  | Some (Array _) | Some (Object _) => true
  end.

(** A literal of the statement text. *)
Inductive literal : Type :=
| LNull
| LBool (b : bool)
| LNumber (n : Z)
| LString (s : string).

(** [SqlString.escape(val, true)], which formats the value of a property of
    an object: an object inside an object is turned into a string by its
    [toString]. *)
Definition escape_inner (v : value) : option literal :=
  match v with
  | Null => Some LNull
  | Bool b => Some (LBool b)
  | Number n => Some (LNumber n)
  | Str s => Some (LString s)
  | Object props =>
      if existsb (fun kv => String.eqb (fst kv) "toString") props then None
      else Some (LString "[object Object]")
  | Array _ => None
  end.

(** The right-hand side of an item of the SET list. *)
Inductive expr : Type :=
| Lit (l : literal)
| Equals (identifier : string) (l : literal).

Fixpoint escape_props (props : list (string * value))
  : option (list (string * expr)) :=
  match props with
  | [] => Some []
  | (k, v) :: rest =>
      match escape_inner v, escape_props rest with
      | Some l, Some items => Some ((k, Lit l) :: items)
      | _, _ => None
      end
  end.

(** The items that [key = ?] becomes once [?] is replaced by the escaped
    value. *)
Definition set_items (key : string) (v : value) : option (list (string * expr)) :=
  match v with
  | Null => Some [(key, Lit LNull)]
  | Bool b => Some [(key, Lit (LBool b))]
  | Number n => Some [(key, Lit (LNumber n))]
  | Str s => Some [(key, Lit (LString s))]
  | Object ((k1, v1) :: rest) =>
      match escape_inner v1, escape_props rest with
      | Some l1, Some items => Some ((key, Equals k1 l1) :: items)
      | _, _ => None
      end
  | Object [] | Array _ => None
  end.

Fixpoint set_list (updateFields : list (string * value))
  : option (list (string * expr)) :=
  match updateFields with
  | [] => Some []
  | (key, v) :: rest =>
      match set_items key v, set_list rest with
      | Some items, Some more => Some (items ++ more)
      | _, _ => None
      end
  end.

(** The numeric columns of the rows, by name; column names are not case
    sensitive. *)
Definition numeric_column (name : string) : option (row -> Z) :=
  let n := lowercase name in
  if String.eqb n "booking_id" then Some booking_id
  else if String.eqb n "spot_id" then Some spot_id
  else if String.eqb n "driver_id" then Some driver_id
  else if String.eqb n "homeowner_id" then Some homeowner_id
  else None.

(** A literal assigned to one of the three text-valued columns: the write,
    or [NotStorable]; [None] for another column or a literal whose
    conversion is not modelled.  TRUE and FALSE are the numbers 1 and 0. *)
Definition store_literal (name : string) (l : literal) : option Booking.item :=
  let n := lowercase name in
  if String.eqb n "payment_status" then
    match l with
    | LString s =>
        Some (Booking.stores_if Booking.set_payment_status
                (enum_of_string payment_status_members s))
    | LNumber k =>
        Some (Booking.stores_if Booking.set_payment_status
                (enum_at payment_status_members k))
    | LBool t =>
        Some (Booking.stores_if Booking.set_payment_status
                (enum_at payment_status_members (if t then 1 else 0)))
    | LNull => Some Booking.NotStorable
    end
  else if String.eqb n "booking_status" then
    match l with
    | LString s =>
        Some (Booking.stores_if Booking.set_booking_status
                (enum_of_string booking_status_members s))
    | LNumber k =>
        Some (Booking.stores_if Booking.set_booking_status
                (enum_at booking_status_members k))
    | LBool t =>
        Some (Booking.stores_if Booking.set_booking_status
                (enum_at booking_status_members (if t then 1 else 0)))
    | LNull => Some Booking.NotStorable
    end
  else if String.eqb n "stripe_payment_intent_id" then
    match l with
    | LString s =>
        Some (if Nat.leb (String.length s) 255
              then Booking.Stores (Booking.set_stripe_payment_intent_id (Some s))
              else Booking.NotStorable)
    | LNull => Some (Booking.Stores (Booking.set_stripe_payment_intent_id None))
    | LNumber _ | LBool _ => None
    end
  else None.

Definition write (i : Booking.item) (b : row) : option row :=
  match i with
  | Booking.Stores w => Some (w b)
  | _ => None
  end.

(** One item of the SET list as a write on a row, [None] on a row where the
    value is not one the column holds. *)
Definition compile (it : string * expr) : option (row -> option row) :=
  match snd it with
  | Lit l => option_map write (store_literal (fst it) l)
  | Equals k l =>
      match numeric_column k, l,
            store_literal (fst it) (LBool true),
            store_literal (fst it) (LBool false) with
      | Some column, LNumber n, Some yes, Some no =>
          Some (fun b => write (if column b =? n then yes else no) b)
      | _, _, _, _ => None
      end
  end.

(** The items take effect from left to right. *)
Fixpoint compile_all (items : list (string * expr)) : option (row -> option row) :=
  match items with
  | [] => Some (fun b => Some b)
  | it :: rest =>
      match compile it, compile_all rest with
      | Some w, Some ws =>
          Some (fun b => match w b with Some b' => ws b' | None => None end)
      | _, _ => None
      end
  end.

Fixpoint distinct (names : list string) : bool :=
  match names with
  | [] => true
  | n :: rest => negb (existsb (String.eqb n) rest) && distinct rest
  end.

Definition is_none {A : Type} (o : option A) : bool :=
  match o with Some _ => false | None => true end.

(** [Booking.updatePaymentStatus(bookingId, updateFields)] on such values:
    the statement is refused when a row it matches cannot be written. *)
Definition updatePaymentStatus (bookingId : value)
    (updateFields : list (string * value)) (st : store)
  : option (outcome bool * store) :=
  match updateFields with
  | [] => Some (Return false, st)
  | _ =>
      match bookingId, set_list updateFields with
      | Number id, Some items =>
          if distinct (map (fun it => lowercase (fst it)) items) then
            match compile_all items with
            | Some w =>
                let matched b := booking_id b =? id in
                if existsb (fun b => matched b && is_none (w b)) (tbl_bookings st)
                then Some (Throw None, st)
                else
                  Some (Return (Nat.ltb 0 (List.length
                                  (filter matched (tbl_bookings st)))),
                        with_bookings st
                          (map (fun b => if matched b
                                         then match w b with
                                              | Some b' => b'
                                              | None => b
                                              end
                                         else b)
                               (tbl_bookings st))
                          (next_booking_id st))
            | None => None
            end
          else None
      | _, _ => None
      end
  end.

(** [processStripePayment]. *)
Definition processStripePayment (retrieve : string -> outcome string)
    (u : user) (b : body) (st : store) : option (Z * store) :=
  if negb (truthy (bookingId b))
     || negb (truthy (paymentIntentId b))
     || negb (truthy (paymentStatus b))
  then Some (400, st)
  else
    match bookingId b, paymentIntentId b, paymentStatus b with
    | Some id, Some (Str intent), Some status =>
        match retrieve intent with
        | Throw _ => Some (500, st)
        | Return intent_status =>
            if negb (String.eqb intent_status "succeeded") then Some (400, st)
            else
              match updatePaymentStatus id
                      [("payment_status", status);
                       ("stripe_payment_intent_id", Str intent)] st with
              | Some (Throw _, st') => Some (500, st')
              | Some (Return true, st') => Some (200, st')
              | Some (Return false, st') => Some (400, st')
              | None => None
              end
        end
    | _, _, _ => None
    end.

(** A body whose three fields have the types the client is expected to
    send. *)
Definition of_body (b : PaymentController.body) : body :=
  {| bookingId := Some (Number (PaymentController.bookingId b));
     paymentIntentId := Some (Str (PaymentController.paymentIntentId b));
     paymentStatus := Some (Str (PaymentController.paymentStatus b)) |}.
End Untyped.

(** ** controllers/transaction.js *)

Module TransactionController.
Import Transaction.

Definition positive_if_given (o : option Z) : bool :=
  match o with
  | Some z => (0 <? z) && (z <=? max_safe_integer)
  | None => true
  end.

Definition at_most_if_given (n : nat) (o : option string) : bool :=
  match o with
  | Some s => Nat.leb (String.length s) n
  | None => true
  end.

(** [createTransactionSchema].  The three ids are positive safe integers, or
    null or left out; [amount] is a positive number; [currency] is "ETB" or
    "USD" ("ETB" when left out); [gateway] is a string of 1 to 50 characters;
    [gatewayReferenceId] and [description] are null, empty or strings of at
    most 255 and 1000 characters.  [type] and [status] are one of the strings
    of their enumerated types, which the types of the fields say. *)
Definition createTransactionSchema (value : transactionData) : bool :=
  positive_if_given (bookingId value)
  && positive_if_given (payerId value)
  && positive_if_given (receiverId value)
  && (0 <? td_amount value) && (td_amount value <=? max_safe_integer)
  && (String.eqb (td_currency value) "ETB" || String.eqb (td_currency value) "USD")
  && negb (String.eqb (td_gateway value) EmptyString)
  && Nat.leb (String.length (td_gateway value)) 50
  && at_most_if_given 255 (gatewayReferenceId value)
  && at_most_if_given 1000 (td_description value).

Definition with_userId (u : user) (value : transactionData) : transactionData :=
  {| userId := Some (user_id u);
     bookingId := bookingId value;
     payerId := payerId value;
     receiverId := receiverId value;
     td_amount := td_amount value;
     td_currency := td_currency value;
     td_type := td_type value;
     td_gateway := td_gateway value;
     gatewayReferenceId := gatewayReferenceId value;
     td_status := td_status value;
     td_description := td_description value |}.

Definition is_booking_payment (t : TransactionType) : bool :=
  match t with booking_payment => true | _ => false end.

Definition is_completed (s : TransactionStatus) : bool :=
  match s with tx_completed => true | _ => false end.

(** [if (id) { if (!(await User.findById(id))) return 400 }] *)
Definition user_missing (o : option Z) (st : store) : bool :=
  match o with
  | Some id => match User.findById id st with None => true | Some _ => false end
  | None => false
  end.

(** [if (type === "booking_payment" && bookingId) { if (!booking) return 404 }] *)
Definition booking_missing (d : transactionData) (st : store) : bool :=
  match bookingId d with
  | Some b =>
      is_booking_payment (td_type d)
      && match Booking.findById b st with None => true | Some _ => false end
  | None => false
  end.

(** The block that follows the recording of the transaction: for a
    completed booking payment whose booking is not yet paid, mark it paid,
    then confirm it if it was pending.  [Booking.updatePaymentStatus] is
    handed the primitive string ["paid"] as its [updateFields]. *)
Definition settle_booking (now : Z) (newTransaction : transactionData)
    (st : store) : Z * store :=
  match bookingId newTransaction with
  | Some b =>
      if is_booking_payment (td_type newTransaction)
         && is_completed (td_status newTransaction)
      then
        match Booking.findById b st with
        | Some bookingToUpdate =>
            if negb (payment_status_eqb
                       (bookings.payment_status bookingToUpdate) pay_paid)
            then
              match Booking.updatePaymentStatus b (JString "paid") st with
              | (Throw _, st1) => (500, st1)
              | (Return _, st1) =>
                  if booking_status_eqb
                       (bookings.booking_status bookingToUpdate) pending
                  then
                    match Booking.updateStatus now b confirmed
                            (Some "homeowner_confirm_time") st1 with
                    | (Throw _, st2) => (500, st2)
                    | (Return _, st2) => (201, st2)
                    end
                  else (201, st1)
              end
            else (201, st)
        | None => (201, st)
        end
      else (201, st)
  | None => (201, st)
  end.

(** [createTransaction], with the value that the property access
    [Transaction.create] evaluates to as a parameter: calling undefined
    raises a TypeError inside the try block, and the handler answers 500. *)
Definition createTransaction_with (create : option creator) (now : Z)
    (u : user) (value : transactionData) (st : store) : Z * store :=
  if negb (createTransactionSchema value) then (400, st)
  else
    let d := with_userId u value in
    if user_missing (payerId d) st then (400, st)
    else if user_missing (receiverId d) st then (400, st)
    else if booking_missing d st then (404, st)
    else
      match create with
      | None => (500, st)
      | Some f =>
          match f d st with
          | (Throw _, st1) => (500, st1)
          | (Return (_, newTransaction), st1) =>
              settle_booking now newTransaction st1
          end
      end.

Definition createTransaction : Z -> user -> transactionData -> store -> Z * store :=
  createTransaction_with (Transaction.method "create").

(** [updateTransactionStatus]. *)
Definition updateTransactionStatus (u : user) (id : Z)
    (status : TransactionStatus) (st : store) : Z * store :=
  if negb (role_eqb (user_type u) admin) then (403, st)
  else
    match Transaction.findById id st with
    | None => (404, st)
    | Some _ =>
        let (updated, st') := Transaction.updateStatus id status st in
        ((if updated then 200 else 400), st')
    end.
End TransactionController.

(** ** controllers/spotAvailability.js *)

Module SpotAvailabilityController.

(** The custom rule of [createAvailabilitySchema]: the range is not empty
    and does not end in the past. *)
Definition createAvailabilitySchema (now startTime endTime : Z) : bool :=
  negb (startTime >=? endTime) && negb (endTime <=? now).

Definition owns (u : user) (spot : parking_spots.row) : bool :=
  (parking_spots.homeowner_id spot =? user_id u)
  || role_eqb (user_type u) admin.

Definition createSpotAvailability (now : Z) (u : user) (spotId : Z)
    (startTime endTime : Z) (st : store) : Z * store :=
  if negb (createAvailabilitySchema now startTime endTime) then (400, st)
  else
    match ParkingSpot.findById spotId st with
    | None => (404, st)
    | Some spot =>
        if negb (owns u spot) then (403, st)
        else if negb (SpotAvailability.isTimeRangeAvailable
                        spotId startTime endTime None st)
        then (409, st)
        else
          let (_, st') :=
            SpotAvailability.createAvailability spotId startTime endTime st in
          (201, st')
    end.

(** [updateAvailabilitySchema]: at least one field, and an ordered range
    when both bounds are given. *)
Definition updateAvailabilitySchema (u : SpotAvailability.updateData) : bool :=
  match SpotAvailability.startTime u, SpotAvailability.endTime u,
        SpotAvailability.isBooked u with
  | None, None, None => false
  | Some s, Some e, _ => negb (s >=? e)
  | _, _, _ => true
  end.

Definition updateSpotAvailability (u : user) (availabilityId : Z)
    (updateData : SpotAvailability.updateData) (st : store) : Z * store :=
  if negb (updateAvailabilitySchema updateData) then (400, st)
  else
    match SpotAvailability.findById availabilityId st with
    | None => (404, st)
    | Some availability =>
        match ParkingSpot.findById (spot_availability.spot_id availability) st with
        | None => (403, st)
        | Some spot =>
            if negb (owns u spot) then (403, st)
            else
              let newStartTime :=
                match SpotAvailability.startTime updateData with
                | Some t => t
                | None => spot_availability.start_time availability
                end in
              let newEndTime :=
                match SpotAvailability.endTime updateData with
                | Some t => t
                | None => spot_availability.end_time availability
                end in
              let bounds_given :=
                match SpotAvailability.startTime updateData,
                      SpotAvailability.endTime updateData with
                | None, None => false
                | _, _ => true
                end in
              if bounds_given && (newStartTime >=? newEndTime) then (400, st)
              else if bounds_given
                      && negb (SpotAvailability.isTimeRangeAvailable
                                 (spot_availability.spot_id availability)
                                 newStartTime newEndTime (Some availabilityId) st)
              then (409, st)
              else
                let (updated, st') :=
                  SpotAvailability.updateAvailability availabilityId updateData st in
                ((if updated then 200 else 400), st')
        end
    end.
(** [deleteSpotAvailability]. *)
Definition deleteSpotAvailability (u : user) (availabilityId : Z) (st : store)
  : Z * store :=
  if availabilityId <=? 0 then (400, st)
  else
    match SpotAvailability.findById availabilityId st with
    | None => (404, st)
    | Some availability =>
        match ParkingSpot.findById (spot_availability.spot_id availability) st with
        | None => (403, st)
        | Some spot =>
            if negb (owns u spot) then (403, st)
            else if spot_availability.is_booked availability then (400, st)
            else
              let (deleted, st') :=
                SpotAvailability.deleteAvailability availabilityId st in
              ((if deleted then 200 else 400), st')
        end
    end.
End SpotAvailabilityController.

(** ** Requests in flight

    Each [await pool.query(...)] hands control back to the event loop, so
    other requests run between two round trips of one request.  No handler of
    the core opens a transaction or takes a lock: a round trip is the unit of
    atomicity.  A request in flight is the continuation left after its last
    round trip. *)

Module InFlight.

Inductive task : Type :=
(** [createBooking] / [Booking.create] *)
| CB_spot (d : Booking.bookingData)
| CB_overlap (d : Booking.bookingData) (owner : Z)
| CB_insert (d : Booking.bookingData) (owner : Z)
(** [createSpotAvailability] *)
| SA_spot (u : user) (spotId startTime endTime : Z)
| SA_check (spotId startTime endTime : Z)
| SA_insert (spotId startTime endTime : Z)
(** [updateSpotAvailability] *)
| UA_find (u : user) (availabilityId : Z) (updateData : SpotAvailability.updateData)
| UA_spot (u : user) (availabilityId : Z) (updateData : SpotAvailability.updateData)
    (availability : spot_availability.row)
| UA_check (availabilityId : Z) (updateData : SpotAvailability.updateData)
    (spotId newStartTime newEndTime : Z)
| UA_update (availabilityId : Z) (updateData : SpotAvailability.updateData)
(** the response has been sent *)
| Done (status : Z).

(** The synchronous prefix of each handler, up to its first round trip. *)
Definition createBooking (u : user) (body : BookingController.createBody) : task :=
  if BookingController.createBookingSchema body
  then CB_spot (BookingController.bookingData u body)
  else Done 400.

Definition createSpotAvailability (now : Z) (u : user)
    (spotId startTime endTime : Z) : task :=
  if SpotAvailabilityController.createAvailabilitySchema now startTime endTime
  then SA_spot u spotId startTime endTime
  else Done 400.

Definition updateSpotAvailability (u : user) (availabilityId : Z)
    (updateData : SpotAvailability.updateData) : task :=
  if SpotAvailabilityController.updateAvailabilitySchema updateData
  then UA_find u availabilityId updateData
  else Done 400.

(** One round trip of a request and the code up to its next [await]. *)
Definition step (t : task) (st : store) : task * store :=
  match t with
  | CB_spot d =>
      match Booking.select_spot (Booking.bd_spot_id d) st with
      | [] => (Done 404, st)
      | owner :: _ => (CB_overlap d owner, st)
      end
  | CB_overlap d owner =>
      match Booking.select_overlap (Booking.bd_spot_id d)
              (Booking.bd_start_time d) (Booking.bd_end_time d) st with
      | _ :: _ => (Done 409, st)
      | [] => (CB_insert d owner, st)
      end
  | CB_insert d owner =>
      match Booking.insert owner d st with
      | (Return _, st') => (Done 201, st')
      | (Throw _, st') => (Done 500, st')
      end
  | SA_spot u spotId s e =>
      match ParkingSpot.findById spotId st with
      | None => (Done 404, st)
      | Some spot =>
          if SpotAvailabilityController.owns u spot
          then (SA_check spotId s e, st)
          else (Done 403, st)
      end
  | SA_check spotId s e =>
      if SpotAvailability.isTimeRangeAvailable spotId s e None st
      then (SA_insert spotId s e, st)
      else (Done 409, st)
  | SA_insert spotId s e =>
      let (_, st') := SpotAvailability.createAvailability spotId s e st in
      (Done 201, st')
  | UA_find u availabilityId updateData =>
      match SpotAvailability.findById availabilityId st with
      | None => (Done 404, st)
      | Some availability => (UA_spot u availabilityId updateData availability, st)
      end
  | UA_spot u availabilityId updateData availability =>
      match ParkingSpot.findById (spot_availability.spot_id availability) st with
      | None => (Done 403, st)
      | Some spot =>
          if negb (SpotAvailabilityController.owns u spot) then (Done 403, st)
          else
            let newStartTime :=
              match SpotAvailability.startTime updateData with
              | Some t => t
              | None => spot_availability.start_time availability
              end in
            let newEndTime :=
              match SpotAvailability.endTime updateData with
              | Some t => t
              | None => spot_availability.end_time availability
              end in
            let bounds_given :=
              match SpotAvailability.startTime updateData,
                    SpotAvailability.endTime updateData with
              | None, None => false
              | _, _ => true
              end in
            if bounds_given && (newStartTime >=? newEndTime) then (Done 400, st)
            else if bounds_given
            then (UA_check availabilityId updateData
                    (spot_availability.spot_id availability)
                    newStartTime newEndTime, st)
            else (UA_update availabilityId updateData, st)
      end
  | UA_check availabilityId updateData spotId s e =>
      if SpotAvailability.isTimeRangeAvailable spotId s e (Some availabilityId) st
      then (UA_update availabilityId updateData, st)
      else (Done 409, st)
  | UA_update availabilityId updateData =>
      let (updated, st') :=
        SpotAvailability.updateAvailability availabilityId updateData st in
      (Done (if updated then 200 else 400), st')
  | Done c => (Done c, st)
  end.

(** The requests in flight, and the event loop resuming the [i]-th one. *)
Fixpoint resume (i : nat) (ts : list task) (st : store) : list task * store :=
  match ts with
  | [] => ([], st)
  | t :: rest =>
      match i with
      | O => let (t', st') := step t st in (t' :: rest, st')
      | S j => let (rest', st') := resume j rest st in (t :: rest', st')
      end
  end.

(** A schedule names, round trip by round trip, the request that runs. *)
Fixpoint run (schedule : list nat) (ts : list task) (st : store)
  : list task * store :=
  match schedule with
  | [] => (ts, st)
  | i :: later => let (ts', st') := resume i ts st in run later ts' st'
  end.
End InFlight.

(** * Vocabulary of the properties *)

Definition sample_booking (id spot s e : Z) (status : BookingStatus) : bookings.row :=
  Booking.set_booking_status status
    (Booking.new_row id 10 (Booking.mkData spot 20 s e 500 None None None)).

(** The operations of the booking path. *)
Inductive booking_op : Type :=
| CreateBooking (u : user) (body : BookingController.createBody)
| UpdateBookingStatus (now : Z) (u : user) (id : Z) (status : BookingStatus).

Definition exec (o : booking_op) (st : store) : Z * store :=
  match o with
  | CreateBooking u body => BookingController.createBooking u body st
  | UpdateBookingStatus now u id status =>
      BookingController.updateBookingStatus now u id status st
  end.

(** States reached from an empty [bookings] table (any users, spots and
    slots) by running requests one after the other. *)
Inductive reachable : store -> Prop :=
| reachable_init st : tbl_bookings st = [] -> reachable st
| reachable_step o st : reachable st -> reachable (snd (exec o st)).

Definition live (b : bookings.row) : bool :=
  negb (terminal (bookings.booking_status b)).

(** No two distinct non-terminal bookings of one spot overlap. *)
Definition disjoint_active (bs : list bookings.row) : Prop :=
  forall b1 b2,
    In b1 bs -> In b2 bs ->
    bookings.booking_id b1 <> bookings.booking_id b2 ->
    bookings.spot_id b1 = bookings.spot_id b2 ->
    live b1 = true -> live b2 = true ->
    overlaps (bookings.start_time b1) (bookings.end_time b1)
             (bookings.start_time b2) (bookings.end_time b2) = false.

Record consistent (st : store) : Prop := mkConsistent {
  ids_below_next :
    forall b, In b (tbl_bookings st) -> bookings.booking_id b < next_booking_id st;
  ids_unique : NoDup (map bookings.booking_id (tbl_bookings st));
  active_disjoint : disjoint_active (tbl_bookings st)
}.

(** The timestamp columns named by the switch of [updateBookingStatus]. *)
Definition lifecycle_timestamps : list string :=
  ["driver_check_in_time"; "driver_check_out_time";
   "homeowner_confirm_time"; "homeowner_reject_time"].

Definition names_lifecycle_timestamp (timeFieldToUpdate : option string) : Prop :=
  match timeFieldToUpdate with
  | None => True
  | Some column => In column lifecycle_timestamps
  end.

(** What one row looks like after [Booking.updateStatus]: the identifying and
    scheduling columns are kept, and the status is the new one exactly on the
    addressed row. *)
Definition status_written (id : Z) (status : BookingStatus)
    (b b' : bookings.row) : Prop :=
  bookings.booking_id b' = bookings.booking_id b
  /\ bookings.spot_id b' = bookings.spot_id b
  /\ bookings.start_time b' = bookings.start_time b
  /\ bookings.end_time b' = bookings.end_time b
  /\ (bookings.booking_id b = id -> bookings.booking_status b' = status)
  /\ (bookings.booking_id b <> id -> b' = b).

(** ** Sample data *)

Definition homeowner10 : user := mkUser 10 homeowner.
Definition driver20 : user := mkUser 20 driver.
Definition driver21 : user := mkUser 21 driver.
Definition admin30 : user := mkUser 30 admin.

(** Spot 1, owned by user 10. *)
Definition spot1 (status : SpotStatus) (is_available : bool) : parking_spots.row :=
  parking_spots.mk 1 10 is_available status.

Definition store_with (spots : list parking_spots.row)
    (bs : list bookings.row) (slots : list spot_availability.row) : store :=
  {| tbl_users := [homeowner10; driver20; driver21; admin30];
     tbl_parking_spots := spots;
     tbl_bookings := bs;
     tbl_spot_availability := slots;
     tbl_transactions := [];
     next_booking_id := 1 + Z.of_nat (List.length bs);
     next_availability_id := 1 + Z.of_nat (List.length slots);
     next_transaction_id := 1 |}.

(** An active spot with availability [09:00,17:00) (minutes of the day) and
    no booking. *)
Definition store_A : store :=
  store_with [spot1 active true] []
    [spot_availability.mk 1 1 540 1020 false].

Definition request (spot s e : Z) : BookingController.createBody :=
  BookingController.mkCreate spot s e 500 None.

(** The store with [status] and [is_available] of every spot replaced by the
    values [f] picks for it. *)
Definition relabel (f : parking_spots.row -> SpotStatus * bool) (st : store) : store :=
  {| tbl_users := tbl_users st;
     tbl_parking_spots :=
       map (fun ps => parking_spots.mk (parking_spots.spot_id ps)
                        (parking_spots.homeowner_id ps) (snd (f ps)) (fst (f ps)))
           (tbl_parking_spots st);
     tbl_bookings := tbl_bookings st;
     tbl_spot_availability := tbl_spot_availability st;
     tbl_transactions := tbl_transactions st;
     next_booking_id := next_booking_id st;
     next_availability_id := next_availability_id st;
     next_transaction_id := next_transaction_id st |}.

(** The candidate of a create request is free on a store: no row matches the
    overlap query. *)
Definition free (body : BookingController.createBody) (st : store) : Prop :=
  forall b, In b (tbl_bookings st) ->
    Booking.conflicts (BookingController.spotId body)
      (BookingController.startTime body) (BookingController.endTime body) b = false.

Definition spot_exists (spot : Z) (st : store) : Prop :=
  exists ps, In ps (tbl_parking_spots st) /\ parking_spots.spot_id ps = spot.

(** The actor column of the transition table of the design: the homeowner of
    the booking confirms, rejects, cancels as homeowner and completes; its
    driver cancels as driver, checks in and checks out; an admin may ask for
    any of them.  (No row of the table has the target [pending].) *)
Definition may_request (u : user) (b : bookings.row) (status : BookingStatus) : bool :=
  let isDriver :=
    (bookings.driver_id b =? user_id u) && role_eqb (user_type u) driver in
  let isHomeowner :=
    (bookings.homeowner_id b =? user_id u) && role_eqb (user_type u) homeowner in
  let isAdmin := role_eqb (user_type u) admin in
  match status with
  | pending => true
  | confirmed | rejected | cancelled_by_homeowner | completed => isHomeowner || isAdmin
  | cancelled_by_driver | checked_in | checked_out => isDriver || isAdmin
  end.

(** An admin asking for [completed]: the switch lets it through from any
    status. *)
Definition forced_completion (u : user) (status : BookingStatus) : Prop :=
  user_type u = admin /\ status = completed.

(** A request for the cancellation status the booking already has. *)
Definition repeated_cancellation (b : bookings.row) (status : BookingStatus) : Prop :=
  status = bookings.booking_status b
  /\ (status = cancelled_by_driver \/ status = cancelled_by_homeowner).

(** The operations of the payment path. *)
Inductive payment_op : Type :=
| CreatePaymentIntent (create_intent : Z -> string -> Z -> Z -> outcome string)
    (u : user) (b : PaymentController.intentBody)
| ProcessStripePayment (retrieve : string -> outcome string) (u : user)
    (b : PaymentController.body)
| UpdatePaymentStatus (u : user) (id : Z) (paymentStatus : PaymentStatus)
    (stripePaymentIntentId : option (option string))
| CreateTransaction (now : Z) (u : user) (value : Transaction.transactionData)
| UpdateTransactionStatus (u : user) (id : Z) (status : TransactionStatus).

Definition exec_payment (o : payment_op) (st : store) : Z * store :=
  match o with
  | CreatePaymentIntent create_intent u b =>
      PaymentController.createPaymentIntent create_intent u b st
  | ProcessStripePayment retrieve u b =>
      PaymentController.processStripePayment retrieve u b st
  | UpdatePaymentStatus u id paymentStatus stripePaymentIntentId =>
      BookingController.updatePaymentStatus u id paymentStatus
        stripePaymentIntentId st
  | CreateTransaction now u value =>
      TransactionController.createTransaction now u value st
  | UpdateTransactionStatus u id status =>
      TransactionController.updateTransactionStatus u id status st
  end.


(** The operations of the availability ledger. *)
Inductive ledger_op : Type :=
| DeclareAvailability (now : Z) (u : user) (spotId startTime endTime : Z)
| UpdateAvailability (u : user) (availabilityId : Z) (updateData : SpotAvailability.updateData)
| RemoveAvailability (u : user) (availabilityId : Z).

Definition exec_ledger (o : ledger_op) (st : store) : Z * store :=
  match o with
  | DeclareAvailability now u spotId s e =>
      SpotAvailabilityController.createSpotAvailability now u spotId s e st
  | UpdateAvailability u availabilityId updateData =>
      SpotAvailabilityController.updateSpotAvailability u availabilityId updateData st
  | RemoveAvailability u availabilityId =>
      SpotAvailabilityController.deleteSpotAvailability u availabilityId st
  end.

(** Ledgers reached from an empty [spot_availability] table by running
    ledger requests one after the other. *)
Inductive ledger_reachable : store -> Prop :=
| ledger_init st : tbl_spot_availability st = [] -> ledger_reachable st
| ledger_step o st : ledger_reachable st -> ledger_reachable (snd (exec_ledger o st)).

Record ledger_consistent (st : store) : Prop := mkLedgerConsistent {
  slot_ids_below_next :
    forall r, In r (tbl_spot_availability st) ->
              spot_availability.availability_id r < next_availability_id st;
  slot_ids_unique :
    NoDup (map spot_availability.availability_id (tbl_spot_availability st));
  slots_not_empty :
    forall r, In r (tbl_spot_availability st) ->
              spot_availability.start_time r < spot_availability.end_time r
}.

(** Some slot of the spot that is not booked overlaps the candidate
    [[s,e)]. *)
Definition overlaps_unbooked_slot (spotId s e : Z) (st : store) : Prop :=
  exists slot,
    In slot (tbl_spot_availability st)
    /\ spot_availability.spot_id slot = spotId
    /\ spot_availability.is_booked slot = false
    /\ spot_availability.start_time slot < e
    /\ s < spot_availability.end_time slot.

(** A row write that can be replayed: it keeps the columns the lookups read
    and writing twice is writing once. *)
Record replayable (f : bookings.row -> bookings.row) : Prop := mkReplayable {
  replay_same : forall b, f (f b) = f b;
  replay_id : forall b, bookings.booking_id (f b) = bookings.booking_id b;
  replay_spot : forall b, bookings.spot_id (f b) = bookings.spot_id b;
  replay_homeowner : forall b, bookings.homeowner_id (f b) = bookings.homeowner_id b
}.

(** The lifecycle timestamp of a row stored under a column name. *)
Definition timestamp_of (column : string) (b : bookings.row) : option Z :=
  if String.eqb column "driver_check_in_time" then bookings.driver_check_in_time b
  else if String.eqb column "driver_check_out_time" then bookings.driver_check_out_time b
  else if String.eqb column "homeowner_confirm_time" then bookings.homeowner_confirm_time b
  else if String.eqb column "homeowner_reject_time" then bookings.homeowner_reject_time b
  else None.

Definition names (timeFieldToUpdate : option string) (column : string) : bool :=
  match timeFieldToUpdate with
  | Some c => String.eqb c column
  | None => false
  end.

(** The columns of a booking that [Booking.updateStatus] must leave alone. *)
Definition same_booking_data (b b' : bookings.row) : Prop :=
  bookings.booking_id b' = bookings.booking_id b
  /\ bookings.spot_id b' = bookings.spot_id b
  /\ bookings.driver_id b' = bookings.driver_id b
  /\ bookings.homeowner_id b' = bookings.homeowner_id b
  /\ bookings.start_time b' = bookings.start_time b
  /\ bookings.end_time b' = bookings.end_time b
  /\ bookings.total_price b' = bookings.total_price b
  /\ bookings.payment_status b' = bookings.payment_status b
  /\ bookings.stripe_payment_intent_id b' = bookings.stripe_payment_intent_id b.

(** The tables other than [bookings], and the counters. *)
Definition same_elsewhere (st st' : store) : Prop :=
  tbl_users st' = tbl_users st
  /\ tbl_parking_spots st' = tbl_parking_spots st
  /\ tbl_spot_availability st' = tbl_spot_availability st
  /\ tbl_transactions st' = tbl_transactions st
  /\ next_booking_id st' = next_booking_id st
  /\ next_availability_id st' = next_availability_id st
  /\ next_transaction_id st' = next_transaction_id st.

(** ** Statements of the design that the code is compared with *)

(** A booking is created only if an unbooked availability slot of the spot
    contains the requested range. *)
Definition ledger_gates_creation : Prop :=
  forall (u : user) (body : BookingController.createBody) (st : store),
    fst (BookingController.createBooking u body st) = 201 ->
    SpotAvailability.checkAvailabilityForBooking (BookingController.spotId body)
      (BookingController.startTime body) (BookingController.endTime body) st
    = true.

(** A booking is created only on a spot that is active and available. *)
Definition spot_status_gates_creation : Prop :=
  forall (u : user) (body : BookingController.createBody) (st : store),
    fst (BookingController.createBooking u body st) = 201 ->
    forall ps, In ps (tbl_parking_spots st) ->
      parking_spots.spot_id ps = BookingController.spotId body ->
      parking_spots.status ps = active /\ parking_spots.is_available ps = true.

(** From a terminal status every transition request, by any actor, fails
    with 400 and leaves the status as it is. *)
Definition terminal_states_closed : Prop :=
  forall (now : Z) (u : user) (id : Z) (status : BookingStatus) (st : store)
         (b : bookings.row),
    Booking.findById id st = Some b ->
    terminal (bookings.booking_status b) = true ->
    let r := BookingController.updateBookingStatus now u id status st in
    fst r = 400
    /\ forall b', Booking.findById id (snd r) = Some b' ->
                  bookings.booking_status b' = bookings.booking_status b.

(** Some non-terminal booking of the spot overlaps the candidate of a create
    request, as half-open intervals. *)
Definition overlaps_live_booking (body : BookingController.createBody)
    (st : store) : Prop :=
  exists b,
    In b (tbl_bookings st)
    /\ bookings.spot_id b = BookingController.spotId body
    /\ terminal (bookings.booking_status b) = false
    /\ bookings.start_time b < BookingController.endTime body
    /\ BookingController.startTime body < bookings.end_time b.

(** Every stored booking has a range that is not empty, as the CHECK of the
    table demands. *)
Definition ranges_not_empty (st : store) : Prop :=
  forall b, In b (tbl_bookings st) -> bookings.start_time b < bookings.end_time b.

(** The conflict test of [createBooking] is the overlap policy: a validated
    request on an existing spot is refused with 409 exactly when a
    non-terminal booking of the spot meets the pair of strict inequalities,
    and the three clauses of the query say no more than that pair. *)
Definition conflict_is_overlap : Prop :=
  (forall s e cs ce : Z, Booking.time_conflict s e cs ce = overlaps s e cs ce)
  /\ forall (u : user) (body : BookingController.createBody) (st : store),
       BookingController.createBookingSchema body = true ->
       spot_exists (BookingController.spotId body) st ->
       ranges_not_empty st ->
       (fst (BookingController.createBooking u body st) = 409
        <-> overlaps_live_booking body st).


(** No two non-terminal bookings of one spot ever overlap, however the round
    trips of the create requests in flight are scheduled. *)
Definition never_double_booked_in_flight : Prop :=
  forall (schedule : list nat)
         (requests : list (user * BookingController.createBody)) (st : store),
    tbl_bookings st = [] ->
    disjoint_active
      (tbl_bookings
         (snd (InFlight.run schedule
                 (map (fun r => InFlight.createBooking (fst r) (snd r)) requests)
                 st))).



(** * The rest of the model and controller layer *)

(** ** ORDER BY

    [ORDER BY key ASC] as a stable insertion by [le]; rows with equal keys
    keep their table order (the store leaves their order open). *)

Fixpoint insert_by {A : Type} (le : A -> A -> bool) (x : A) (l : list A) : list A :=
  match l with
  | [] => [x]
  | y :: rest => if le x y then x :: y :: rest else y :: insert_by le x rest
  end.

Fixpoint order_by {A : Type} (le : A -> A -> bool) (l : list A) : list A :=
  match l with
  | [] => []
  | x :: rest => insert_by le x (order_by le rest)
  end.

(** ** models/parkingSpot.js, continued *)

Definition with_parking_spots (st : store) (spots : list parking_spots.row) : store :=
  {| tbl_users := tbl_users st;
     tbl_parking_spots := spots;
     tbl_bookings := tbl_bookings st;
     tbl_spot_availability := tbl_spot_availability st;
     tbl_transactions := tbl_transactions st;
     next_booking_id := next_booking_id st;
     next_availability_id := next_availability_id st;
     next_transaction_id := next_transaction_id st |}.

Module ParkingSpotModel.
Import parking_spots.

Definition set_is_available (isAvailable : bool) (ps : row) : row :=
  {| spot_id := spot_id ps;
     homeowner_id := homeowner_id ps;
     is_available := isAvailable;
     status := status ps |}.

(** [ParkingSpot.updateAvailability]:
    [UPDATE parking_spots SET is_available = ? WHERE spot_id = ?]. *)
Definition updateAvailability (spotId : Z) (isAvailable : bool) (st : store)
  : bool * store :=
  (Nat.ltb 0 (List.length (filter (fun ps => spot_id ps =? spotId)
                                  (tbl_parking_spots st))),
   with_parking_spots st
     (map (fun ps => if spot_id ps =? spotId
                     then set_is_available isAvailable ps else ps)
          (tbl_parking_spots st))).
End ParkingSpotModel.

(** ** controllers/parkingSpotController.js *)

Module ParkingSpotController.

Definition is_active (s : SpotStatus) : bool :=
  match s with active => true | _ => false end.

(** [getParkingSpotById]: [reqUser] is [req.user], undefined when no
    middleware has set it.  The answer is the status and the spot sent with a
    200. *)
Definition getParkingSpotById (reqUser : option user) (id : Z) (st : store)
  : Z * option parking_spots.row :=
  match ParkingSpot.findById id st with
  | None => (404, None)
  | Some spot =>
      let full_access :=
        match reqUser with
        | Some u =>
            (user_id u =? parking_spots.homeowner_id spot)
            || role_eqb (user_type u) admin
        | None => false
        end in
      if full_access then (200, Some spot)
      else if negb (is_active (parking_spots.status spot))
              || negb (parking_spots.is_available spot)
      then (404, None)
      else (200, Some spot)
  end.

(** [toggleParkingSpotAvailability]. *)
Definition toggleParkingSpotAvailability (u : user) (id : Z) (st : store)
  : Z * store :=
  match ParkingSpot.findById id st with
  | None => (404, st)
  | Some existingSpot =>
      if negb (user_id u =? parking_spots.homeowner_id existingSpot)
         && negb (role_eqb (user_type u) admin)
      then (403, st)
      else
        let newAvailabilityStatus := negb (parking_spots.is_available existingSpot) in
        let (updated, st') :=
          ParkingSpotModel.updateAvailability id newAvailabilityStatus st in
        ((if updated then 200 else 400), st')
  end.
End ParkingSpotController.

(** ** middleware/auth.js and routes/parkingSpot.js *)

Module Auth.

(** [protect]: [decoded] is the [user_id] of the verified token, or [None]
    when there is no token or its verification fails.  The user attached to
    the request is read from [users]. *)
Definition protect (decoded : option Z) (st : store) : Z + user :=
  match decoded with
  | None => inl 401
  | Some id =>
      match User.findById id st with
      | None => inl 404
      | Some row => inr (mkUser (user_id row) (user_type row))
      end
  end.

(** [authorize(roles)] after [protect]. *)
Definition authorize (roles : list Role) (u : user)
    (next : store -> Z * store) (st : store) : Z * store :=
  if existsb (role_eqb (user_type u)) roles then next st else (403, st).

(** [authorizeHomeowner] after [protect]. *)
Definition authorizeHomeowner (u : user)
    (next : store -> Z * store) (st : store) : Z * store :=
  if role_eqb (user_type u) homeowner then next st else (403, st).
End Auth.

Module ParkingSpotRoutes.

(** [router.get("/:id", getParkingSpotById)]: no middleware runs before the
    controller, so [req.user] is undefined. *)
Definition get_by_id (id : Z) (st : store) : Z * option parking_spots.row :=
  ParkingSpotController.getParkingSpotById None id st.

(** [router.patch("/:id/toggle-availability", protect, authorizeHomeowner,
    toggleParkingSpotAvailability)]. *)
Definition patch_toggle_availability (decoded : option Z) (id : Z) (st : store)
  : Z * store :=
  match Auth.protect decoded st with
  | inl code => (code, st)
  | inr u =>
      Auth.authorizeHomeowner u
        (ParkingSpotController.toggleParkingSpotAvailability u id) st
  end.
End ParkingSpotRoutes.

(** ** models/spotAvailability.js, continued *)

Module SpotAvailabilityModel.
Import spot_availability.

Definition set_is_booked (v : bool) (r : row) : row :=
  {| availability_id := availability_id r;
     spot_id := spot_id r;
     start_time := start_time r;
     end_time := end_time r;
     is_booked := v |}.

(** [markAsBooked]: [UPDATE spot_availability SET is_booked = TRUE WHERE
    availability_id = ? AND is_booked = FALSE]. *)
Definition markAsBooked (availabilityId : Z) (st : store) : bool * store :=
  let hit r := (availability_id r =? availabilityId) && negb (is_booked r) in
  (Nat.ltb 0 (List.length (filter hit (tbl_spot_availability st))),
   with_spot_availability st
     (map (fun r => if hit r then set_is_booked true r else r)
          (tbl_spot_availability st))
     (next_availability_id st)).

(** The WHERE clause of [findBySpotId]: each bound is appended to the query
    only when it is given. *)
Definition in_bounds (spotId : Z) (start end_ : option Z) (r : row) : bool :=
  (spot_id r =? spotId)
  && match start with Some s => start_time r >=? s | None => true end
  && match end_ with Some e => end_time r <=? e | None => true end.

(** [findBySpotId]: [... ORDER BY start_time ASC]. *)
Definition findBySpotId (spotId : Z) (start end_ : option Z) (st : store)
  : list row :=
  order_by (fun a b => start_time a <=? start_time b)
           (filter (in_bounds spotId start end_) (tbl_spot_availability st)).
End SpotAvailabilityModel.

(** [getSpotAvailability] of controllers/spotAvailability.js. *)
Definition getSpotAvailability (spotId : Z) (start end_ : option Z) (st : store)
  : Z * list spot_availability.row :=
  if spotId <=? 0 then (400, [])
  else (200, SpotAvailabilityModel.findBySpotId spotId start end_ st).

(** ** models/booking.js and controllers/booking.js: the bookings of a spot *)

Module BookingCalendar.

(** The columns [Booking.findBySpotId] selects ([booking_status] under the
    alias [status]). *)
Record entry : Type := mkEntry {
  booking_id : Z;
  start_time : Z;
  end_time : Z;
  status : BookingStatus;
  payment_status : PaymentStatus
}.

Definition entry_of (b : bookings.row) : entry :=
  {| booking_id := bookings.booking_id b;
     start_time := bookings.start_time b;
     end_time := bookings.end_time b;
     status := bookings.booking_status b;
     payment_status := bookings.payment_status b |}.

(** [Booking.findBySpotId]: [SELECT ... FROM bookings WHERE spot_id = ?
    ORDER BY start_time ASC], without a join and without a filter on the
    status. *)
Definition findBySpotId (spotId : Z) (st : store) : list entry :=
  order_by (fun a b => start_time a <=? start_time b)
    (map entry_of
         (filter (fun b => bookings.spot_id b =? spotId) (tbl_bookings st))).

(** [getBookingsForSpot], for a [spotId] that parses as an integer: the body
    of the authorization [if] is empty, so every authenticated user is
    served. *)
Definition getBookingsForSpot (u : user) (spotId : Z) (st : store)
  : Z * list entry :=
  match ParkingSpot.findById spotId st with
  | None => (404, [])
  | Some spot =>
      let _ := negb (parking_spots.homeowner_id spot =? user_id u)
               && negb (role_eqb (user_type u) admin) in
      (200, findBySpotId spotId st)
  end.
End BookingCalendar.

(** ** models/parkingSpot.js: search *)

Module ParkingSpotSearch.

(** [searchSpots]: [WHERE 1=1 AND ps.is_available = TRUE AND ps.status =
    'active'] followed by the conditions of the criteria given, which bear
    on columns ([city], [spot_type], [vehicle_size_accommodated],
    [price_per_hour]) outside the row model and are taken as a predicate on
    the row.  The rows selected are modelled, not their order (by
    [created_at]). *)
Definition searchSpots (criteria : parking_spots.row -> bool) (st : store)
  : list parking_spots.row :=
  filter (fun ps => parking_spots.is_available ps
                    && ParkingSpotController.is_active (parking_spots.status ps)
                    && criteria ps)
         (tbl_parking_spots st).
End ParkingSpotSearch.

(** ** models/notification.js

    The model touches the [notifications] table only: the table and its
    AUTO_INCREMENT counter are the state. *)

Module notifications.
Record row : Type := mk {
  notification_id : Z;
  user_id : Z;
  related_entity_type : string;
  related_entity_id : option Z;
  message : string;
  is_read : bool;
  created_at : Z
}.

Record table : Type := mkTable {
  rows : list row;
  next_id : Z
}.
End notifications.

Module Notification.
Import notifications.

(** [create]: [is_read] and [created_at] take their column defaults, FALSE
    and the current time. *)
Definition create (now userId : Z) (relatedEntityType : string)
    (relatedEntityId : option Z) (message : string) (t : table) : row * table :=
  let r := {| notification_id := next_id t;
              user_id := userId;
              related_entity_type := relatedEntityType;
              related_entity_id := relatedEntityId;
              message := message;
              is_read := false;
              created_at := now |} in
  (r, {| rows := rows t ++ [r]; next_id := next_id t + 1 |}).

(** [findById]: [rows[0] || null]. *)
Definition findById (notificationId : Z) (t : table) : option row :=
  find (fun r => notification_id r =? notificationId) (rows t).

(** [findByUserId]: [AND is_read = FALSE] is appended when [unreadOnly];
    [ORDER BY created_at DESC]. *)
Definition findByUserId (userId : Z) (unreadOnly : bool) (t : table) : list row :=
  order_by (fun a b => created_at b <=? created_at a)
    (filter (fun r => (user_id r =? userId)
                      && (if unreadOnly then negb (is_read r) else true))
            (rows t)).

Definition set_read (r : row) : row :=
  {| notification_id := notification_id r;
     user_id := user_id r;
     related_entity_type := related_entity_type r;
     related_entity_id := related_entity_id r;
     message := message r;
     is_read := true;
     created_at := created_at r |}.

(** The WHERE clause of [markAsRead]; the second conjunct is appended when a
    notification id is given. *)
Definition addressed (userId : Z) (notificationId : option Z) (r : row) : bool :=
  (user_id r =? userId)
  && match notificationId with
     | Some id => notification_id r =? id
     | None => true
     end.

(** [markAsRead]: [UPDATE notifications SET is_read = TRUE WHERE ...]. *)
Definition markAsRead (userId : Z) (notificationId : option Z) (t : table)
  : bool * table :=
  (Nat.ltb 0 (List.length (filter (addressed userId notificationId) (rows t))),
   {| rows := map (fun r => if addressed userId notificationId r
                            then set_read r else r) (rows t);
      next_id := next_id t |}).

(** [delete]: [DELETE FROM notifications WHERE notification_id = ? AND
    user_id = ?]. *)
Definition delete (notificationId userId : Z) (t : table) : bool * table :=
  let hit r := (notification_id r =? notificationId) && (user_id r =? userId) in
  (Nat.ltb 0 (List.length (filter hit (rows t))),
   {| rows := filter (fun r => negb (hit r)) (rows t);
      next_id := next_id t |}).
End Notification.

(** ** controllers/notification.js *)

Module NotificationController.

(** [getNotifications]: [unread] is [req.query.unread === "true"]. *)
Definition getNotifications (u : user) (unread : bool) (t : notifications.table)
  : Z * list notifications.row :=
  (200, Notification.findByUserId (user_id u) unread t).

(** [markNotificationAsRead]: [id] is [req.params.id], undefined on the
    mark-all route. *)
Definition markNotificationAsRead (u : user) (id : option Z)
    (t : notifications.table) : Z * notifications.table :=
  let (updated, t') := Notification.markAsRead (user_id u) id t in
  ((if updated then 200 else 404), t').

(** [deleteNotification]. *)
Definition deleteNotification (u : user) (id : Z) (t : notifications.table)
  : Z * notifications.table :=
  match Notification.findById id t with
  | None => (404, t)
  | Some notification =>
      if negb (notifications.user_id notification =? user_id u)
         && negb (role_eqb (user_type u) admin)
      then (403, t)
      else
        let (deleted, t') := Notification.delete id (user_id u) t in
        ((if deleted then 200 else 400), t')
  end.
End NotificationController.

(** ** models/review.js and controllers/review.js *)

Module reviews.
Record row : Type := mk {
  review_id : Z;
  booking_id : Z;
  reviewer_id : Z;
  spot_id : Z;
  rating : Z;
  comment : option string
}.

Record table : Type := mkTable {
  rows : list row;
  next_id : Z
}.
End reviews.

Module Review.
Import reviews.

(** [createReview]: one INSERT. *)
Definition createReview (bookingId reviewerId spotId rating : Z)
    (comment : option string) (t : table) : row * table :=
  let r := {| review_id := next_id t;
              booking_id := bookingId;
              reviewer_id := reviewerId;
              spot_id := spotId;
              rating := rating;
              comment := comment |} in
  (r, {| rows := rows t ++ [r]; next_id := next_id t + 1 |}).

(** [findByBookingId]: [rows[0]]. *)
Definition findByBookingId (bookingId : Z) (t : table) : option row :=
  find (fun r => booking_id r =? bookingId) (rows t).
End Review.

Module ReviewController.

(** The body accepted by [createReviewSchema]; [comment] is [None] when it
    is undefined or null. *)
Record body : Type := mkBody {
  bookingId : Z;
  rating : Z;
  comment : option string
}.

(** [createReviewSchema]: a positive booking id, a rating from 1 to 5, a
    comment of at most 1000 characters. *)
Definition createReviewSchema (b : body) : bool :=
  (0 <? bookingId b)
  && (1 <=? rating b) && (rating b <=? 5)
  && match comment b with
     | Some c => Nat.leb (String.length c) 1000
     | None => true
     end.

(** [comment || null]: the empty string is stored as NULL. *)
Definition comment_or_null (c : option string) : option string :=
  match c with
  | Some s => if String.eqb s EmptyString then None else Some s
  | None => None
  end.

(** [createReview]: reads [bookings], writes [reviews]. *)
Definition createReview (u : user) (b : body) (st : store) (t : reviews.table)
  : Z * reviews.table :=
  if negb (createReviewSchema b) then (400, t)
  else
    match Booking.findById (bookingId b) st with
    | None => (404, t)
    | Some booking =>
        if negb (bookings.driver_id booking =? user_id u) then (403, t)
        else if negb (booking_status_eqb (bookings.booking_status booking) completed)
        then (400, t)
        else
          match Review.findByBookingId (bookingId b) t with
          | Some _ => (409, t)
          | None =>
              let (_, t') :=
                Review.createReview (bookingId b) (user_id u)
                  (bookings.spot_id booking) (rating b)
                  (comment_or_null (comment b)) t in
              (201, t')
          end
    end.
End ReviewController.

(** ** Column names from request keys

    [key.replace(/([A-Z])/g, "_$1").toLowerCase()], used by [User.updateUser]
    and by [updateParkingSpot], on keys made of ASCII characters. *)

Module Keys.

Definition is_upper (c : Ascii.ascii) : bool :=
  (65 <=? Ascii.nat_of_ascii c)%nat && (Ascii.nat_of_ascii c <=? 90)%nat.

Definition lower (c : Ascii.ascii) : Ascii.ascii :=
  if is_upper c then Ascii.ascii_of_nat (Ascii.nat_of_ascii c + 32) else c.

(** [.replace(/([A-Z])/g, "_$1")]: an underscore before every capital. *)
Fixpoint underscore_capitals (s : string) : string :=
  match s with
  | EmptyString => EmptyString
  | String c rest =>
      if is_upper c then String (Ascii.ascii_of_nat 95) (String c (underscore_capitals rest))
      else String c (underscore_capitals rest)
  end.

(** [.toLowerCase()]. *)
Fixpoint toLowerCase (s : string) : string :=
  match s with
  | EmptyString => EmptyString
  | String c rest => String (lower c) (toLowerCase rest)
  end.

Definition column_of_key (key : string) : string :=
  toLowerCase (underscore_capitals key).

Fixpoint has_upper (s : string) : bool :=
  match s with
  | EmptyString => false
  | String c rest => is_upper c || has_upper rest
  end.

(** The keys of [updateParkingSpotSchema]. *)
Definition updateParkingSpotSchema_keys : list string :=
  ["spotName"; "description"; "addressLine1"; "addressLine2"; "city";
   "subCity"; "woreda"; "latitude"; "longitude"; "pricePerHour"; "spotType";
   "vehicleSizeAccommodated"; "amenities"; "isAvailable"; "status"].

(** The columns [ParkingSpot.createSpot] inserts, besides [homeowner_id]. *)
Definition parking_spot_columns : list string :=
  ["spot_name"; "description"; "address_line_1"; "address_line_2"; "city";
   "sub_city"; "woreda"; "latitude"; "longitude"; "price_per_hour"; "spot_type";
   "vehicle_size_accommodated"; "amenities"; "is_available"; "status"].

(** The keys [updateUserById] hands to [User.updateUser] (those of
    [adminUpdateUserSchema], with [password] replaced by [password_hash]),
    which include the keys of [updateProfileSchema]. *)
Definition updateUser_keys : list string :=
  ["firstName"; "lastName"; "phoneNumber"; "email"; "password_hash";
   "userType"; "profilePictureUrl"; "identificationVerified";
   "paymentPayoutDetails"].

(** The columns [User.createUser] inserts. *)
Definition user_columns : list string :=
  ["first_name"; "last_name"; "phone_number"; "email"; "password_hash";
   "user_type"; "profile_picture_url"; "identification_verified";
   "payment_payout_details"].
End Keys.

(** * Vocabulary of the further properties *)

(** The timestamp column each case of the switch of [updateBookingStatus]
    names. *)
Definition timestamp_for (status : BookingStatus) : option string :=
  match status with
  | confirmed => Some "homeowner_confirm_time"
  | rejected => Some "homeowner_reject_time"
  | checked_in => Some "driver_check_in_time"
  | checked_out => Some "driver_check_out_time"
  | _ => None
  end.

(** How far a booking is along its lifecycle: the four live statuses in
    order, then the terminal ones. *)
Definition stage (s : BookingStatus) : nat :=
  match s with
  | pending => 0
  | confirmed => 1
  | checked_in => 2
  | checked_out => 3
  | rejected | cancelled_by_driver | cancelled_by_homeowner | completed => 4
  end.

(** The ids in use are below the AUTO_INCREMENT counter. *)
Definition booking_ids_fresh (st : store) : Prop :=
  forall b, In b (tbl_bookings st) -> bookings.booking_id b < next_booking_id st.

(** The handlers modelled so far, as one request type, and a run of requests
    served one after the other. *)
Inductive api_op : Type :=
| OnBookings (o : booking_op)
| OnPayments (o : payment_op)
| OnLedger (o : ledger_op).

Definition api_exec (o : api_op) (st : store) : Z * store :=
  match o with
  | OnBookings o => exec o st
  | OnPayments o => exec_payment o st
  | OnLedger o => exec_ledger o st
  end.

Definition api_run (ops : list api_op) (st : store) : store :=
  fold_left (fun s o => snd (api_exec o s)) ops st.

(** The primary keys of [transactions], in table order, with the
    AUTO_INCREMENT counter. *)
Definition transaction_ids (st : store) : list Z * Z :=
  (map transactions.transaction_id (tbl_transactions st), next_transaction_id st).

(** What the payment write does to one row: [payment_status] becomes [p],
    the stored gateway reference becomes the one given (when the SET list
    has the key), and no other column changes. *)
Definition paid_with (p : PaymentStatus) (intent : option (option string))
    (b b' : bookings.row) : Prop :=
  bookings.payment_status b' = p
  /\ bookings.stripe_payment_intent_id b'
     = match intent with
       | Some v => v
       | None => bookings.stripe_payment_intent_id b
       end
  /\ Booking.set_stripe_payment_intent_id (bookings.stripe_payment_intent_id b)
       (Booking.set_payment_status (bookings.payment_status b) b')
     = b.

(** Some row of [bookings] has the id (the WHERE clause of the UPDATE, which
    does not join the spot). *)
Definition booking_row_exists (id : Z) (st : store) : Prop :=
  exists x, In x (tbl_bookings st) /\ bookings.booking_id x = id.

(** A ledger request that does not set [is_booked] to TRUE. *)
Definition never_books (o : ledger_op) : bool :=
  match o with
  | UpdateAvailability _ _ updateData =>
      match SpotAvailability.isBooked updateData with
      | Some true => false
      | _ => true
      end
  | _ => true
  end.

Definition ledger_run (ops : list ledger_op) (st : store) : store :=
  fold_left (fun s o => snd (exec_ledger o s)) ops st.

(** Two distinct slots of one spot, neither of them booked, that overlap. *)
Definition overlapping_unbooked_slots (st : store) : Prop :=
  exists r1 r2,
    In r1 (tbl_spot_availability st) /\ In r2 (tbl_spot_availability st)
    /\ spot_availability.availability_id r1 <> spot_availability.availability_id r2
    /\ spot_availability.spot_id r1 = spot_availability.spot_id r2
    /\ spot_availability.is_booked r1 = false
    /\ spot_availability.is_booked r2 = false
    /\ overlaps (spot_availability.start_time r1) (spot_availability.end_time r1)
                (spot_availability.start_time r2) (spot_availability.end_time r2)
       = true.

(** No slot is booked, and the slots of one spot are pairwise disjoint. *)
Record unbooked_disjoint (st : store) : Prop := mkUnbookedDisjoint {
  all_unbooked :
    forall r, In r (tbl_spot_availability st) ->
              spot_availability.is_booked r = false;
  slots_disjoint :
    forall r1 r2,
      In r1 (tbl_spot_availability st) -> In r2 (tbl_spot_availability st) ->
      spot_availability.availability_id r1 <> spot_availability.availability_id r2 ->
      spot_availability.spot_id r1 = spot_availability.spot_id r2 ->
      overlaps (spot_availability.start_time r1) (spot_availability.end_time r1)
               (spot_availability.start_time r2) (spot_availability.end_time r2)
      = false
}.

(** Booking requests and review requests, served one after the other on the
    store and the [reviews] table. *)
Inductive review_op : Type :=
| OnBooking (o : booking_op)
| CreateReview (u : user) (b : ReviewController.body).

Definition review_exec (o : review_op) (s : store * reviews.table)
  : Z * (store * reviews.table) :=
  match o with
  | OnBooking o => (fst (exec o (fst s)), (snd (exec o (fst s)), snd s))
  | CreateReview u b =>
      (fst (ReviewController.createReview u b (fst s) (snd s)),
       (fst s, snd (ReviewController.createReview u b (fst s) (snd s))))
  end.

Definition review_run (ops : list review_op) (s : store * reviews.table)
  : store * reviews.table :=
  fold_left (fun s o => snd (review_exec o s)) ops s.

(** The booking a review is about: completed, driven by the reviewer, on the
    spot the review names. *)
Definition reviewed (st : store) (r : reviews.row) : Prop :=
  exists b,
    In b (tbl_bookings st)
    /\ bookings.booking_id b = reviews.booking_id r
    /\ bookings.booking_status b = completed
    /\ bookings.driver_id b = reviews.reviewer_id r
    /\ bookings.spot_id b = reviews.spot_id r.

Record reviews_sound (s : store * reviews.table) : Prop := mkReviewsSound {
  one_review_per_booking :
    NoDup (map reviews.booking_id (reviews.rows (snd s)));
  ratings_in_range :
    forall r, In r (reviews.rows (snd s)) -> 1 <= reviews.rating r <= 5;
  reviews_of_completed_bookings :
    forall r, In r (reviews.rows (snd s)) -> reviewed (fst s) r
}.
(** * Properties *)

(** ** The overlap checker *)

Lemma overlaps_spec (s1 e1 s2 e2 : Z) :
  overlaps s1 e1 s2 e2 = true <-> s1 < e2 /\ s2 < e1.
Proof.
  unfold overlaps. rewrite andb_true_iff, !Z.ltb_lt. tauto.
Qed.

Lemma overlaps_sym (s1 e1 s2 e2 : Z) :
  overlaps s1 e1 s2 e2 = overlaps s2 e2 s1 e1.
Proof. unfold overlaps. apply andb_comm. Qed.

Lemma contains_spec (s e t : Z) : contains s e t = true <-> s <= t < e.
Proof.
  unfold contains. rewrite andb_true_iff, Z.leb_le, Z.ltb_lt. tauto.
Qed.

(** Two ranges sharing an instant overlap. *)
Lemma common_instant_overlaps (s1 e1 s2 e2 t : Z) :
  contains s1 e1 t = true -> contains s2 e2 t = true ->
  overlaps s1 e1 s2 e2 = true.
Proof.
  rewrite !contains_spec, overlaps_spec. lia.
Qed.

Ltac bool_to_Z :=
  repeat rewrite ?orb_true_iff, ?andb_true_iff, ?negb_true_iff,
    ?Z.ltb_lt, ?Z.gtb_ltb, ?Z.geb_leb, ?Z.leb_le, ?Z.ltb_lt, ?Z.eqb_eq,
    ?Z.ltb_ge, ?Z.leb_gt.

Lemma booking_time_conflict_spec (s e cs ce : Z) :
  Booking.time_conflict s e cs ce = true <->
  (s < ce /\ cs < e) \/ (s < cs /\ ce < e) \/ (cs <= s /\ e <= ce).
Proof.
  unfold Booking.time_conflict. bool_to_Z. tauto.
Qed.

(** The first clause alone is the overlap policy, so the query never misses
    an overlap, whatever the shape of the two ranges. *)
Lemma overlaps_time_conflict (s e cs ce : Z) :
  overlaps s e cs ce = true -> Booking.time_conflict s e cs ce = true.
Proof.
  rewrite overlaps_spec, booking_time_conflict_spec. tauto.
Qed.

Lemma booking_conflicts_spec (spot cs ce : Z) (b : bookings.row) :
  Booking.conflicts spot cs ce b = true <->
  bookings.spot_id b = spot
  /\ Booking.time_conflict (bookings.start_time b) (bookings.end_time b) cs ce = true
  /\ terminal (bookings.booking_status b) = false.
Proof.
  unfold Booking.conflicts. bool_to_Z. tauto.
Qed.

Lemma ledger_time_conflict_spec (s e cs ce : Z) :
  SpotAvailability.time_conflict s e cs ce = true <->
  (s < ce /\ cs < e) \/ (cs <= s /\ s < ce) \/ (cs < e /\ e <= ce).
Proof.
  unfold SpotAvailability.time_conflict. bool_to_Z. tauto.
Qed.

(** For an existing range that is not empty and a candidate whose end is not
    before its start, the three clauses of the overlap query of
    [Booking.create], and those of [isTimeRangeAvailable], are the pair of
    strict inequalities. *)
Lemma time_conflict_half_open (s e cs ce : Z) :
  s < e -> cs <= ce ->
  (Booking.time_conflict s e cs ce = true <-> s < ce /\ cs < e)
  /\ (SpotAvailability.time_conflict s e cs ce = true <-> s < ce /\ cs < e).
Proof.
  intros Hse Hc. rewrite booking_time_conflict_spec, ledger_time_conflict_spec. lia.
Qed.

Lemma conflicts_half_open (spot cs ce : Z) (b : bookings.row) :
  bookings.start_time b < bookings.end_time b -> cs <= ce ->
  (Booking.conflicts spot cs ce b = true
   <-> bookings.spot_id b = spot
       /\ terminal (bookings.booking_status b) = false
       /\ bookings.start_time b < ce /\ cs < bookings.end_time b).
Proof.
  intros Hb Hc. rewrite booking_conflicts_spec.
  rewrite (proj1 (time_conflict_half_open _ _ _ _ Hb Hc)). tauto.
Qed.

(** On other shapes the three clauses and the policy part ways: the second
    clause fires for a candidate that ends before it starts, the third for an
    empty existing range. *)
Remark time_conflict_on_inverted_candidate :
  Booking.time_conflict 7 8 10 5 = true /\ overlaps 7 8 10 5 = false.
Proof. split; reflexivity. Qed.

Remark time_conflict_on_empty_existing :
  Booking.time_conflict 5 5 5 5 = true /\ overlaps 5 5 5 5 = false.
Proof. split; reflexivity. Qed.

(** ** The core safety invariant *)

Section ListFacts.
Context {A B : Type}.

Lemma filter_nil_forall (p : A -> bool) (l : list A) :
  filter p l = [] -> forall a, In a l -> p a = false.
Proof.
  induction l as [|x l IH]; simpl; intros Hnil a Hin; [contradiction|].
  destruct (p x) eqn:Hx; [discriminate|].
  destruct Hin as [->|Hin]; auto.
Qed.

Lemma map_nil_inv (f : A -> B) (l : list A) : map f l = [] -> l = [].
Proof. destruct l; simpl; [reflexivity|discriminate]. Qed.

Lemma NoDup_map_injective_on (f : A -> B) (l : list A) :
  NoDup (map f l) ->
  forall a b, In a l -> In b l -> f a = f b -> a = b.
Proof.
  induction l as [|x l IH]; simpl; intros Hnd a b Ha Hb Hab; [contradiction|].
  inversion Hnd as [|? ? Hnotin Hnd']; subst.
  destruct Ha as [->|Ha], Hb as [->|Hb]; auto.
  - exfalso. apply Hnotin. rewrite Hab. now apply in_map.
  - exfalso. apply Hnotin. rewrite <- Hab. now apply in_map.
Qed.

Lemma NoDup_snoc (l : list A) (x : A) :
  NoDup l -> ~ In x l -> NoDup (l ++ [x]).
Proof.
  induction l as [|y l IH]; simpl; intros Hnd Hx.
  - constructor; [intros []|constructor].
  - inversion Hnd as [|? ? Hy Hnd']; subst. constructor.
    + intros Hin. apply in_app_or in Hin as [Hin|[->|[]]]; tauto.
    + apply IH; tauto.
Qed.

Lemma find_some_in (p : A -> bool) (l : list A) (a : A) :
  find p l = Some a -> In a l /\ p a = true.
Proof. apply find_some. Qed.
End ListFacts.

(** What the overlap query of [Booking.create] guarantees when it returns no
    row. *)
Lemma select_overlap_nil (spot cs ce : Z) (st : store) :
  Booking.select_overlap spot cs ce st = [] ->
  forall b, In b (tbl_bookings st) -> Booking.conflicts spot cs ce b = false.
Proof.
  unfold Booking.select_overlap. intros H.
  apply filter_nil_forall. now apply map_nil_inv in H.
Qed.

(** [Booking.create] resolves only along one path. *)
Lemma create_returns (d : Booking.bookingData) (st st' : store) (r : bookings.row) :
  Booking.create d st = (Return r, st') ->
  exists owner,
    Booking.select_overlap (Booking.bd_spot_id d) (Booking.bd_start_time d)
      (Booking.bd_end_time d) st = []
    /\ In owner (Booking.select_spot (Booking.bd_spot_id d) st)
    /\ r = Booking.new_row (next_booking_id st) owner d
    /\ st' = with_bookings st (tbl_bookings st ++ [r]) (next_booking_id st + 1).
Proof.
  unfold Booking.create.
  destruct (Booking.select_spot _ st) as [|owner owners] eqn:Hspot; [discriminate|].
  destruct (Booking.select_overlap _ _ _ st) eqn:Hov; [|discriminate].
  unfold Booking.insert. destruct (Booking.accepts d); [|discriminate].
  intros H. inversion H; subst.
  exists owner. repeat split; auto. now left.
Qed.

Lemma create_throws_keeps_store (d : Booking.bookingData) (st st' : store) c :
  Booking.create d st = (Throw c, st') -> st' = st.
Proof.
  unfold Booking.create.
  destruct (Booking.select_spot _ st); [intros H; now inversion H|].
  destruct (Booking.select_overlap _ _ _ st); [|intros H; now inversion H].
  unfold Booking.insert. destruct (Booking.accepts d); [discriminate|].
  intros H; now inversion H.
Qed.

Lemma consistent_insert (d : Booking.bookingData) (owner : Z) (st : store) :
  consistent st ->
  Booking.select_overlap (Booking.bd_spot_id d) (Booking.bd_start_time d)
    (Booking.bd_end_time d) st = [] ->
  consistent (with_bookings st
                (tbl_bookings st ++ [Booking.new_row (next_booking_id st) owner d])
                (next_booking_id st + 1)).
Proof.
  intros [Hlt Hnd Hdis] Hnone.
  pose proof (select_overlap_nil _ _ _ _ Hnone) as Hfree.
  set (r := Booking.new_row (next_booking_id st) owner d).
  assert (Hfresh : forall b, In b (tbl_bookings st) ->
                             bookings.booking_id b <> bookings.booking_id r).
  { intros b Hb. specialize (Hlt b Hb). simpl. lia. }
  assert (Hclear : forall b, In b (tbl_bookings st) ->
            bookings.spot_id b = bookings.spot_id r -> live b = true ->
            overlaps (bookings.start_time b) (bookings.end_time b)
                     (bookings.start_time r) (bookings.end_time r) = false).
  { intros b Hb Hspot Hact.
    destruct (overlaps _ _ _ _) eqn:Hov; [|reflexivity].
    apply overlaps_time_conflict in Hov.
    specialize (Hfree b Hb).
    assert (Booking.conflicts (Booking.bd_spot_id d) (Booking.bd_start_time d)
              (Booking.bd_end_time d) b = true) as Hc.
    { apply booking_conflicts_spec. repeat split; auto.
      unfold live in Hact. now apply negb_true_iff in Hact. }
    congruence. }
  constructor; simpl.
  - intros b Hb. apply in_app_or in Hb as [Hb|[<-|[]]].
    + specialize (Hlt b Hb). lia.
    + simpl. lia.
  - rewrite map_app. simpl. apply NoDup_snoc; [exact Hnd|].
    intros Hin. apply in_map_iff in Hin as (b & Hid & Hb).
    specialize (Hlt b Hb). lia.
  - intros b1 b2 H1 H2 Hne Hspot Ha1 Ha2.
    apply in_app_or in H1 as [H1|[<-|[]]]; apply in_app_or in H2 as [H2|[<-|[]]].
    + now apply Hdis.
    + now apply Hclear.
    + rewrite overlaps_sym. apply Hclear; auto.
    + contradiction.
Qed.

Lemma updateStatus_lifecycle (now id : Z) (status : BookingStatus)
    (tf : option string) (st : store) :
  names_lifecycle_timestamp tf ->
  exists g : bookings.row -> bookings.row,
    Booking.updateStatus now id status tf st
    = (Return (Nat.ltb 0 (List.length
                 (filter (fun b => bookings.booking_id b =? id) (tbl_bookings st)))),
       with_bookings st (map g (tbl_bookings st)) (next_booking_id st))
    /\ forall b, status_written id status b (g b).
Proof.
  intros Htf.
  assert (Hgen : forall w : bookings.row -> bookings.row,
            (forall b, bookings.booking_id (w b) = bookings.booking_id b
                       /\ bookings.spot_id (w b) = bookings.spot_id b
                       /\ bookings.start_time (w b) = bookings.start_time b
                       /\ bookings.end_time (w b) = bookings.end_time b
                       /\ bookings.booking_status (w b) = status) ->
            forall b, status_written id status b
                        (if bookings.booking_id b =? id then w b else b)).
  { intros w Hw b. destruct (Hw b) as (H1 & H2 & H3 & H4 & H5).
    unfold status_written.
    destruct (Z.eqb_spec (bookings.booking_id b) id); repeat split; auto;
      intros; congruence. }
  destruct tf as [column|]; simpl in Htf.
  - destruct Htf as [<-|[<-|[<-|[<-|[]]]]];
      (eexists; split; [reflexivity|]; apply Hgen; intros b; now repeat split).
  - eexists; split; [reflexivity|]. apply Hgen. intros b; now repeat split.
Qed.

(** The switch of [updateBookingStatus] only ever names a lifecycle
    timestamp, and never lets a terminal booking become non-terminal. *)
Lemma transition_time_field (u : user) (b : bookings.row)
    (status : BookingStatus) (tf : option string) :
  BookingController.transition u b status = BookingController.Proceed tf ->
  names_lifecycle_timestamp tf.
Proof.
  unfold BookingController.transition, lifecycle_timestamps.
  destruct status;
    repeat match goal with
           | |- context [if ?c then _ else _] => destruct c
           end;
    intros H; inversion H; subst; simpl; auto 6.
Qed.

Lemma transition_never_revives (u : user) (b : bookings.row)
    (status : BookingStatus) (tf : option string) :
  BookingController.transition u b status = BookingController.Proceed tf ->
  terminal status = false ->
  terminal (bookings.booking_status b) = false.
Proof.
  unfold BookingController.transition.
  destruct status; simpl; try discriminate;
    destruct (bookings.booking_status b); simpl; auto;
    repeat match goal with
           | |- context [if ?c then _ else _] => destruct c
           end; discriminate.
Qed.

Lemma findById_in (id : Z) (st : store) (b : bookings.row) :
  Booking.findById id st = Some b ->
  In b (tbl_bookings st) /\ bookings.booking_id b = id.
Proof.
  unfold Booking.findById. intros H. apply find_some in H as [Hin Hp].
  apply andb_true_iff in Hp as [Hid _]. apply Z.eqb_eq in Hid. auto.
Qed.

Lemma consistent_status_written (id : Z) (status : BookingStatus) (st : store)
    (found : bookings.row) (g : bookings.row -> bookings.row) :
  consistent st ->
  In found (tbl_bookings st) -> bookings.booking_id found = id ->
  (terminal status = false -> terminal (bookings.booking_status found) = false) ->
  (forall b, status_written id status b (g b)) ->
  consistent (with_bookings st (map g (tbl_bookings st)) (next_booking_id st)).
Proof.
  intros [Hlt Hnd Hdis] Hfound Hid Hrevive Hg.
  assert (Hids : map bookings.booking_id (map g (tbl_bookings st))
                 = map bookings.booking_id (tbl_bookings st)).
  { rewrite map_map. apply map_ext. intros b. apply (Hg b). }
  assert (Hlive : forall b, In b (tbl_bookings st) -> live (g b) = true -> live b = true).
  { intros b Hb Hl. destruct (Hg b) as (_ & _ & _ & _ & Hsame & Hother).
    destruct (Z.eq_dec (bookings.booking_id b) id) as [Heq|Hne].
    - assert (b = found) as ->.
      { apply (NoDup_map_injective_on _ _ Hnd); auto. congruence. }
      unfold live in *. rewrite (Hsame Heq) in Hl.
      apply negb_true_iff in Hl. apply negb_true_iff. auto.
    - now rewrite (Hother Hne) in Hl. }
  constructor; simpl.
  - intros b' Hb'. apply in_map_iff in Hb' as (b & <- & Hb).
    destruct (Hg b) as (-> & _). auto.
  - now rewrite Hids.
  - intros b1' b2' H1 H2 Hne Hspot Hl1 Hl2.
    apply in_map_iff in H1 as (b1 & <- & H1).
    apply in_map_iff in H2 as (b2 & <- & H2).
    pose proof (Hlive b1 H1 Hl1) as Ho1. pose proof (Hlive b2 H2 Hl2) as Ho2.
    destruct (Hg b1) as (Hi1 & Hs1 & Ha1 & He1 & _).
    destruct (Hg b2) as (Hi2 & Hs2 & Ha2 & He2 & _).
    rewrite Ha1, He1, Ha2, He2. apply Hdis; auto; congruence.
Qed.

Lemma consistent_exec (o : booking_op) (st : store) :
  consistent st -> consistent (snd (exec o st)).
Proof.
  intros Hc. destruct o as [u body|now u id status]; simpl.
  - unfold BookingController.createBooking.
    destruct (BookingController.createBookingSchema body); [|exact Hc].
    destruct (Booking.create _ st) as [[r|c] st'] eqn:Hcreate; simpl.
    + apply create_returns in Hcreate as (owner & Hnone & _ & -> & ->).
      now apply consistent_insert.
    + apply create_throws_keeps_store in Hcreate. now subst.
  - unfold BookingController.updateBookingStatus.
    destruct (Booking.findById id st) as [found|] eqn:Hfind; [|exact Hc].
    destruct (BookingController.transition u found status) as [code|tf] eqn:Htr;
      [exact Hc|].
    apply findById_in in Hfind as [Hin Hid].
    destruct (updateStatus_lifecycle now id status tf st
                (transition_time_field _ _ _ _ Htr)) as (g & -> & Hg).
    assert (consistent (with_bookings st (map g (tbl_bookings st))
                          (next_booking_id st))) as Hc'.
    { apply (consistent_status_written id status st found g); auto.
      apply (transition_never_revives _ _ _ _ Htr). }
    destruct (Nat.ltb _ _); exact Hc'.
Qed.

Lemma reachable_consistent (st : store) : reachable st -> consistent st.
Proof.
  induction 1 as [st Hnil|o st _ IH].
  - constructor; rewrite Hnil; simpl.
    + intros b [].
    + constructor.
    + intros b1 b2 [].
  - now apply consistent_exec.
Qed.

(** C1, amended.  In every state reached by running createBooking and
    status-transition requests one after the other, each request finishing
    before the next one starts, for every spot and instant at most one
    non-terminal booking of the spot has a half-open range containing the
    instant; equivalently, no two distinct non-terminal bookings of one spot
    have overlapping ranges.  Requests whose round trips interleave are not
    covered. *)
Theorem no_double_booking (st : store) (Hreach : reachable st) :
  (forall (b1 b2 : bookings.row) (t : Z),
      In b1 (tbl_bookings st) -> In b2 (tbl_bookings st) ->
      bookings.spot_id b1 = bookings.spot_id b2 ->
      terminal (bookings.booking_status b1) = false ->
      terminal (bookings.booking_status b2) = false ->
      contains (bookings.start_time b1) (bookings.end_time b1) t = true ->
      contains (bookings.start_time b2) (bookings.end_time b2) t = true ->
      b1 = b2)
  /\ (forall b1 b2 : bookings.row,
         In b1 (tbl_bookings st) -> In b2 (tbl_bookings st) ->
         b1 <> b2 ->
         bookings.spot_id b1 = bookings.spot_id b2 ->
         terminal (bookings.booking_status b1) = false ->
         terminal (bookings.booking_status b2) = false ->
         ~ (bookings.start_time b1 < bookings.end_time b2
            /\ bookings.start_time b2 < bookings.end_time b1)).
Proof.
  destruct (reachable_consistent st Hreach) as [Hlt Hnd Hdis].
  assert (Hpair : forall b1 b2 : bookings.row,
             In b1 (tbl_bookings st) -> In b2 (tbl_bookings st) ->
             bookings.spot_id b1 = bookings.spot_id b2 ->
             terminal (bookings.booking_status b1) = false ->
             terminal (bookings.booking_status b2) = false ->
             overlaps (bookings.start_time b1) (bookings.end_time b1)
                      (bookings.start_time b2) (bookings.end_time b2) = true ->
             b1 = b2).
  { intros b1 b2 H1 H2 Hspot Ht1 Ht2 Hov.
    destruct (Z.eq_dec (bookings.booking_id b1) (bookings.booking_id b2)) as [Heq|Hne].
    - apply (NoDup_map_injective_on _ _ Hnd); auto.
    - rewrite (Hdis b1 b2) in Hov; auto; try discriminate;
        unfold live; apply negb_true_iff; auto. }
  split.
  - intros b1 b2 t H1 H2 Hspot Ht1 Ht2 Hc1 Hc2.
    apply Hpair; auto. exact (common_instant_overlaps _ _ _ _ t Hc1 Hc2).
  - intros b1 b2 H1 H2 Hne Hspot Ht1 Ht2 Hov.
    apply Hne. apply Hpair; auto. now apply overlaps_spec.
Qed.

Lemma no_double_booking_witness :
  let st := snd (exec (CreateBooking driver21 (request 1 660 720))
              (snd (exec (CreateBooking driver21 (request 1 630 645))
                 (snd (exec (CreateBooking driver20 (request 1 600 660)) store_A))))) in
  reachable st
  /\ forall (b1 b2 : bookings.row) (t : Z),
      In b1 (tbl_bookings st) -> In b2 (tbl_bookings st) ->
      bookings.spot_id b1 = bookings.spot_id b2 ->
      terminal (bookings.booking_status b1) = false ->
      terminal (bookings.booking_status b2) = false ->
      contains (bookings.start_time b1) (bookings.end_time b1) t = true ->
      contains (bookings.start_time b2) (bookings.end_time b2) t = true ->
      b1 = b2.
Proof.
  intros st.
  assert (Hreach : reachable st).
  { unfold st. do 3 apply reachable_step. apply reachable_init. reflexivity. }
  split; [exact Hreach|].
  exact (proj1 (no_double_booking st Hreach)).
Defined.

(** Scenario A: on a spot open [09:00,17:00), a first booking of
    [10:00,11:00) is created as pending; a second one for [10:30,10:45) is
    refused with 409; one for the touching [11:00,12:00) is accepted. *)
Example scenario_A :
  let r1 := exec (CreateBooking driver20 (request 1 600 660)) store_A in
  let r2 := exec (CreateBooking driver21 (request 1 630 645)) (snd r1) in
  let r3 := exec (CreateBooking driver21 (request 1 660 720)) (snd r2) in
  fst r1 = 201
  /\ map bookings.booking_status (tbl_bookings (snd r1)) = [pending]
  /\ fst r2 = 409 /\ snd r2 = snd r1
  /\ fst r3 = 201
  /\ map bookings.booking_id (tbl_bookings (snd r3)) = [1; 2].
Proof. repeat split. Qed.

(** ** What gates the creation of a booking *)

Lemma filter_nil_iff {A : Type} (p : A -> bool) (l : list A) :
  filter p l = [] <-> forall a, In a l -> p a = false.
Proof.
  split; [apply filter_nil_forall|].
  induction l as [|x l IH]; simpl; intros H; [reflexivity|].
  rewrite (H x (or_introl eq_refl)). apply IH. intros a Ha. apply H. now right.
Qed.

Lemma count_positive_iff {A : Type} (p : A -> bool) (l : list A) :
  Nat.ltb 0 (List.length (filter p l)) = true
  <-> exists x, In x l /\ p x = true.
Proof.
  split.
  - destruct (filter p l) as [|x rest] eqn:Hf; [discriminate|]. intros _.
    assert (In x (filter p l)) as Hin by (rewrite Hf; now left).
    apply filter_In in Hin. now exists x.
  - intros (x & Hin & Hp).
    assert (In x (filter p l)) as Hf by (apply filter_In; now split).
    destruct (filter p l); [contradiction|reflexivity].
Qed.

Lemma select_overlap_nil_iff (body : BookingController.createBody) (st : store) :
  Booking.select_overlap (BookingController.spotId body)
    (BookingController.startTime body) (BookingController.endTime body) st = []
  <-> free body st.
Proof.
  unfold Booking.select_overlap, free. rewrite <- filter_nil_iff.
  split; [apply map_nil_inv|intros ->; reflexivity].
Qed.

Lemma select_spot_nil_iff (spot : Z) (st : store) :
  Booking.select_spot spot st = [] <-> ~ spot_exists spot st.
Proof.
  unfold Booking.select_spot, spot_exists. split.
  - intros H (ps & Hin & Hid). apply map_nil_inv in H.
    pose proof (filter_nil_forall _ _ H ps Hin) as Hf. simpl in Hf.
    apply Z.eqb_neq in Hf. contradiction.
  - intros H.
    assert (filter (fun ps => parking_spots.spot_id ps =? spot) (tbl_parking_spots st) = [])
      as ->; [|reflexivity].
    apply filter_nil_iff. intros ps Hin. apply Z.eqb_neq. intros Hid.
    apply H. now exists ps.
Qed.

Lemma classic_spot_exists (spot : Z) (st : store) :
  spot_exists spot st \/ ~ spot_exists spot st.
Proof.
  destruct (Booking.select_spot spot st) eqn:H.
  - right. now apply select_spot_nil_iff.
  - left. destruct (existsb (fun ps => parking_spots.spot_id ps =? spot)
                            (tbl_parking_spots st)) eqn:He.
    + apply existsb_exists in He as (ps & Hin & Hid).
      exists ps. split; auto. now apply Z.eqb_eq.
    + exfalso. assert (Booking.select_spot spot st = []) as Hn; [|congruence].
      apply select_spot_nil_iff. intros (ps & Hin & Hid).
      assert (existsb (fun ps => parking_spots.spot_id ps =? spot)
                      (tbl_parking_spots st) = true); [|congruence].
      apply existsb_exists. exists ps. split; auto. now apply Z.eqb_eq.
Qed.

(** The status answered by [createBooking], case by case. *)
Lemma createBooking_status (u : user) (body : BookingController.createBody)
    (st : store) :
  let code := fst (BookingController.createBooking u body st) in
  (code = 400 <-> BookingController.createBookingSchema body = false)
  /\ (code = 404 <->
      BookingController.createBookingSchema body = true
      /\ ~ spot_exists (BookingController.spotId body) st)
  /\ (code = 409 <->
      BookingController.createBookingSchema body = true
      /\ spot_exists (BookingController.spotId body) st
      /\ ~ free body st)
  /\ (code = 201 <->
      BookingController.createBookingSchema body = true
      /\ spot_exists (BookingController.spotId body) st
      /\ free body st
      /\ Booking.accepts (BookingController.bookingData u body) = true)
  /\ (code = 500 <->
      BookingController.createBookingSchema body = true
      /\ spot_exists (BookingController.spotId body) st
      /\ free body st
      /\ Booking.accepts (BookingController.bookingData u body) = false).
Proof.
  unfold BookingController.createBooking, Booking.create, Booking.insert.
  cbn [Booking.bd_spot_id Booking.bd_start_time Booking.bd_end_time
       BookingController.bookingData].
  pose proof (select_spot_nil_iff (BookingController.spotId body) st) as Hspot.
  pose proof (select_overlap_nil_iff body st) as Hfree.
  destruct (BookingController.createBookingSchema body); cbn [fst].
  2: { repeat split; try tauto; try discriminate; intros [H _]; discriminate. }
  destruct (Booking.select_spot _ st) as [|owner owners]; cbn [fst].
  { assert (~ spot_exists (BookingController.spotId body) st) by now apply Hspot.
    cbn. repeat split; try tauto; try discriminate. }
  assert (spot_exists (BookingController.spotId body) st) as Hex.
  { destruct (classic_spot_exists (BookingController.spotId body) st) as [H|H]; auto.
    apply Hspot in H. discriminate. }
  destruct (Booking.select_overlap _ _ _ st) as [|x xs]; cbn [fst].
  - assert (free body st) by now apply Hfree.
    destruct (Booking.accepts _); cbn;
      repeat split; try tauto; try discriminate;
      intros (_ & _ & _ & H'); discriminate.
  - assert (~ free body st) by (intros H; apply Hfree in H; discriminate).
    cbn. repeat split; try tauto; try discriminate.
Qed.

Lemma accepts_iff (u : user) (body : BookingController.createBody) :
  Booking.accepts (BookingController.bookingData u body) = true
  <-> BookingController.startTime body < BookingController.endTime body
      /\ 0 <= BookingController.totalPrice body <= 99999999.
Proof.
  unfold Booking.accepts. cbn. bool_to_Z. tauto.
Qed.

Lemma schema_price_positive (body : BookingController.createBody) :
  BookingController.createBookingSchema body = true ->
  0 < BookingController.totalPrice body.
Proof.
  unfold BookingController.createBookingSchema. bool_to_Z. tauto.
Qed.


(** ** The conflict test of a create request *)

Lemma not_free_iff (body : BookingController.createBody) (st : store) :
  ~ free body st
  <-> exists b, In b (tbl_bookings st)
                /\ Booking.conflicts (BookingController.spotId body)
                     (BookingController.startTime body)
                     (BookingController.endTime body) b = true.
Proof.
  split.
  - intros Hn.
    destruct (filter (Booking.conflicts (BookingController.spotId body)
                        (BookingController.startTime body)
                        (BookingController.endTime body)) (tbl_bookings st))
      as [|b l] eqn:Hf.
    + elim Hn. intros b Hb. exact (filter_nil_forall _ _ Hf b Hb).
    + assert (Hb : In b (filter (Booking.conflicts (BookingController.spotId body)
                                   (BookingController.startTime body)
                                   (BookingController.endTime body))
                                (tbl_bookings st)))
        by (rewrite Hf; now left).
      apply filter_In in Hb. now exists b.
  - intros (b & Hb & Hc) Hfree. rewrite (Hfree b Hb) in Hc. discriminate.
Qed.

(** C2 as stated fails for a candidate that ends before it starts, which
    [createBookingSchema] lets through: against the stored booking
    [10:00,11:00) (minutes of the day), a request with start 11:40 and end
    10:50 meets the second clause of the query and is answered 409, though
    [start_time < candidate end] and [candidate start < end_time] do not both
    hold. *)
Lemma inverted_candidate_is_refused :
  let st := store_with [spot1 active true]
              [sample_booking 1 1 600 660 confirmed] [] in
  let body := request 1 700 650 in
  BookingController.createBookingSchema body = true
  /\ spot_exists (BookingController.spotId body) st
  /\ ranges_not_empty st
  /\ fst (BookingController.createBooking driver21 body st) = 409
  /\ ~ overlaps_live_booking body st
  /\ Booking.time_conflict 600 660 700 650 = true
  /\ overlaps 600 660 700 650 = false
  /\ ~ conflict_is_overlap.
Proof.
  cbv zeta.
  assert (Hex : spot_exists 1
                  (store_with [spot1 active true]
                     [sample_booking 1 1 600 660 confirmed] []))
    by (exists (spot1 active true); split; [now left|reflexivity]).
  assert (Hrows : ranges_not_empty
                    (store_with [spot1 active true]
                       [sample_booking 1 1 600 660 confirmed] [])).
  { intros b [<-|[]]. simpl. lia. }
  assert (Hno : ~ overlaps_live_booking (request 1 700 650)
                    (store_with [spot1 active true]
                       [sample_booking 1 1 600 660 confirmed] [])).
  { intros (b & [<-|[]] & _ & _ & H1 & H2). simpl in H1, H2. lia. }
  split; [reflexivity|]. split; [exact Hex|]. split; [exact Hrows|].
  split; [reflexivity|]. split; [exact Hno|].
  split; [reflexivity|]. split; [reflexivity|].
  intros [_ H]. apply Hno.
  apply (H driver21 (request 1 700 650) _ eq_refl Hex Hrows). reflexivity.
Qed.

(** C2, amended.  For a validated create request on an existing spot whose
    candidate does not end before it starts, on a table whose ranges are not
    empty, [createBooking] answers 409 iff some non-terminal booking of the
    spot has [start_time < candidate end] and [candidate start < end_time]:
    on such ranges the three clauses of the query of [Booking.create], and
    those of [isTimeRangeAvailable], are that pair of strict inequalities.
    Against the stored booking [11:00,12:00) (minutes of the day), the
    request [10:00,11:00) is answered 201 and the request [10:30,11:30) is
    answered 409. *)
Theorem create_conflict_is_half_open_overlap
    (u : user) (body : BookingController.createBody) (st : store)
    (Hbody : BookingController.createBookingSchema body = true)
    (Hspot : spot_exists (BookingController.spotId body) st)
    (Hrows : ranges_not_empty st)
    (Hcandidate : BookingController.startTime body <= BookingController.endTime body) :
  (fst (BookingController.createBooking u body st) = 409
   <-> overlaps_live_booking body st)
  /\ (forall s e, s < e ->
        (Booking.time_conflict s e (BookingController.startTime body)
           (BookingController.endTime body) = true
         <-> s < BookingController.endTime body
             /\ BookingController.startTime body < e)
        /\ (SpotAvailability.time_conflict s e (BookingController.startTime body)
              (BookingController.endTime body) = true
            <-> s < BookingController.endTime body
                /\ BookingController.startTime body < e))
  /\ (let stored := store_with [spot1 active true]
                      [sample_booking 1 1 660 720 confirmed] [] in
      fst (BookingController.createBooking driver21 (request 1 600 660) stored) = 201
      /\ fst (BookingController.createBooking driver21 (request 1 630 690) stored) = 409).
Proof.
  split; [|split; [|split; reflexivity]].
  - destruct (createBooking_status u body st) as (_ & _ & H409 & _).
    cbv zeta in H409. rewrite H409, not_free_iff. unfold overlaps_live_booking.
    split.
    + intros (_ & _ & b & Hb & Hc). exists b. split; [exact Hb|].
      now apply (conflicts_half_open _ _ _ b (Hrows b Hb) Hcandidate).
    + intros (b & Hb & Hc). split; [exact Hbody|]. split; [exact Hspot|].
      exists b. split; [exact Hb|].
      now apply (conflicts_half_open _ _ _ b (Hrows b Hb) Hcandidate).
  - intros s e Hse. now apply time_conflict_half_open.
Qed.

Lemma create_conflict_is_half_open_overlap_witness :
  let st := store_with [spot1 active true]
              [sample_booking 1 1 660 720 confirmed] [] in
  let body := request 1 630 690 in
  BookingController.createBookingSchema body = true
  /\ spot_exists (BookingController.spotId body) st
  /\ ranges_not_empty st
  /\ BookingController.startTime body <= BookingController.endTime body
  /\ (fst (BookingController.createBooking driver21 body st) = 409
      <-> overlaps_live_booking body st).
Proof.
  cbv zeta.
  assert (Hex : spot_exists 1
                  (store_with [spot1 active true]
                     [sample_booking 1 1 660 720 confirmed] []))
    by (exists (spot1 active true); split; [now left|reflexivity]).
  assert (Hrows : ranges_not_empty
                    (store_with [spot1 active true]
                       [sample_booking 1 1 660 720 confirmed] [])).
  { intros b [<-|[]]. simpl. lia. }
  assert (Hc : 630 <= 690) by lia.
  split; [reflexivity|]. split; [exact Hex|]. split; [exact Hrows|].
  split; [exact Hc|].
  exact (proj1 (create_conflict_is_half_open_overlap driver21 (request 1 630 690)
                  _ eq_refl Hex Hrows Hc)).
Defined.

Lemma checkAvailabilityForBooking_spec (spot s e : Z) (st : store) :
  SpotAvailability.checkAvailabilityForBooking spot s e st = true <->
  exists slot,
    In slot (tbl_spot_availability st)
    /\ spot_availability.spot_id slot = spot
    /\ spot_availability.is_booked slot = false
    /\ spot_availability.start_time slot <= s
    /\ e <= spot_availability.end_time slot.
Proof.
  unfold SpotAvailability.checkAvailabilityForBooking.
  set (p := SpotAvailability.covers spot s e).
  assert (Hp : forall r, p r = true <->
                 spot_availability.spot_id r = spot
                 /\ spot_availability.is_booked r = false
                 /\ spot_availability.start_time r <= s
                 /\ e <= spot_availability.end_time r).
  { intros r. unfold p, SpotAvailability.covers. bool_to_Z. tauto. }
  rewrite Nat.ltb_lt. split.
  - intros Hlen.
    destruct (filter p (tbl_spot_availability st)) as [|slot rest] eqn:Hf;
      [simpl in Hlen; lia|].
    assert (In slot (filter p (tbl_spot_availability st))) as Hin
        by (rewrite Hf; now left).
    apply filter_In in Hin as [Hin Hslot]. exists slot. split; auto. now apply Hp.
  - intros (slot & Hin & Hslot).
    assert (In slot (filter p (tbl_spot_availability st))) as Hin'.
    { apply filter_In. split; auto. now apply Hp. }
    destruct (filter p (tbl_spot_availability st)); [contradiction|simpl; lia].
Qed.

(** C3 as stated fails: on a spot with no availability slot at all, the
    driver's request for [10:00,11:00) is answered 201 and the booking row is
    inserted, although no unbooked slot covers the range. *)
Lemma booking_created_outside_ledger :
  let st := store_with [spot1 active true] [] [] in
  let r := BookingController.createBooking driver20 (request 1 600 660) st in
  (SpotAvailability.checkAvailabilityForBooking 1 600 660 st = false
   /\ fst r = 201
   /\ tbl_bookings (snd r) = [sample_booking 1 1 600 660 pending])
  /\ ~ ledger_gates_creation.
Proof.
  split; [repeat split|].
  intros H.
  specialize (H driver20 (request 1 600 660)
                (store_with [spot1 active true] [] []) eq_refl).
  discriminate H.
Qed.

(** C3, amended.  [createBooking] does not consult the availability ledger:
    its answer and the bookings it leaves are the same whatever
    [spot_availability] holds.  [checkAvailabilityForBooking], which the
    creation path never calls, is true iff some slot of the spot with
    [is_booked = false] has [start_time <= start] and [end_time >= end]. *)
Theorem createBooking_ignores_ledger (u : user)
    (body : BookingController.createBody) (st : store)
    (slots : list spot_availability.row) (next : Z) :
  let r := BookingController.createBooking u body st in
  let r' := BookingController.createBooking u body
              (with_spot_availability st slots next) in
  fst r' = fst r
  /\ tbl_bookings (snd r') = tbl_bookings (snd r)
  /\ forall spot s e,
      SpotAvailability.checkAvailabilityForBooking spot s e st = true <->
      exists slot,
        In slot (tbl_spot_availability st)
        /\ spot_availability.spot_id slot = spot
        /\ spot_availability.is_booked slot = false
        /\ spot_availability.start_time slot <= s
        /\ e <= spot_availability.end_time slot.
Proof.
  simpl. split; [|split].
  - unfold BookingController.createBooking, Booking.create, Booking.select_spot,
      Booking.select_overlap, Booking.insert. simpl.
    destruct (BookingController.createBookingSchema body); [|reflexivity].
    destruct (map parking_spots.homeowner_id _); [reflexivity|].
    destruct (map bookings.booking_id _); [|reflexivity].
    destruct (Booking.accepts _); reflexivity.
  - unfold BookingController.createBooking, Booking.create, Booking.select_spot,
      Booking.select_overlap, Booking.insert. simpl.
    destruct (BookingController.createBookingSchema body); [|reflexivity].
    destruct (map parking_spots.homeowner_id _); [reflexivity|].
    destruct (map bookings.booking_id _); [|reflexivity].
    destruct (Booking.accepts _); reflexivity.
  - intros spot s e. apply checkAvailabilityForBooking_spec.
Qed.

(** ** Spot status and the creation of a booking *)

Lemma select_spot_relabel (f : parking_spots.row -> SpotStatus * bool)
    (spot : Z) (st : store) :
  Booking.select_spot spot (relabel f st) = Booking.select_spot spot st.
Proof.
  unfold Booking.select_spot, relabel. simpl.
  induction (tbl_parking_spots st) as [|ps l IH]; simpl; [reflexivity|].
  destruct (parking_spots.spot_id ps =? spot); simpl; now rewrite IH.
Qed.

(** C4 as stated fails: a spot that is inactive and switched off
    ([is_available = false]) still takes a booking. *)
Lemma booking_created_on_inactive_spot :
  let st := store_with [spot1 inactive false] []
              [spot_availability.mk 1 1 540 1020 false] in
  let r := BookingController.createBooking driver20 (request 1 600 660) st in
  (map parking_spots.status (tbl_parking_spots st) = [inactive]
   /\ map parking_spots.is_available (tbl_parking_spots st) = [false]
   /\ fst r = 201
   /\ tbl_bookings (snd r) = [sample_booking 1 1 600 660 pending])
  /\ ~ spot_status_gates_creation.
Proof.
  split; [repeat split|].
  intros H.
  destruct (H driver20 (request 1 600 660)
              (store_with [spot1 inactive false] []
                 [spot_availability.mk 1 1 540 1020 false])
              eq_refl (spot1 inactive false) (or_introl eq_refl) eq_refl)
    as [Hactive _].
  discriminate Hactive.
Qed.

(** C4, amended.  [createBooking] reads neither [status] nor [is_available]
    of the spot: replacing those two columns by arbitrary values, on every
    spot, changes neither the answer nor the bookings left, nor any other
    part of the store it leaves. *)
Theorem createBooking_ignores_spot_status (u : user)
    (body : BookingController.createBody) (st : store)
    (f : parking_spots.row -> SpotStatus * bool) :
  let r := BookingController.createBooking u body st in
  let r' := BookingController.createBooking u body (relabel f st) in
  fst r' = fst r
  /\ tbl_bookings (snd r') = tbl_bookings (snd r)
  /\ snd r' = relabel f (snd r).
Proof.
  simpl.
  assert (H : BookingController.createBooking u body (relabel f st)
              = (fst (BookingController.createBooking u body st),
                 relabel f (snd (BookingController.createBooking u body st)))).
  { unfold BookingController.createBooking, Booking.create.
    rewrite select_spot_relabel.
    destruct (BookingController.createBookingSchema body); [|reflexivity].
    destruct (Booking.select_spot _ st); [reflexivity|].
    unfold Booking.select_overlap, Booking.insert. simpl.
    destruct (map bookings.booking_id _); [|reflexivity].
    destruct (Booking.accepts _); reflexivity. }
  rewrite H. simpl.
  split; [reflexivity|]. split; reflexivity.
Qed.

(** ** Terminal states *)

Lemma transition_from_terminal (u : user) (b : bookings.row)
    (status : BookingStatus) :
  terminal (bookings.booking_status b) = true ->
  ~ repeated_cancellation b status ->
  (forced_completion u status ->
   BookingController.transition u b status = BookingController.Proceed None)
  /\ (~ forced_completion u status ->
      BookingController.transition u b status
      = BookingController.Refuse (if may_request u b status then 400 else 403)).
Proof.
  unfold repeated_cancellation, forced_completion, BookingController.transition,
    may_request.
  intros Hterm Hrep.
  destruct (bookings.driver_id b =? user_id u),
           (bookings.homeowner_id b =? user_id u),
           (user_type u), status, (bookings.booking_status b);
    simpl in *; try discriminate;
    (split; [intros [Ha Hs]; try discriminate; auto
            |intros Hnf; auto; try (exfalso; apply Hnf; now split);
             try (exfalso; apply Hrep; split; auto; fail)]).
Qed.

Lemma findById_affects (id : Z) (st : store) (b : bookings.row) :
  Booking.findById id st = Some b ->
  Nat.ltb 0 (List.length (filter (fun x => bookings.booking_id x =? id)
                                 (tbl_bookings st))) = true.
Proof.
  intros H. apply findById_in in H as [Hin Hid].
  assert (In b (filter (fun x => bookings.booking_id x =? id) (tbl_bookings st))) as Hf.
  { apply filter_In. split; auto. now apply Z.eqb_eq. }
  destruct (filter _ (tbl_bookings st)); [contradiction|reflexivity].
Qed.

(** C5 as stated fails: an admin's request to complete a booking that was
    rejected is answered 200 and rewrites the status to [completed]; and a
    driver who is not a party allowed to confirm gets 403, not 400, on a
    completed booking. *)
Lemma admin_completes_rejected_booking :
  let st := store_with [spot1 active true] [sample_booking 1 1 600 660 rejected] [] in
  let r := BookingController.updateBookingStatus 700 admin30 1 completed st in
  let st2 := store_with [spot1 active true] [sample_booking 1 1 600 660 completed] [] in
  (terminal rejected = true
   /\ fst r = 200
   /\ map bookings.booking_status (tbl_bookings (snd r)) = [completed]
   /\ BookingController.updateBookingStatus 700 driver20 1 confirmed st2 = (403, st2))
  /\ ~ terminal_states_closed.
Proof.
  split; [repeat split|].
  intros H.
  destruct (H 700 admin30 1 completed
              (store_with [spot1 active true] [sample_booking 1 1 600 660 rejected] [])
              (sample_booking 1 1 600 660 rejected) eq_refl eq_refl) as [Hcode _].
  discriminate Hcode.
Qed.

(** A cancelled booking can be cancelled again by its driver: the guard list
    of the [cancelled_by_driver] case omits [cancelled_by_driver] itself, so
    the request is answered 200 although the message of that guard speaks of
    bookings that are already cancelled. *)
Remark driver_cancels_twice :
  let st := store_with [spot1 active true]
              [sample_booking 1 1 600 660 cancelled_by_driver] [] in
  BookingController.updateBookingStatus 700 driver20 1 cancelled_by_driver st
  = (200, st).
Proof. reflexivity. Qed.

(** C5, amended.  For a booking in a terminal status (rejected,
    cancelled_by_driver, cancelled_by_homeowner, completed) and a request
    that does not repeat the cancellation status the booking already has:
    an admin asking for [completed] succeeds (200) and the booking becomes
    completed; every other request fails and leaves the store unchanged,
    with 403 when the requester is not a party allowed to ask for the target
    status and with 400 otherwise; in both cases the booking is still in a
    terminal status afterwards. *)
Theorem terminal_booking_stays_terminal (now : Z) (u : user) (id : Z)
    (status : BookingStatus) (st : store) (b : bookings.row)
    (Hfound : Booking.findById id st = Some b)
    (Hterminal : terminal (bookings.booking_status b) = true)
    (Hnew : ~ repeated_cancellation b status) :
  let r := BookingController.updateBookingStatus now u id status st in
  (forced_completion u status ->
   fst r = 200
   /\ forall b', In b' (tbl_bookings (snd r)) -> bookings.booking_id b' = id ->
                 bookings.booking_status b' = completed)
  /\ (~ forced_completion u status ->
      fst r = (if may_request u b status then 400 else 403) /\ snd r = st)
  /\ (forall b', Booking.findById id (snd r) = Some b' ->
                 terminal (bookings.booking_status b') = true).
Proof.
  destruct (transition_from_terminal u b status Hterminal Hnew) as [Hforce Hrefuse].
  assert (Hdec : forced_completion u status \/ ~ forced_completion u status).
  { unfold forced_completion. destruct (user_type u), status;
      try (left; split; reflexivity); right; intros [? ?]; discriminate. }
  assert (Hrun : forced_completion u status ->
            exists g, BookingController.updateBookingStatus now u id status st
                      = (200, with_bookings st (map g (tbl_bookings st))
                                (next_booking_id st))
                      /\ forall x, status_written id status x (g x)).
  { intros Hf. unfold BookingController.updateBookingStatus.
    rewrite Hfound, (Hforce Hf).
    destruct (updateStatus_lifecycle now id status None st I) as (g & -> & Hg).
    rewrite (findById_affects _ _ _ Hfound). now exists g. }
  assert (Hstay : ~ forced_completion u status ->
            BookingController.updateBookingStatus now u id status st
            = ((if may_request u b status then 400 else 403), st)).
  { intros Hnf. unfold BookingController.updateBookingStatus.
    now rewrite Hfound, (Hrefuse Hnf). }
  simpl. split; [|split].
  - intros Hf. destruct (Hrun Hf) as (g & -> & Hg). simpl. split; [reflexivity|].
    intros b' Hin Hid. apply in_map_iff in Hin as (x & <- & Hx).
    destruct (Hg x) as (Hi & _ & _ & _ & Hs & _).
    destruct Hf as [_ <-]. apply Hs. congruence.
  - intros Hnf. now rewrite (Hstay Hnf).
  - intros b' Hb'. destruct Hdec as [Hf|Hnf].
    + destruct (Hrun Hf) as (g & Heq & Hg). rewrite Heq in Hb'. simpl in Hb'.
      apply findById_in in Hb' as [Hin Hid]. simpl in Hin.
      apply in_map_iff in Hin as (x & <- & Hx).
      destruct (Hg x) as (Hi & _ & _ & _ & Hs & _).
      destruct Hf as [_ ->]. rewrite Hs; [reflexivity|congruence].
    + rewrite (Hstay Hnf) in Hb'. simpl in Hb'. congruence.
Qed.

Lemma terminal_booking_stays_terminal_witness :
  let b := sample_booking 1 1 600 660 rejected in
  let st := store_with [spot1 active true] [b] [] in
  Booking.findById 1 st = Some b
  /\ terminal (bookings.booking_status b) = true
  /\ ~ repeated_cancellation b confirmed
  /\ (~ forced_completion homeowner10 confirmed ->
      fst (BookingController.updateBookingStatus 700 homeowner10 1 confirmed st) = 400
      /\ snd (BookingController.updateBookingStatus 700 homeowner10 1 confirmed st) = st).
Proof.
  intros b st.
  assert (Hnew : ~ repeated_cancellation b confirmed).
  { intros [_ [H|H]]; discriminate. }
  split; [reflexivity|]. split; [reflexivity|]. split; [exact Hnew|].
  exact (proj1 (proj2 (terminal_booking_stays_terminal 700 homeowner10 1
                         confirmed st b eq_refl eq_refl Hnew))).
Defined.

(** ** The payment path and [booking_status] *)








(** The handler as written never gets past the call of the undefined
    [Transaction.create]. *)
Lemma createTransaction_keeps_store (now : Z) (u : user)
    (value : Transaction.transactionData) (st : store) :
  snd (TransactionController.createTransaction now u value st) = st.
Proof.
  unfold TransactionController.createTransaction,
    TransactionController.createTransaction_with. simpl.
  destruct (negb _); [reflexivity|].
  destruct (TransactionController.user_missing _ st); [reflexivity|].
  destruct (TransactionController.user_missing _ st); [reflexivity|].
  destruct (TransactionController.booking_missing _ st); reflexivity.
Qed.

Lemma store_eta (st : store) :
  with_bookings st (tbl_bookings st) (next_booking_id st) = st.
Proof. destruct st; reflexivity. Qed.

(** *** The handler on the body as sent *)

Lemma existsb_never {A : Type} (p : A -> bool) (l : list A) :
  existsb (fun x => p x && false) l = false.
Proof.
  induction l as [|x l IH]; simpl; [reflexivity|].
  now rewrite andb_false_r, IH.
Qed.

Lemma existsb_same {A : Type} (p q : A -> bool) (l : list A) :
  (forall x, p x = q x) -> existsb p l = existsb q l.
Proof.
  intros H. induction l as [|x l IH]; simpl; [reflexivity|].
  now rewrite H, IH.
Qed.

Lemma existsb_false_filter {A : Type} (p : A -> bool) (l : list A) :
  existsb p l = false -> filter p l = [].
Proof.
  induction l as [|x l IH]; simpl; [reflexivity|].
  destruct (p x); [discriminate|exact IH].
Qed.

Lemma map_unmatched {A : Type} (p : A -> bool) (f : A -> A) (l : list A) :
  existsb p l = false -> map (fun x => if p x then f x else x) l = l.
Proof.
  induction l as [|x l IH]; simpl; [reflexivity|].
  destruct (p x); [discriminate|]. intros H. now rewrite IH.
Qed.

(** On strings, the statement built from the body as sent is the one of
    [Booking.updatePaymentStatus]. *)
Lemma untyped_updatePaymentStatus_on_strings (id : Z) (p i : string) (st : store) :
  Untyped.updatePaymentStatus (Untyped.Number id)
    [("payment_status", Untyped.Str p);
     ("stripe_payment_intent_id", Untyped.Str i)] st
  = Some (Booking.updatePaymentStatus id
            (JObject [("payment_status", PStr p);
                      ("stripe_payment_intent_id", PStr i)]) st).
Proof.
  unfold Untyped.updatePaymentStatus, Booking.updatePaymentStatus.
  cbn [Untyped.set_list Untyped.set_items app Booking.entries].
  assert (Hd : Untyped.distinct
                 (map (fun it : string * Untyped.expr => lowercase (fst it))
                    [("payment_status", Untyped.Lit (Untyped.LString p));
                     ("stripe_payment_intent_id",
                      Untyped.Lit (Untyped.LString i))]) = true)
    by reflexivity.
  rewrite Hd.
  assert (Hc1 : Untyped.compile
                  ("payment_status", Untyped.Lit (Untyped.LString p))
                = Some (Untyped.write
                          (Booking.stores_if Booking.set_payment_status
                             (enum_of_string payment_status_members p))))
    by reflexivity.
  assert (Hc2 : Untyped.compile
                  ("stripe_payment_intent_id", Untyped.Lit (Untyped.LString i))
                = Some (Untyped.write
                          (if Nat.leb (String.length i) 255
                           then Booking.Stores
                                  (Booking.set_stripe_payment_intent_id (Some i))
                           else Booking.NotStorable)))
    by reflexivity.
  assert (Ha1 : Booking.assign "payment_status" (PStr p)
                = Booking.stores_if Booking.set_payment_status
                    (enum_of_string payment_status_members p))
    by reflexivity.
  assert (Ha2 : Booking.assign "stripe_payment_intent_id" (PStr i)
                = if Nat.leb (String.length i) 255
                  then Booking.Stores
                         (Booking.set_stripe_payment_intent_id (Some i))
                  else Booking.NotStorable)
    by reflexivity.
  cbn [Untyped.compile_all Booking.assign_all]. rewrite Hc1, Hc2, Ha1, Ha2.
  assert (Hrefused :
            forall w : bookings.row -> option bookings.row,
              (forall b, w b = None) ->
              (if existsb (fun b => (bookings.booking_id b =? id)
                                    && Untyped.is_none (w b)) (tbl_bookings st)
               then Some (Throw None, st)
               else
                 Some (Return (Nat.ltb 0 (List.length
                                 (filter (fun b => bookings.booking_id b =? id)
                                         (tbl_bookings st)))),
                       with_bookings st
                         (map (fun b => if bookings.booking_id b =? id
                                        then match w b with
                                             | Some b' => b'
                                             | None => b
                                             end
                                        else b) (tbl_bookings st))
                         (next_booking_id st)))
              = Some (if existsb (fun b => bookings.booking_id b =? id)
                           (tbl_bookings st)
                      then (Throw None, st) else (Return false, st))).
  { intros w Hw.
    rewrite (existsb_same _ (fun b => bookings.booking_id b =? id)).
    2:{ intros b. rewrite Hw. apply andb_true_r. }
    destruct (existsb _ (tbl_bookings st)) eqn:He; [reflexivity|].
    rewrite (existsb_false_filter _ _ He). cbn [List.length Nat.ltb Nat.leb].
    rewrite (map_unmatched _ _ _ He), store_eta. reflexivity. }
  destruct (enum_of_string payment_status_members p) as [x|];
    cbn [Booking.stores_if].
  - destruct (Nat.leb (String.length i) 255).
    + cbn [Untyped.write]. rewrite existsb_never.
      unfold Booking.update_where_id. reflexivity.
    + apply Hrefused. intros b. reflexivity.
  - destruct (Nat.leb (String.length i) 255);
      apply Hrefused; intros b; reflexivity.
Qed.

(** On a body whose three fields have their expected types, the handler is
    [PaymentController.processStripePayment]. *)
Lemma untyped_processStripePayment_on_strings
    (retrieve : string -> outcome string) (u : user)
    (b : PaymentController.body) (st : store) :
  Untyped.processStripePayment retrieve u (Untyped.of_body b) st
  = Some (PaymentController.processStripePayment retrieve u b st).
Proof.
  unfold Untyped.processStripePayment, PaymentController.processStripePayment,
    Untyped.of_body.
  cbn [Untyped.bookingId Untyped.paymentIntentId Untyped.paymentStatus
       Untyped.truthy].
  rewrite !negb_involutive.
  destruct (_ || _); [reflexivity|].
  destruct (retrieve _) as [status|c]; [|reflexivity].
  destruct (negb _); [reflexivity|].
  rewrite untyped_updatePaymentStatus_on_strings.
  destruct (Booking.updatePaymentStatus _ _ st) as [[[|]|c] st']; reflexivity.
Qed.



(** ** Check-then-insert under interleaving *)

(** Run alone, the round trips of a request compose to its controller. *)
Lemma run_alone_createBooking (u : user) (body : BookingController.createBody)
    (st : store) :
  InFlight.run [0; 0; 0]%nat [InFlight.createBooking u body] st
  = ([InFlight.Done (fst (BookingController.createBooking u body st))],
     snd (BookingController.createBooking u body st)).
Proof.
  unfold InFlight.createBooking, BookingController.createBooking, Booking.create.
  destruct (BookingController.createBookingSchema body); [|reflexivity].
  unfold InFlight.run, InFlight.resume, InFlight.step.
  destruct (Booking.select_spot _ st) as [|owner owners]; [reflexivity|].
  destruct (Booking.select_overlap _ _ _ st); [|reflexivity].
  unfold Booking.insert. destruct (Booking.accepts _); reflexivity.
Qed.

Lemma run_alone_createSpotAvailability (now : Z) (u : user)
    (spotId s e : Z) (st : store) :
  InFlight.run [0; 0; 0]%nat [InFlight.createSpotAvailability now u spotId s e] st
  = ([InFlight.Done
        (fst (SpotAvailabilityController.createSpotAvailability now u spotId s e st))],
     snd (SpotAvailabilityController.createSpotAvailability now u spotId s e st)).
Proof.
  unfold InFlight.createSpotAvailability,
    SpotAvailabilityController.createSpotAvailability.
  destruct (SpotAvailabilityController.createAvailabilitySchema now s e);
    [|reflexivity].
  unfold InFlight.run, InFlight.resume, InFlight.step. simpl negb.
  destruct (ParkingSpot.findById spotId st) as [spot|]; [|reflexivity].
  destruct (SpotAvailabilityController.owns u spot); [|reflexivity].
  simpl negb. cbv iota.
  destruct (SpotAvailability.isTimeRangeAvailable spotId s e None st); reflexivity.
Qed.

Lemma run_alone_updateSpotAvailability (u : user) (id : Z)
    (d : SpotAvailability.updateData) (st : store) :
  InFlight.run [0; 0; 0; 0]%nat [InFlight.updateSpotAvailability u id d] st
  = ([InFlight.Done
        (fst (SpotAvailabilityController.updateSpotAvailability u id d st))],
     snd (SpotAvailabilityController.updateSpotAvailability u id d st)).
Proof.
  unfold InFlight.updateSpotAvailability,
    SpotAvailabilityController.updateSpotAvailability.
  destruct (SpotAvailabilityController.updateAvailabilitySchema d); [|reflexivity].
  unfold InFlight.run, InFlight.resume, InFlight.step. simpl negb. cbv iota.
  destruct (SpotAvailability.findById id st) as [a|]; [|reflexivity].
  destruct (ParkingSpot.findById _ st) as [spot|]; [|reflexivity].
  destruct (SpotAvailabilityController.owns u spot); [|reflexivity].
  simpl negb. cbv iota.
  destruct d as [[s|] [e|] b]; cbn [SpotAvailability.startTime SpotAvailability.endTime andb];
    try (match goal with
         | |- context [if ?a >=? ?b then _ else _] => destruct (a >=? b); [reflexivity|]
         end);
    try (match goal with
         | |- context [SpotAvailability.isTimeRangeAvailable ?a ?b ?c ?d st] =>
             destruct (SpotAvailability.isTimeRangeAvailable a b c d st);
             [|reflexivity]
         end);
    simpl negb; cbv iota;
    destruct (SpotAvailability.updateAvailability _ _ st) as [[|] st']; reflexivity.
Qed.


(** C1 as stated fails under concurrent create requests: starting from an
    empty [bookings] table, two requests for spot 1 whose round trips
    alternate are both inserted, and the table then holds two pending
    bookings of the spot, [10:00,11:00) and [10:30,11:30) (minutes of the
    day), both containing 10:40. *)
Lemma concurrent_creates_double_book :
  let st := store_with [spot1 active true] [] [] in
  let t1 := InFlight.createBooking driver20 (request 1 600 660) in
  let t2 := InFlight.createBooking driver21 (request 1 630 690) in
  let final := snd (InFlight.run [0; 1; 0; 1; 0; 1]%nat [t1; t2] st) in
  tbl_bookings st = []
  /\ (exists b1 b2,
        In b1 (tbl_bookings final) /\ In b2 (tbl_bookings final)
        /\ bookings.booking_id b1 <> bookings.booking_id b2
        /\ bookings.spot_id b1 = 1 /\ bookings.spot_id b2 = 1
        /\ bookings.booking_status b1 = pending
        /\ bookings.booking_status b2 = pending
        /\ contains (bookings.start_time b1) (bookings.end_time b1) 640 = true
        /\ contains (bookings.start_time b2) (bookings.end_time b2) 640 = true)
  /\ ~ disjoint_active (tbl_bookings final)
  /\ ~ never_double_booked_in_flight.
Proof.
  cbv zeta.
  set (b1 := sample_booking 1 1 600 660 pending).
  set (b2 := Booking.new_row 2 10 (Booking.mkData 1 21 630 690 500 None None None)).
  assert (Hrun : tbl_bookings
                   (snd (InFlight.run [0; 1; 0; 1; 0; 1]%nat
                           [InFlight.createBooking driver20 (request 1 600 660);
                            InFlight.createBooking driver21 (request 1 630 690)]
                           (store_with [spot1 active true] [] [])))
                 = [b1; b2]) by reflexivity.
  assert (Hbad : ~ disjoint_active [b1; b2]).
  { intros H.
    assert (Hov : overlaps 600 660 630 690 = false).
    { apply (H b1 b2); simpl; auto; discriminate. }
    discriminate Hov. }
  split; [reflexivity|]. split; [|split].
  - exists b1, b2. rewrite Hrun. simpl.
    repeat split; auto; discriminate.
  - now rewrite Hrun.
  - intros H. apply Hbad. rewrite <- Hrun.
    exact (H [0; 1; 0; 1; 0; 1]%nat
             [(driver20, request 1 600 660); (driver21, request 1 630 690)]
             (store_with [spot1 active true] [] []) eq_refl).
Qed.





Lemma overlaps_ledger_time_conflict (s e cs ce : Z) :
  overlaps s e cs ce = true -> SpotAvailability.time_conflict s e cs ce = true.
Proof.
  rewrite overlaps_spec, ledger_time_conflict_spec. tauto.
Qed.



Lemma slot_findById_in (id : Z) (st : store) (r : spot_availability.row) :
  SpotAvailability.findById id st = Some r ->
  In r (tbl_spot_availability st) /\ spot_availability.availability_id r = id.
Proof.
  unfold SpotAvailability.findById. intros H. apply find_some in H as [Hin Hp].
  apply Z.eqb_eq in Hp. auto.
Qed.







(** ** Declaring availability *)

Lemma ledger_conflicts_spec (spotId cs ce : Z) (r : spot_availability.row) :
  SpotAvailability.conflicts spotId cs ce None r = true <->
  spot_availability.spot_id r = spotId
  /\ SpotAvailability.time_conflict (spot_availability.start_time r)
       (spot_availability.end_time r) cs ce = true
  /\ spot_availability.is_booked r = false.
Proof.
  unfold SpotAvailability.conflicts. bool_to_Z. tauto.
Qed.

Lemma isTimeRangeAvailable_false_iff (spotId cs ce : Z) (st : store) :
  SpotAvailability.isTimeRangeAvailable spotId cs ce None st = false <->
  exists r, In r (tbl_spot_availability st)
            /\ SpotAvailability.conflicts spotId cs ce None r = true.
Proof.
  unfold SpotAvailability.isTimeRangeAvailable. rewrite Nat.eqb_neq. split.
  - intros Hlen.
    destruct (filter _ (tbl_spot_availability st)) as [|r rest] eqn:Hf;
      [now elim Hlen|].
    assert (In r (filter (SpotAvailability.conflicts spotId cs ce None)
                         (tbl_spot_availability st))) as Hin
        by (rewrite Hf; now left).
    apply filter_In in Hin. now exists r.
  - intros (r & Hin & Hc) Hlen.
    assert (In r (filter (SpotAvailability.conflicts spotId cs ce None)
                         (tbl_spot_availability st))) as Hin'
        by (apply filter_In; now split).
    destruct (filter _ (tbl_spot_availability st)); [contradiction|discriminate].
Qed.

(** Deleting by id keeps the remaining slot ids distinct. *)
Lemma slot_ids_unique_after_delete (id : Z) (slots : list spot_availability.row) :
  NoDup (map spot_availability.availability_id slots) ->
  NoDup (map spot_availability.availability_id
           (filter (fun r => negb (spot_availability.availability_id r =? id)) slots)).
Proof.
  induction slots as [|r slots IH]; simpl; intros Hnd; [constructor|].
  apply NoDup_cons_iff in Hnd as [Hr Hnd].
  destruct (negb _); simpl; [|now apply IH].
  apply NoDup_cons_iff. split; [|now apply IH].
  rewrite in_map_iff. intros (y & Hy & Hin).
  apply filter_In in Hin as [Hin _]. apply Hr. rewrite <- Hy. now apply in_map.
Qed.

Lemma ledger_consistent_exec (o : ledger_op) (st : store) :
  ledger_consistent st -> ledger_consistent (snd (exec_ledger o st)).
Proof.
  intros Hc. pose proof Hc as [Hlt Hnd Hwf].
  destruct o as [now u spotId s e|u id upd|u id]; simpl.
  - unfold SpotAvailabilityController.createSpotAvailability.
    destruct (SpotAvailabilityController.createAvailabilitySchema now s e) eqn:Hv;
      [|exact Hc].
    simpl negb. cbv iota.
    destruct (ParkingSpot.findById spotId st) as [spot|]; [|exact Hc].
    destruct (negb _); [exact Hc|].
    destruct (negb _); [exact Hc|].
    unfold SpotAvailabilityController.createAvailabilitySchema in Hv.
    apply andb_true_iff in Hv as [Hse _]. apply negb_true_iff in Hse.
    rewrite Z.geb_leb in Hse. apply Z.leb_gt in Hse.
    constructor; simpl.
    + intros r Hr. apply in_app_or in Hr as [Hr|[<-|[]]].
      * specialize (Hlt r Hr). lia.
      * simpl. lia.
    + rewrite map_app. simpl. apply NoDup_snoc; [exact Hnd|].
      intros Hin. apply in_map_iff in Hin as (r & Hid & Hr).
      specialize (Hlt r Hr). lia.
    + intros r Hr. apply in_app_or in Hr as [Hr|[<-|[]]]; [now apply Hwf|exact Hse].
  - unfold SpotAvailabilityController.updateSpotAvailability.
    destruct (negb _); [exact Hc|].
    destruct (SpotAvailability.findById id st) as [found|] eqn:Hfind; [|exact Hc].
    destruct (ParkingSpot.findById _ st) as [spot|]; [|exact Hc].
    destruct (negb _); [exact Hc|].
    apply slot_findById_in in Hfind as [Hin Hid].
    match goal with
    | |- context [if ?g && (?a >=? ?b) then _ else _] =>
        destruct (g && (a >=? b)) eqn:Horder; [exact Hc|]
    end.
    match goal with
    | |- context [if ?g && negb ?a then _ else _] =>
        destruct (g && negb a); [exact Hc|]
    end.
    unfold SpotAvailability.updateAvailability.
    assert (Hmap : ledger_consistent
              (with_spot_availability st
                 (map (fun r => if spot_availability.availability_id r =? id
                                then SpotAvailability.apply_update upd r else r)
                      (tbl_spot_availability st))
                 (next_availability_id st))).
    { constructor; simpl.
      - intros r' Hr'. apply in_map_iff in Hr' as (r & <- & Hr).
        destruct (_ =? id); simpl; now apply Hlt.
      - rewrite map_map.
        erewrite map_ext; [exact Hnd|].
        intros r. now destruct (_ =? id).
      - intros r' Hr'. apply in_map_iff in Hr' as (r & <- & Hr).
        destruct (Z.eqb_spec (spot_availability.availability_id r) id) as [Heq|Hne];
          [|now apply Hwf].
        assert (r = found) as ->.
        { apply (NoDup_map_injective_on _ _ Hnd); auto. congruence. }
        specialize (Hwf found Hin). simpl.
        destruct (SpotAvailability.startTime upd) as [ns|],
                 (SpotAvailability.endTime upd) as [ne|];
          simpl in Horder; try rewrite Z.geb_leb in Horder;
          try apply Z.leb_gt in Horder; auto. }
    destruct (SpotAvailability.startTime upd), (SpotAvailability.endTime upd),
             (SpotAvailability.isBooked upd); simpl; try exact Hmap; exact Hc.
  - unfold SpotAvailabilityController.deleteSpotAvailability.
    destruct (id <=? 0); [exact Hc|].
    destruct (SpotAvailability.findById id st) as [found|]; [|exact Hc].
    destruct (ParkingSpot.findById _ st) as [spot|]; [|exact Hc].
    destruct (negb _); [exact Hc|].
    destruct (spot_availability.is_booked found); [exact Hc|].
    simpl. constructor; simpl.
    + intros r Hr. apply filter_In in Hr as [Hr _]. now apply Hlt.
    + now apply slot_ids_unique_after_delete.
    + intros r Hr. apply filter_In in Hr as [Hr _]. now apply Hwf.
Qed.

Lemma ledger_reachable_consistent (st : store) :
  ledger_reachable st -> ledger_consistent st.
Proof.
  induction 1 as [st Hnil|o st _ IH].
  - constructor; rewrite Hnil; simpl; [intros r []|constructor|intros r []].
  - now apply ledger_consistent_exec.
Qed.

(** C8.  On a ledger reached by ledger requests, [createSpotAvailability]
    answers 400 and changes nothing when [end <= start] or [end <= now]; for
    a valid range on an existing spot managed by the requester it answers
    409 (and changes nothing) iff the candidate range overlaps some slot of
    that spot with [is_booked = false], and 201 otherwise.  Declaring
    [09:00,12:00) and then [11:00,13:00) on the same spot: the second call
    is answered 409. *)
Theorem declare_conflicts_with_unbooked_slots
    (now : Z) (u : user) (spotId s e : Z) (st : store)
    (Hreach : ledger_reachable st) :
  let r := SpotAvailabilityController.createSpotAvailability now u spotId s e st in
  (e <= s \/ e <= now -> r = (400, st))
  /\ (forall spot,
         s < e -> now < e ->
         ParkingSpot.findById spotId st = Some spot ->
         SpotAvailabilityController.owns u spot = true ->
         (fst r = 409 <-> overlaps_unbooked_slot spotId s e st)
         /\ (fst r = 409 -> snd r = st)
         /\ (fst r <> 409 -> fst r = 201))
  /\ (let st0 := store_with [spot1 active true] [] [] in
      let r1 := SpotAvailabilityController.createSpotAvailability
                  0 homeowner10 1 540 720 st0 in
      let r2 := SpotAvailabilityController.createSpotAvailability
                  0 homeowner10 1 660 780 (snd r1) in
      fst r1 = 201 /\ fst r2 = 409 /\ snd r2 = snd r1).
Proof.
  destruct (ledger_reachable_consistent st Hreach) as [_ _ Hwf].
  simpl. split; [|split].
  - intros Hbad. unfold SpotAvailabilityController.createSpotAvailability,
      SpotAvailabilityController.createAvailabilitySchema.
    assert (negb (s >=? e) && negb (e <=? now) = false) as ->; [|reflexivity].
    apply andb_false_iff. rewrite !negb_false_iff, Z.geb_leb, !Z.leb_le. tauto.
  - intros spot Hse Hnow Hfind Hown.
    unfold SpotAvailabilityController.createSpotAvailability,
      SpotAvailabilityController.createAvailabilitySchema.
    assert (negb (s >=? e) && negb (e <=? now) = true) as ->.
    { apply andb_true_iff. rewrite !negb_true_iff, Z.geb_leb, !Z.leb_gt. lia. }
    rewrite Hfind, Hown. simpl negb. cbv iota.
    assert (Hiff : SpotAvailability.isTimeRangeAvailable spotId s e None st = false
                   <-> overlaps_unbooked_slot spotId s e st).
    { rewrite isTimeRangeAvailable_false_iff. unfold overlaps_unbooked_slot.
      split; intros (r & Hin & Hr); exists r; (split; [exact Hin|]);
        specialize (Hwf r Hin).
      - apply ledger_conflicts_spec in Hr as (Hs & Ht & Hb).
        apply ledger_time_conflict_spec in Ht. repeat split; auto; lia.
      - destruct Hr as (Hs & Hb & H1 & H2). apply ledger_conflicts_spec.
        repeat split; auto. apply ledger_time_conflict_spec. lia. }
    destruct (SpotAvailability.isTimeRangeAvailable spotId s e None st); simpl.
    + split; [|split]; try discriminate; auto.
      split; [discriminate|]. intros H. apply Hiff in H. discriminate.
    + split; [|split]; auto; [|intros H; now elim H].
      split; [intros _; now apply Hiff|reflexivity].
  - repeat split.
Qed.

Lemma declare_conflicts_with_unbooked_slots_witness :
  let st := snd (exec_ledger (DeclareAvailability 0 homeowner10 1 540 720)
                   (store_with [spot1 active true] [] [])) in
  ledger_reachable st
  /\ SpotAvailabilityController.createSpotAvailability 800 homeowner10 1 660 720 st
     = (400, st).
Proof.
  intros st.
  assert (Hreach : ledger_reachable st).
  { unfold st. apply ledger_step, ledger_init. reflexivity. }
  split; [exact Hreach|].
  apply (proj1 (declare_conflicts_with_unbooked_slots 800 homeowner10 1 660 720
                  st Hreach)).
  right. lia.
Defined.

(** ** Replaying a payment outcome *)

Lemma find_map_same_test {A : Type} (p : A -> bool) (g : A -> A) (l : list A) :
  (forall x, p (g x) = p x) -> find p (map g l) = option_map g (find p l).
Proof.
  intros Hp. induction l as [|x l IH]; simpl; [reflexivity|].
  rewrite Hp. destruct (p x); [reflexivity|exact IH].
Qed.

Lemma filter_map_same_test {A : Type} (p : A -> bool) (g : A -> A) (l : list A) :
  (forall x, p (g x) = p x) -> filter p (map g l) = map g (filter p l).
Proof.
  intros Hp. induction l as [|x l IH]; simpl; [reflexivity|].
  rewrite Hp. destruct (p x); simpl; now rewrite IH.
Qed.

Section Replay.
Variable id : Z.
Variable f : bookings.row -> bookings.row.
Hypothesis Hf : replayable f.

Lemma update_where_id_twice (st : store) :
  Booking.update_where_id id f (snd (Booking.update_where_id id f st))
  = Booking.update_where_id id f st.
Proof.
  destruct Hf as [Hsame Hid _ _].
  unfold Booking.update_where_id, with_bookings. simpl. f_equal.
  - rewrite filter_map_same_test, length_map; [reflexivity|].
    intros x. destruct (bookings.booking_id x =? id) eqn:Hx; [|exact Hx].
    now rewrite Hid.
  - f_equal. rewrite map_map. apply map_ext. intros b.
    destruct (bookings.booking_id b =? id) eqn:Hb.
    + now rewrite Hid, Hb, Hsame.
    + now rewrite Hb.
Qed.

Lemma findById_after_update (st : store) :
  Booking.findById id (snd (Booking.update_where_id id f st))
  = option_map (fun b => if bookings.booking_id b =? id then f b else b)
      (Booking.findById id st).
Proof.
  destruct Hf as [_ Hid Hspot _].
  unfold Booking.findById, Booking.update_where_id. simpl.
  apply find_map_same_test. intros x.
  destruct (bookings.booking_id x =? id) eqn:Hx.
  - now rewrite Hid, Hspot, Hx.
  - now rewrite Hx.
Qed.

End Replay.

(** The SET lists built by the two callers on the payment path. *)
Lemma payment_fields_replayable (p : string) (rest : list (string * sql_param))
    (w : bookings.row -> bookings.row) :
  rest = [] \/ (exists v, rest = [("stripe_payment_intent_id", v)]) ->
  Booking.assign_all (("payment_status", PStr p) :: rest) = Booking.Stores w ->
  replayable w.
Proof.
  intros Hrest.
  assert (Hp : Booking.assign "payment_status" (PStr p)
               = Booking.stores_if Booking.set_payment_status
                   (enum_of_string payment_status_members p))
    by reflexivity.
  cbn [Booking.assign_all]. rewrite Hp.
  destruct (enum_of_string payment_status_members p) as [ps|];
    cbn [Booking.stores_if].
  2:{ destruct (Booking.assign_all rest); discriminate. }
  destruct Hrest as [->|[[|s] ->]]; cbn [Booking.assign_all];
    [|change (Booking.assign "stripe_payment_intent_id" PNull)
        with (Booking.Stores (Booking.set_stripe_payment_intent_id None))
     |change (Booking.assign "stripe_payment_intent_id" (PStr s))
        with (if Nat.leb (String.length s) 255
              then Booking.Stores (Booking.set_stripe_payment_intent_id (Some s))
              else Booking.NotStorable);
      destruct (Nat.leb (String.length s) 255)];
    intros H; inversion H; subst; constructor; intros b; reflexivity.
Qed.

Lemma updatePaymentStatus_twice (id : Z) (sets : list (string * sql_param))
    (st : store) :
  (forall w, Booking.assign_all sets = Booking.Stores w -> replayable w) ->
  Booking.updatePaymentStatus id (JObject sets)
    (snd (Booking.updatePaymentStatus id (JObject sets) st))
  = Booking.updatePaymentStatus id (JObject sets) st.
Proof.
  intros Hrep. unfold Booking.updatePaymentStatus. cbn [Booking.entries].
  destruct sets as [|kv rest]; [reflexivity|].
  destruct (Booking.assign_all (kv :: rest)) as [| |w] eqn:Hw;
    [reflexivity| |].
  - destruct (existsb _ (tbl_bookings st)) eqn:He; cbn [snd]; now rewrite He.
  - pose proof (update_where_id_twice id w (Hrep w eq_refl) st) as H.
    destruct (Booking.update_where_id id w st) as [n st'] eqn:H1.
    cbn [snd] in *. now rewrite H.
Qed.

(** C9.  Replaying a payment outcome changes nothing more: a second call of
    [processStripePayment] with the same booking id, payment intent id and
    status (and the same answer from the gateway), or of the booking
    controller's [updatePaymentStatus] with the same arguments, gives the
    same response and leaves the store the first call left, so
    [payment_status] and the stored gateway reference are as after one
    call. *)
Theorem payment_outcome_replay
    (retrieve : string -> outcome string) (u : user)
    (b : PaymentController.body) (id : Z) (paymentStatus : PaymentStatus)
    (stripePaymentIntentId : option (option string)) (st : store) :
  (let once := PaymentController.processStripePayment retrieve u b st in
   PaymentController.processStripePayment retrieve u b (snd once) = once)
  /\ (let once := BookingController.updatePaymentStatus u id paymentStatus
                    stripePaymentIntentId st in
      BookingController.updatePaymentStatus u id paymentStatus
        stripePaymentIntentId (snd once) = once).
Proof.
  split.
  - simpl. unfold PaymentController.processStripePayment.
    destruct (_ || _); [reflexivity|].
    destruct (retrieve _) as [s|c]; [|reflexivity].
    destruct (negb _); [reflexivity|].
    match goal with
    | |- context [Booking.updatePaymentStatus ?i (JObject ?f) st] =>
        assert (H : Booking.updatePaymentStatus i (JObject f)
                      (snd (Booking.updatePaymentStatus i (JObject f) st))
                    = Booking.updatePaymentStatus i (JObject f) st)
          by (apply updatePaymentStatus_twice; intros w;
              apply payment_fields_replayable; right; eexists; reflexivity);
        destruct (Booking.updatePaymentStatus i (JObject f) st) as [[[|]|c] st']
          eqn:H1; cbn [snd] in *; now rewrite H
    end.
  - cbv zeta. unfold BookingController.updatePaymentStatus.
    destruct (negb (BookingController.updatePaymentStatusSchema
                      stripePaymentIntentId)) eqn:Hschema;
      [reflexivity|].
    destruct (Booking.findById id st) as [found|] eqn:Hfind;
      [|cbn [snd]; now rewrite Hfind].
    destruct (negb (bookings.homeowner_id found =? user_id u) && _) eqn:Hauth;
      [cbn [snd]; now rewrite Hfind, Hauth|].
    set (sets := match stripePaymentIntentId with
                 | None => []
                 | Some None => [("stripe_payment_intent_id", PNull)]
                 | Some (Some s) => [("stripe_payment_intent_id", PStr s)]
                 end).
    assert (Hrep : forall w,
               Booking.assign_all
                 (("payment_status", PStr (payment_status_to_string paymentStatus))
                  :: sets) = Booking.Stores w -> replayable w).
    { intros w. apply payment_fields_replayable. subst sets.
      destruct stripePaymentIntentId as [[s|]|]; [right|right|left];
        try eexists; reflexivity. }
    unfold BookingController.updateFields. fold sets.
    pose proof (updatePaymentStatus_twice id
                  (("payment_status", PStr (payment_status_to_string paymentStatus))
                   :: sets) st Hrep) as Htwice.
    unfold Booking.updatePaymentStatus in *. simpl Booking.entries in *.
    cbv beta iota in *.
    destruct (Booking.assign_all _) as [| |w] eqn:Hw;
      [cbn [snd]; now rewrite Hfind, Hauth
      |destruct (existsb _ (tbl_bookings st)) eqn:He; cbn [snd];
       now rewrite Hfind, Hauth, He
      |].
    specialize (Hrep w eq_refl).
    pose proof (findById_after_update id w Hrep st) as Hfind'.
    destruct (Booking.update_where_id id w st) as [n st'] eqn:Hupd.
    simpl in Hfind', Htwice.
    assert (Hagain : Booking.findById id st'
                     = Some (if bookings.booking_id found =? id then w found else found)).
    { rewrite Hfind', Hfind. reflexivity. }
    assert (Hown : bookings.homeowner_id
                     (if bookings.booking_id found =? id then w found else found)
                   = bookings.homeowner_id found).
    { destruct (_ =? id); [apply (replay_homeowner w Hrep)|reflexivity]. }
    destruct (Nat.ltb 0 n) eqn:Hn; simpl; rewrite Hagain; cbv beta iota;
      rewrite Hown, Hauth; injection Htwice as Hn' Hst';
      rewrite Hn', Hst'; reflexivity.
Qed.

(** ** The frame of [Booking.updateStatus] *)

Lemma updateStatus_row_frame (now id : Z) (newStatus : BookingStatus)
    (tf : option string) (st : store) :
  names_lifecycle_timestamp tf ->
  exists g : bookings.row -> bookings.row,
    Booking.updateStatus now id newStatus tf st
    = (Return (Nat.ltb 0 (List.length
                 (filter (fun b => bookings.booking_id b =? id) (tbl_bookings st)))),
       with_bookings st
         (map (fun b => if bookings.booking_id b =? id then g b else b)
              (tbl_bookings st))
         (next_booking_id st))
    /\ forall b,
        same_booking_data b (g b)
        /\ bookings.booking_status (g b) = newStatus
        /\ forall column, In column lifecycle_timestamps ->
             timestamp_of column (g b)
             = if names tf column then Some now else timestamp_of column b.
Proof.
  intros Htf. unfold same_booking_data, lifecycle_timestamps in *.
  destruct tf as [column|]; simpl in Htf.
  - destruct Htf as [<-|[<-|[<-|[<-|[]]]]];
      (eexists; split; [reflexivity|]; intros b;
       split; [now repeat split|]; split; [reflexivity|];
       intros c [<-|[<-|[<-|[<-|[]]]]]; reflexivity).
  - exists (Booking.set_booking_status newStatus). split; [reflexivity|].
    intros b. split; [now repeat split|]. split; [reflexivity|].
    intros c [<-|[<-|[<-|[<-|[]]]]]; reflexivity.
Qed.

(** C10.  [Booking.updateStatus(bookingId, newStatus, timeFieldToUpdate)],
    called with null or with the name of a lifecycle timestamp column,
    resolves and leaves every table but [bookings] and every row with
    another id untouched; on a row with that id it writes [booking_status],
    sets exactly the named lifecycle timestamp (if any) to the current time
    and keeps the three other timestamps and [booking_id], [spot_id],
    [driver_id], [homeowner_id], [start_time], [end_time], [total_price],
    [payment_status] and [stripe_payment_intent_id]. *)
Theorem updateStatus_frame (now id : Z) (newStatus : BookingStatus)
    (timeFieldToUpdate : option string) (st : store)
    (Hcolumn : names_lifecycle_timestamp timeFieldToUpdate) :
  let r := Booking.updateStatus now id newStatus timeFieldToUpdate st in
  (exists updated, fst r = Return updated)
  /\ same_elsewhere st (snd r)
  /\ List.length (tbl_bookings (snd r)) = List.length (tbl_bookings st)
  /\ forall (i : nat) (b : bookings.row),
      nth_error (tbl_bookings st) i = Some b ->
      exists b',
        nth_error (tbl_bookings (snd r)) i = Some b'
        /\ (bookings.booking_id b <> id -> b' = b)
        /\ (bookings.booking_id b = id ->
            bookings.booking_status b' = newStatus
            /\ same_booking_data b b'
            /\ forall column, In column lifecycle_timestamps ->
                 timestamp_of column b'
                 = if names timeFieldToUpdate column then Some now
                   else timestamp_of column b).
Proof.
  destruct (updateStatus_row_frame now id newStatus timeFieldToUpdate st Hcolumn)
    as (g & Heq & Hg).
  simpl. rewrite Heq. simpl. split; [eexists; reflexivity|].
  split; [now repeat split|]. split; [apply length_map|].
  intros i b Hb. rewrite nth_error_map, Hb. simpl.
  eexists. split; [reflexivity|].
  destruct (Z.eqb_spec (bookings.booking_id b) id) as [Heq'|Hne].
  - split; [intros H; now elim H|]. intros _.
    destruct (Hg b) as (Hsame & Hst & Hts). auto.
  - split; [reflexivity|]. intros H. now elim Hne.
Qed.

(** The column name is spliced into the statement as it comes: outside the
    lifecycle timestamps the frame is not kept. *)
Remark updateStatus_splices_any_column :
  let st := store_with [spot1 active true] [sample_booking 1 1 600 660 confirmed] [] in
  map bookings.start_time
      (tbl_bookings (snd (Booking.updateStatus 610 1 checked_in (Some "start_time") st)))
  = [610].
Proof. reflexivity. Qed.

Lemma updateStatus_frame_witness :
  let b := sample_booking 1 1 600 660 confirmed in
  let st := store_with [spot1 active true] [b; sample_booking 2 1 700 760 pending] [] in
  let r := Booking.updateStatus 610 1 checked_in (Some "driver_check_in_time") st in
  names_lifecycle_timestamp (Some "driver_check_in_time")
  /\ same_elsewhere st (snd r)
  /\ List.length (tbl_bookings (snd r)) = List.length (tbl_bookings st).
Proof.
  intros b st r.
  assert (H : names_lifecycle_timestamp (Some "driver_check_in_time"))
    by (simpl; auto).
  split; [exact H|].
  pose proof (updateStatus_frame 610 1 checked_in (Some "driver_check_in_time") st H)
    as (_ & Helse & Hlen & _).
  split; [exact Helse|exact Hlen].
Defined.

(** Scenario B: the driver checks in on a confirmed booking: the status
    becomes checked_in and [driver_check_in_time] is set; a second check-in
    is refused with 400.  Scenario C: the homeowner cannot reject a confirmed
    booking. *)
Example scenario_B_C :
  let b := sample_booking 1 1 600 660 confirmed in
  let st := store_with [spot1 active true] [b] [] in
  let r1 := BookingController.updateBookingStatus 610 driver20 1 checked_in st in
  let r2 := BookingController.updateBookingStatus 615 driver20 1 checked_in (snd r1) in
  fst r1 = 200
  /\ map bookings.booking_status (tbl_bookings (snd r1)) = [checked_in]
  /\ map bookings.driver_check_in_time (tbl_bookings (snd r1)) = [Some 610]
  /\ r2 = (400, snd r1)
  /\ BookingController.updateBookingStatus 610 homeowner10 1 rejected st = (400, st).
Proof. repeat split. Qed.

(** * Further properties *)

(** ** Creating a booking and looking it up *)

Lemma find_app_split {A : Type} (p : A -> bool) (l l' : list A) :
  find p (l ++ l') = match find p l with
                     | Some x => Some x
                     | None => find p l'
                     end.
Proof.
  induction l as [|x l IH]; simpl; [reflexivity|].
  destruct (p x); [reflexivity|exact IH].
Qed.

Lemma find_none_iff {A : Type} (p : A -> bool) (l : list A) :
  find p l = None <-> forall x, In x l -> p x = false.
Proof.
  split.
  - intros H x Hx. now apply (find_none p l H).
  - induction l as [|x l IH]; simpl; intros H; [reflexivity|].
    rewrite (H x (or_introl eq_refl)). apply IH. intros y Hy. apply H. now right.
Qed.

Lemma select_spot_first (spot : Z) (st : store) :
  Booking.select_spot spot st
  = match ParkingSpot.findById spot st with
    | Some ps =>
        parking_spots.homeowner_id ps
        :: tl (Booking.select_spot spot st)
    | None => []
    end.
Proof.
  unfold Booking.select_spot, ParkingSpot.findById.
  induction (tbl_parking_spots st) as [|ps l IH]; simpl; [reflexivity|].
  destruct (parking_spots.spot_id ps =? spot); simpl; [reflexivity|exact IH].
Qed.

Lemma findById_spot_exists (spot : Z) (st : store) (ps : parking_spots.row) :
  ParkingSpot.findById spot st = Some ps ->
  existsb (fun x => parking_spots.spot_id x =? spot) (tbl_parking_spots st) = true.
Proof.
  unfold ParkingSpot.findById. intros H. apply find_some in H as [Hin Hid].
  apply existsb_exists. now exists ps.
Qed.

(** X1.  On a store whose booking ids are below the AUTO_INCREMENT counter, a
    create request answered 201 inserts exactly one row: [Booking.findById]
    of the new id returns a booking of the requested spot and range whose
    driver is the authenticated user, whose homeowner is the current owner of
    the spot, in status pending with payment pending and no lifecycle
    timestamp; every booking found before is found unchanged. *)
Theorem createBooking_then_findById (u : user)
    (body : BookingController.createBody) (st : store)
    (Hfresh : booking_ids_fresh st)
    (Hcreated : fst (BookingController.createBooking u body st) = 201) :
  let st' := snd (BookingController.createBooking u body st) in
  (exists spot b,
      ParkingSpot.findById (BookingController.spotId body) st = Some spot
      /\ Booking.findById (next_booking_id st) st' = Some b
      /\ tbl_bookings st' = tbl_bookings st ++ [b]
      /\ bookings.booking_id b = next_booking_id st
      /\ bookings.spot_id b = BookingController.spotId body
      /\ bookings.driver_id b = user_id u
      /\ bookings.homeowner_id b = parking_spots.homeowner_id spot
      /\ bookings.start_time b = BookingController.startTime body
      /\ bookings.end_time b = BookingController.endTime body
      /\ bookings.total_price b = BookingController.totalPrice body
      /\ bookings.booking_status b = pending
      /\ bookings.payment_status b = pay_pending
      /\ (forall column, timestamp_of column b = None))
  /\ (forall id b, Booking.findById id st = Some b ->
                   Booking.findById id st' = Some b)
  /\ booking_ids_fresh st'.
Proof.
  simpl. revert Hcreated.
  unfold BookingController.createBooking, Booking.create.
  destruct (BookingController.createBookingSchema body); [|discriminate].
  rewrite select_spot_first.
  destruct (ParkingSpot.findById _ st) as [spot|] eqn:Hspot; [|discriminate].
  cbn [Booking.bd_spot_id BookingController.bookingData].
  destruct (Booking.select_overlap _ _ _ st); [|discriminate].
  unfold Booking.insert. destruct (Booking.accepts _); [|discriminate].
  cbn [fst snd]. intros _.
  set (b := Booking.new_row (next_booking_id st)
              (parking_spots.homeowner_id spot)
              (BookingController.bookingData u body)).
  assert (Hold : forall id,
             find (fun x => (bookings.booking_id x =? id)
                            && existsb (fun ps => parking_spots.spot_id ps
                                                  =? bookings.spot_id x)
                                       (tbl_parking_spots st))
                  (tbl_bookings st ++ [b])
             = match Booking.findById id st with
               | Some x => Some x
               | None => if id =? next_booking_id st then Some b else None
               end).
  { intros id. rewrite find_app_split. unfold Booking.findById.
    destruct (find _ (tbl_bookings st)); [reflexivity|]. simpl.
    rewrite (Z.eqb_sym id).
    destruct (next_booking_id st =? id); [|reflexivity].
    pose proof (findById_spot_exists _ _ _ Hspot) as He.
    cbn [Booking.bd_spot_id BookingController.bookingData] in *.
    now rewrite He. }
  split; [|split].
  - exists spot, b. split; [reflexivity|].
    split.
    + unfold Booking.findById. simpl. rewrite Hold, Z.eqb_refl.
      destruct (Booking.findById (next_booking_id st) st) as [x|] eqn:Hx;
        [|reflexivity].
      apply findById_in in Hx as [Hin Hid]. specialize (Hfresh x Hin). lia.
    + repeat split; try reflexivity.
      intros column. unfold timestamp_of. simpl.
      repeat match goal with |- context [if ?c then _ else _] => destruct c end;
        reflexivity.
  - intros id x Hx. unfold Booking.findById at 1. simpl.
    now rewrite Hold, Hx.
  - intros x Hx. simpl in Hx. apply in_app_or in Hx as [Hx|[<-|[]]]; simpl.
    + specialize (Hfresh x Hx). lia.
    + lia.
Qed.

Lemma createBooking_then_findById_witness :
  booking_ids_fresh store_A
  /\ fst (BookingController.createBooking driver20 (request 1 600 660) store_A)
     = 201
  /\ booking_ids_fresh
       (snd (BookingController.createBooking driver20 (request 1 600 660)
               store_A)).
Proof.
  assert (Hfresh : booking_ids_fresh store_A) by (intros b []).
  split; [exact Hfresh|]. split; [reflexivity|].
  exact (proj2 (proj2 (createBooking_then_findById driver20 (request 1 600 660)
                         store_A Hfresh eq_refl))).
Defined.

(** ** What a status request does to the store *)

Lemma findById_map_rows (id : Z) (st : store)
    (g : bookings.row -> bookings.row) (n : Z) :
  (forall b, bookings.booking_id (g b) = bookings.booking_id b
             /\ bookings.spot_id (g b) = bookings.spot_id b) ->
  Booking.findById id (with_bookings st (map g (tbl_bookings st)) n)
  = option_map g (Booking.findById id st).
Proof.
  intros Hg. unfold Booking.findById. cbn [tbl_bookings tbl_parking_spots with_bookings].
  induction (tbl_bookings st) as [|b l IH]; [reflexivity|].
  cbn [map find]. destruct (Hg b) as [-> ->].
  destruct (_ && _); [reflexivity|exact IH].
Qed.

Lemma transition_timestamp_for (u : user) (b : bookings.row)
    (status : BookingStatus) (tf : option string) :
  BookingController.transition u b status = BookingController.Proceed tf ->
  tf = timestamp_for status.
Proof.
  unfold BookingController.transition.
  destruct status;
    repeat match goal with
           | |- context [if ?c then _ else _] => destruct c
           end;
    intros H; inversion H; reflexivity.
Qed.

Lemma transition_advances (u : user) (b : bookings.row)
    (status : BookingStatus) (tf : option string) :
  BookingController.transition u b status = BookingController.Proceed tf ->
  (stage (bookings.booking_status b) <= stage status)%nat.
Proof.
  unfold BookingController.transition, BookingController.isCancelBlocked.
  destruct status; destruct (bookings.booking_status b); simpl;
    try lia;
    repeat match goal with
           | |- context [if ?c then _ else _] => destruct c
           end; discriminate.
Qed.

(** The three outcomes of the handler, as one case analysis: not found,
    refused by the switch, or the row with that id rewritten. *)
Lemma updateBookingStatus_cases (now : Z) (u : user) (id : Z)
    (status : BookingStatus) (st : store) :
  let r := BookingController.updateBookingStatus now u id status st in
  (fst r <> 200 /\ snd r = st)
  \/ (exists b g,
        fst r = 200
        /\ Booking.findById id st = Some b
        /\ BookingController.transition u b status
           = BookingController.Proceed (timestamp_for status)
        /\ snd r = with_bookings st
                     (map (fun x => if bookings.booking_id x =? id then g x else x)
                          (tbl_bookings st))
                     (next_booking_id st)
        /\ (forall id' x,
              Booking.findById id' st = Some x ->
              Booking.findById id' (snd r)
              = Some (if bookings.booking_id x =? id then g x else x))
        /\ forall x,
            same_booking_data x (g x)
            /\ bookings.booking_status (g x) = status
            /\ forall column, In column lifecycle_timestamps ->
                 timestamp_of column (g x)
                 = if names (timestamp_for status) column then Some now
                   else timestamp_of column x).
Proof.
  cbv zeta. unfold BookingController.updateBookingStatus.
  destruct (Booking.findById id st) as [b|] eqn:Hb;
    [|left; split; [discriminate|reflexivity]].
  destruct (BookingController.transition u b status) as [code|tf] eqn:Ht.
  - left. split; [|reflexivity]. cbn [fst]. intros ->.
    revert Ht. unfold BookingController.transition.
    destruct status;
      repeat match goal with
             | |- context [if ?c then _ else _] => destruct c
             end; discriminate.
  - pose proof (transition_timestamp_for _ _ _ _ Ht) as ->.
    destruct (updateStatus_row_frame now id status (timestamp_for status) st
                (transition_time_field _ _ _ _ Ht)) as (g & Heq & Hg).
    rewrite Heq, (findById_affects _ _ _ Hb).
    right. exists b, g. split; [reflexivity|]. split; [reflexivity|].
    split; [exact Ht|]. split; [reflexivity|]. split; [|exact Hg].
    intros id' x Hx. cbn [snd].
    rewrite (findById_map_rows id' st
               (fun x => if bookings.booking_id x =? id then g x else x)),
      Hx; [reflexivity|].
    intros y. destruct (bookings.booking_id y =? id); [|auto].
    destruct (Hg y) as ((H1 & H2 & _) & _). auto.
Qed.

(** X2.  What [updateBookingStatus] does to the store.  A request that is not
    answered 200 changes nothing.  One answered 200 found a booking that the
    switch let through, and afterwards [Booking.findById] of that id returns
    the booking with the requested status, with the timestamp that belongs
    to that status (confirm, reject, check-in, check-out; none for the
    cancellations and for completed) set to the current time, and with the
    other timestamps and all other columns as before.  In both cases the
    bookings with another id are found unchanged. *)
Theorem updateBookingStatus_effect (now : Z) (u : user) (id : Z)
    (status : BookingStatus) (st : store) :
  let r := BookingController.updateBookingStatus now u id status st in
  (fst r <> 200 -> snd r = st)
  /\ (fst r = 200 ->
      exists b b',
        Booking.findById id st = Some b
        /\ BookingController.transition u b status
           = BookingController.Proceed (timestamp_for status)
        /\ Booking.findById id (snd r) = Some b'
        /\ bookings.booking_status b' = status
        /\ same_booking_data b b'
        /\ forall column, In column lifecycle_timestamps ->
             timestamp_of column b'
             = if names (timestamp_for status) column then Some now
               else timestamp_of column b)
  /\ (forall id' b, id' <> id ->
        Booking.findById id' st = Some b ->
        Booking.findById id' (snd r) = Some b).
Proof.
  intros r.
  destruct (updateBookingStatus_cases now u id status st)
    as [[Hcode Hst]|(b & g & Hcode & Hb & Ht & _ & Hlook & Hg)];
    fold r in Hcode.
  - fold r in Hst. split; [auto|]. split; [intros H; contradiction|].
    intros id' b _ Hb. now rewrite Hst.
  - fold r in Hlook. split; [intros H; contradiction|]. split.
    + intros _. exists b, (g b). split; [exact Hb|]. split; [exact Ht|].
      rewrite (Hlook id b Hb).
      destruct (findById_in _ _ _ Hb) as [_ Hid].
      apply Z.eqb_eq in Hid. rewrite Hid.
      destruct (Hg b) as (H1 & H2 & H3). auto.
    + intros id' x Hne Hx. rewrite (Hlook id' x Hx).
      destruct (findById_in _ _ _ Hx) as [_ Hid].
      destruct (Z.eqb_spec (bookings.booking_id x) id); [congruence|reflexivity].
Qed.

(** X3.  The lifecycle only moves forward.  Order the statuses pending,
    confirmed, checked_in, checked_out, then the terminal ones: whatever
    status request is served, by whomever and on whichever booking, every
    booking found before is still found afterwards and its status is at the
    same place or further along.  In particular no booking returns to
    pending, and none goes from checked_out back to checked_in. *)
Theorem lifecycle_only_advances (now : Z) (u : user) (id : Z)
    (status : BookingStatus) (st : store) (id0 : Z) (b : bookings.row)
    (Hfound : Booking.findById id0 st = Some b) :
  exists b',
    Booking.findById id0
      (snd (BookingController.updateBookingStatus now u id status st)) = Some b'
    /\ (stage (bookings.booking_status b)
        <= stage (bookings.booking_status b'))%nat.
Proof.
  destruct (updateBookingStatus_cases now u id status st)
    as [[_ Hst]|(b0 & g & _ & Hb0 & Ht & _ & Hlook & Hg)]; cbv zeta in *.
  - exists b. rewrite Hst. split; [exact Hfound|lia].
  - exists (if bookings.booking_id b =? id then g b else b).
    split; [now apply Hlook|].
    destruct (Z.eqb_spec (bookings.booking_id b) id) as [Hid|_]; [|lia].
    destruct (findById_in _ _ _ Hfound) as [_ Hid0].
    assert (b0 = b) by congruence. subst b0.
    destruct (Hg b) as (_ & -> & _).
    exact (transition_advances _ _ _ _ Ht).
Qed.

Lemma lifecycle_only_advances_witness :
  let st := store_with [spot1 active true]
              [sample_booking 1 1 600 660 checked_in] [] in
  exists b',
    Booking.findById 1
      (snd (BookingController.updateBookingStatus 700 driver20 1 checked_out st))
    = Some b'
    /\ (stage checked_in <= stage (bookings.booking_status b'))%nat.
Proof.
  intros st.
  exact (lifecycle_only_advances 700 driver20 1 checked_out st 1
           (sample_booking 1 1 600 660 checked_in) eq_refl).
Defined.

(** ** The transactions table *)

Lemma updatePaymentStatus_keeps_transactions (id : Z) (updateFields : js_value)
    (st : store) :
  tbl_transactions (snd (Booking.updatePaymentStatus id updateFields st))
  = tbl_transactions st
  /\ next_transaction_id (snd (Booking.updatePaymentStatus id updateFields st))
     = next_transaction_id st.
Proof.
  unfold Booking.updatePaymentStatus.
  destruct (Booking.entries updateFields); [now split|].
  destruct (Booking.assign_all _); [now split| |now split].
  destruct (existsb _ _); now split.
Qed.

(** X4.  [createTransaction] never answers 201 and never writes: whatever the
    body and the store, the answer is 400 (schema, or a payer or receiver
    that does not exist), 404 (a booking payment for a booking that does not
    exist) or 500 (the call of [Transaction.create], which the model does not
    define), and the store is left as it was; a body that passes all checks
    is answered 500. *)
Theorem createTransaction_never_succeeds (now : Z) (u : user)
    (value : Transaction.transactionData) (st : store) :
  let r := TransactionController.createTransaction now u value st in
  (fst r = 400 \/ fst r = 404 \/ fst r = 500)
  /\ snd r = st
  /\ (TransactionController.createTransactionSchema value = true ->
      TransactionController.user_missing (Transaction.payerId value) st = false ->
      TransactionController.user_missing (Transaction.receiverId value) st = false ->
      TransactionController.booking_missing
        (TransactionController.with_userId u value) st = false ->
      fst r = 500).
Proof.
  cbv zeta.
  unfold TransactionController.createTransaction,
    TransactionController.createTransaction_with.
  cbn [Transaction.payerId Transaction.receiverId
       TransactionController.with_userId].
  destruct (TransactionController.createTransactionSchema value);
    cbn [negb]; [|repeat split; auto; discriminate].
  destruct (TransactionController.user_missing (Transaction.payerId value) st);
    [repeat split; auto; discriminate|].
  destruct (TransactionController.user_missing (Transaction.receiverId value) st);
    [repeat split; auto; discriminate|].
  destruct (TransactionController.booking_missing _ st);
    [repeat split; auto; discriminate|].
  cbn. repeat split; auto.
Qed.

Lemma api_exec_keeps_transaction_ids (o : api_op) (st : store) :
  transaction_ids (snd (api_exec o st)) = transaction_ids st.
Proof.
  unfold transaction_ids.
  destruct o as [[u body|now u id status]
                |[ci u b|retrieve u b|u id p i|now u value|u id status]
                |[now u spot s e|u id d|u id]]; cbn [api_exec exec exec_payment exec_ledger].
  - unfold BookingController.createBooking, Booking.create.
    destruct (BookingController.createBookingSchema body); [|reflexivity].
    destruct (Booking.select_spot _ st); [reflexivity|].
    destruct (Booking.select_overlap _ _ _ st); [|reflexivity].
    unfold Booking.insert. destruct (Booking.accepts _); reflexivity.
  - destruct (updateBookingStatus_cases now u id status st)
      as [[_ ->]|(b & g & _ & _ & _ & -> & _ & _)]; reflexivity.
  - unfold PaymentController.createPaymentIntent.
    destruct (_ || _); [reflexivity|].
    destruct (negb _); [reflexivity|].
    destruct (ci _ _ _ _); reflexivity.
  - unfold PaymentController.processStripePayment.
    destruct (_ || _); [reflexivity|].
    destruct (retrieve _) as [s|c]; [|reflexivity].
    destruct (negb _); [reflexivity|].
    match goal with
    | |- context [Booking.updatePaymentStatus ?i ?f st] =>
        destruct (updatePaymentStatus_keeps_transactions i f st) as [H1 H2];
        destruct (Booking.updatePaymentStatus i f st) as [[[|]|c] st']
    end; cbn [snd] in *; now rewrite H1, H2.
  - unfold BookingController.updatePaymentStatus.
    destruct (negb (BookingController.updatePaymentStatusSchema i));
      [reflexivity|].
    destruct (Booking.findById id st); [|reflexivity].
    destruct (_ && _); [reflexivity|].
    match goal with
    | |- context [Booking.updatePaymentStatus ?i ?f st] =>
        destruct (updatePaymentStatus_keeps_transactions i f st) as [H1 H2];
        destruct (Booking.updatePaymentStatus i f st) as [[[|]|c] st']
    end; cbn [snd] in *; now rewrite H1, H2.
  - now rewrite createTransaction_keeps_store.
  - unfold TransactionController.updateTransactionStatus.
    destruct (negb _); [reflexivity|].
    destruct (Transaction.findById id st); [|reflexivity].
    cbn. rewrite map_map. f_equal. apply map_ext. intros x.
    destruct (transactions.transaction_id x =? id); reflexivity.
  - unfold SpotAvailabilityController.createSpotAvailability.
    destruct (negb _); [reflexivity|].
    destruct (ParkingSpot.findById spot st); [|reflexivity].
    destruct (negb _); [reflexivity|].
    destruct (negb _); reflexivity.
  - unfold SpotAvailabilityController.updateSpotAvailability.
    destruct (negb _); [reflexivity|].
    destruct (SpotAvailability.findById id st); [|reflexivity].
    destruct (ParkingSpot.findById _ st); [|reflexivity].
    destruct (negb _); [reflexivity|].
    destruct (_ && _); [reflexivity|].
    destruct (_ && _); [reflexivity|].
    unfold SpotAvailability.updateAvailability.
    destruct (SpotAvailability.startTime d), (SpotAvailability.endTime d),
      (SpotAvailability.isBooked d); reflexivity.
  - unfold SpotAvailabilityController.deleteSpotAvailability.
    destruct (id <=? 0); [reflexivity|].
    destruct (SpotAvailability.findById id st); [|reflexivity].
    destruct (ParkingSpot.findById _ st); [|reflexivity].
    destruct (negb _); [reflexivity|].
    destruct (spot_availability.is_booked _); reflexivity.
Qed.

(** X5.  None of the handlers [createBooking], [updateBookingStatus],
    [createPaymentIntent], [processStripePayment], [updatePaymentStatus],
    [createTransaction], [updateTransactionStatus], [createSpotAvailability],
    [updateSpotAvailability] and [deleteSpotAvailability] inserts or deletes
    a row of [transactions]: after any run of such requests the table holds
    the same transaction ids and the AUTO_INCREMENT counter is where it was
    (the only INSERT is behind the failing call of [createTransaction]).  So
    on a store that starts without transactions, [updateTransactionStatus]
    is answered 403 or 404 whatever is asked, and changes nothing. *)
Theorem transactions_never_inserted (ops : list api_op) (st : store) :
  transaction_ids (api_run ops st) = transaction_ids st
  /\ (tbl_transactions st = [] ->
      forall u id status,
        let r := TransactionController.updateTransactionStatus u id status
                   (api_run ops st) in
        (fst r = 403 \/ fst r = 404) /\ snd r = api_run ops st).
Proof.
  assert (Hids : transaction_ids (api_run ops st) = transaction_ids st).
  { unfold api_run. revert st.
    induction ops as [|o ops IH]; intros st; [reflexivity|].
    cbn [fold_left]. now rewrite IH, api_exec_keeps_transaction_ids. }
  split; [exact Hids|]. intros Hempty u id status.
  unfold transaction_ids in Hids. rewrite Hempty in Hids.
  injection Hids as Hmap _. apply map_eq_nil in Hmap.
  cbv zeta. unfold TransactionController.updateTransactionStatus,
    Transaction.findById.
  rewrite Hmap. destruct (negb _); cbn; auto.
Qed.

Lemma transactions_never_inserted_witness :
  let s := api_run [OnBookings (CreateBooking driver20 (request 1 600 660));
                    OnPayments (CreateTransaction 0 admin30
                      (Transaction.mkData None (Some 1) None None 500 "ETB"
                         booking_payment "stripe" None tx_completed None))]
             store_A in
  let r := TransactionController.updateTransactionStatus admin30 1 tx_completed s in
  (fst r = 403 \/ fst r = 404) /\ snd r = s.
Proof.
  exact (proj2 (transactions_never_inserted
                  [OnBookings (CreateBooking driver20 (request 1 600 660));
                   OnPayments (CreateTransaction 0 admin30
                     (Transaction.mkData None (Some 1) None None 500 "ETB"
                        booking_payment "stripe" None tx_completed None))]
                  store_A) eq_refl admin30 1 tx_completed).
Defined.

(** ** Recording a payment outcome *)

Lemma update_where_id_absent (id : Z) (f : bookings.row -> bookings.row)
    (st : store) :
  fst (Booking.update_where_id id f st) = 0%nat ->
  snd (Booking.update_where_id id f st) = st.
Proof.
  unfold Booking.update_where_id. cbn [fst snd]. intros Hn.
  apply length_zero_iff_nil in Hn.
  transitivity (with_bookings st (tbl_bookings st) (next_booking_id st));
    [|apply store_eta].
  f_equal.
  transitivity (map (fun b : bookings.row => b) (tbl_bookings st));
    [|apply map_id].
  apply map_ext_in. intros b Hb.
  destruct (bookings.booking_id b =? id) eqn:Hid; [|reflexivity].
  assert (In b (filter (fun x => bookings.booking_id x =? id) (tbl_bookings st)))
    as Hin by (apply filter_In; auto).
  rewrite Hn in Hin. contradiction.
Qed.

Lemma update_where_id_count (id : Z) (f : bookings.row -> bookings.row)
    (st : store) :
  Nat.ltb 0 (fst (Booking.update_where_id id f st)) = true
  <-> booking_row_exists id st.
Proof.
  unfold Booking.update_where_id, booking_row_exists. cbn [fst].
  split.
  - intros Hn.
    destruct (filter _ (tbl_bookings st)) as [|x l] eqn:Hf; [discriminate|].
    assert (In x (filter (fun b => bookings.booking_id b =? id) (tbl_bookings st)))
      as Hin by (rewrite Hf; now left).
    apply filter_In in Hin as [Hin Hid]. apply Z.eqb_eq in Hid. now exists x.
  - intros (x & Hin & Hid).
    assert (In x (filter (fun b => bookings.booking_id b =? id) (tbl_bookings st)))
      as Hf by (apply filter_In; split; [exact Hin|now apply Z.eqb_eq]).
    destruct (filter _ (tbl_bookings st)); [contradiction|reflexivity].
Qed.

(** The SET list of the payment path, as a row write. *)
Lemma payment_write (s : string) (intent : option (option string)) :
  let sets := ("payment_status", PStr s)
              :: match intent with
                 | None => []
                 | Some None => [("stripe_payment_intent_id", PNull)]
                 | Some (Some i) => [("stripe_payment_intent_id", PStr i)]
                 end in
  match enum_of_string payment_status_members s with
  | Some p =>
      if BookingController.updatePaymentStatusSchema intent
      then exists f, Booking.assign_all sets = Booking.Stores f
                     /\ forall b, paid_with p intent b (f b)
      else Booking.assign_all sets = Booking.NotStorable
  | None => Booking.assign_all sets = Booking.NotStorable
  end.
Proof.
  cbv zeta.
  assert (Hp : Booking.assign "payment_status" (PStr s)
               = Booking.stores_if Booking.set_payment_status
                   (enum_of_string payment_status_members s))
    by reflexivity.
  assert (Hi : forall i, Booking.assign "stripe_payment_intent_id" (PStr i)
               = if Nat.leb (String.length i) 255
                 then Booking.Stores (Booking.set_stripe_payment_intent_id (Some i))
                 else Booking.NotStorable)
    by reflexivity.
  assert (Hn : Booking.assign "stripe_payment_intent_id" PNull
               = Booking.Stores (Booking.set_stripe_payment_intent_id None))
    by reflexivity.
  cbn [Booking.assign_all]. rewrite Hp.
  destruct (enum_of_string payment_status_members s) as [p|];
    cbn [Booking.stores_if].
  - destruct intent as [[i|]|];
      cbn [Booking.assign_all BookingController.updatePaymentStatusSchema];
      rewrite ?Hi, ?Hn; [destruct (Nat.leb (String.length i) 255)| |];
      try reflexivity;
      (eexists; split; [reflexivity|]; intros b; unfold paid_with;
       destruct b; repeat split; reflexivity).
  - destruct intent as [[i|]|]; cbn [Booking.assign_all];
      rewrite ?Hi, ?Hn; [destruct (Nat.leb (String.length i) 255)| |];
      reflexivity.
Qed.

(** [Booking.updatePaymentStatus] with such a SET list.  When the status
    text and the reference are values of their columns, every row with the
    id gets the payment write, and the call returns whether there was one.
    Otherwise the call is rejected if a row has the id, and returns false if
    none has. *)
Lemma updatePaymentStatus_fields (id : Z) (s : string)
    (intent : option (option string)) (st : store) :
  let sets := ("payment_status", PStr s)
              :: match intent with
                 | None => []
                 | Some None => [("stripe_payment_intent_id", PNull)]
                 | Some (Some i) => [("stripe_payment_intent_id", PStr i)]
                 end in
  let refused :=
    Booking.updatePaymentStatus id (JObject sets) st
    = (if existsb (fun b => bookings.booking_id b =? id) (tbl_bookings st)
       then Throw None else Return false, st) in
  match enum_of_string payment_status_members s with
  | Some p =>
      if BookingController.updatePaymentStatusSchema intent
      then exists f,
             Booking.updatePaymentStatus id (JObject sets) st
             = (Return (Nat.ltb 0 (fst (Booking.update_where_id id f st))),
                snd (Booking.update_where_id id f st))
             /\ forall b, paid_with p intent b (f b)
      else refused
  | None => refused
  end.
Proof.
  cbv zeta. pose proof (payment_write s intent) as H. cbv zeta in H.
  unfold Booking.updatePaymentStatus. cbn [Booking.entries].
  destruct (enum_of_string payment_status_members s) as [p|].
  - destruct (BookingController.updatePaymentStatusSchema intent).
    + destruct H as (f & -> & Hf). exists f. split; [reflexivity|exact Hf].
    + rewrite H. destruct (existsb _ _); reflexivity.
  - rewrite H. destruct (existsb _ _); reflexivity.
Qed.

Lemma paid_with_keys (p : PaymentStatus) (intent : option (option string))
    (b b' : bookings.row) :
  paid_with p intent b b' ->
  bookings.booking_id b' = bookings.booking_id b
  /\ bookings.spot_id b' = bookings.spot_id b
  /\ bookings.homeowner_id b' = bookings.homeowner_id b
  /\ bookings.booking_status b' = bookings.booking_status b.
Proof.
  intros (_ & _ & <-). repeat split.
Qed.

Lemma findById_after_payment_write (id : Z) (p : PaymentStatus)
    (intent : option (option string)) (f : bookings.row -> bookings.row)
    (st : store) :
  (forall b, paid_with p intent b (f b)) ->
  forall id' x,
    Booking.findById id' st = Some x ->
    exists x',
      Booking.findById id' (snd (Booking.update_where_id id f st)) = Some x'
      /\ (id' = id -> paid_with p intent x x')
      /\ (id' <> id -> x' = x).
Proof.
  intros Hf id' x Hx. unfold Booking.update_where_id. cbn [snd].
  rewrite findById_map_rows, Hx.
  - cbn [option_map]. eexists. split; [reflexivity|].
    destruct (findById_in _ _ _ Hx) as [_ Hid].
    destruct (Z.eqb_spec (bookings.booking_id x) id); split; intros;
      try congruence; apply Hf.
  - intros b. destruct (bookings.booking_id b =? id); [|auto].
    destruct (paid_with_keys _ _ _ _ (Hf b)) as (H1 & H2 & _). auto.
Qed.

Ltac refused :=
  cbn [fst snd]; intuition (try discriminate; try congruence).

(** The handler on a body whose three fields have their expected types. *)
Lemma processStripePayment_on_strings (retrieve : string -> outcome string)
    (u : user) (b : PaymentController.body) (st : store) :
  let r := PaymentController.processStripePayment retrieve u b st in
  (fst r = 200 <->
   PaymentController.bookingId b <> 0
   /\ PaymentController.paymentIntentId b <> EmptyString
   /\ retrieve (PaymentController.paymentIntentId b) = Return "succeeded"
   /\ enum_of_string payment_status_members (PaymentController.paymentStatus b)
      <> None
   /\ Nat.leb (String.length (PaymentController.paymentIntentId b)) 255 = true
   /\ booking_row_exists (PaymentController.bookingId b) st)
  /\ (fst r <> 200 -> snd r = st)
  /\ (fst r = 200 ->
      forall id x,
        Booking.findById id st = Some x ->
        exists x',
          Booking.findById id (snd r) = Some x'
          /\ (id = PaymentController.bookingId b ->
              enum_of_string payment_status_members
                (PaymentController.paymentStatus b)
              = Some (bookings.payment_status x')
              /\ paid_with (bookings.payment_status x')
                   (Some (Some (PaymentController.paymentIntentId b))) x x')
          /\ (id <> PaymentController.bookingId b -> x' = x))
  /\ (forall u', PaymentController.processStripePayment retrieve u' b st = r).
Proof.
  cbv zeta. unfold PaymentController.processStripePayment.
  destruct (Z.eqb_spec (PaymentController.bookingId b) 0) as [H0|H0];
    cbn [orb]; [refused|].
  destruct (String.eqb_spec (PaymentController.paymentIntentId b) EmptyString)
    as [Hi|Hi]; cbn [orb]; [refused|].
  destruct (String.eqb_spec (PaymentController.paymentStatus b) EmptyString)
    as [Hs|Hs].
  { assert (enum_of_string payment_status_members
              (PaymentController.paymentStatus b) = None)
      by (rewrite Hs; reflexivity).
    refused. }
  destruct (retrieve (PaymentController.paymentIntentId b)) as [status|c];
    [|refused].
  destruct (String.eqb_spec status "succeeded") as [->|Hne]; cbn [negb];
    [|refused].
  pose proof (updatePaymentStatus_fields (PaymentController.bookingId b)
                (PaymentController.paymentStatus b)
                (Some (Some (PaymentController.paymentIntentId b))) st) as H.
  cbv zeta in H. cbn [BookingController.updatePaymentStatusSchema] in H.
  destruct (enum_of_string payment_status_members
              (PaymentController.paymentStatus b)) as [p|] eqn:Hp.
  2:{ rewrite H. destruct (existsb _ _); refused. }
  destruct (Nat.leb (String.length (PaymentController.paymentIntentId b)) 255)
    eqn:Hlen.
  2:{ rewrite H. destruct (existsb _ _); refused. }
  destruct H as (f & -> & Hf).
  pose proof (update_where_id_count (PaymentController.bookingId b) f st) as Hc.
  pose proof (update_where_id_absent (PaymentController.bookingId b) f st) as Ha.
  destruct (fst (Booking.update_where_id (PaymentController.bookingId b) f st))
    as [|n]; cbn [Nat.ltb Nat.leb fst snd] in *.
  - split; [|split; [|split]]; try discriminate; try reflexivity.
    + split; [discriminate|].
      intros (_ & _ & _ & _ & _ & He). apply Hc in He. discriminate.
    + intros _. now apply Ha.
  - split; [|split; [intros Hn; now elim Hn|split; [|reflexivity]]].
    + split; [intros _|reflexivity].
      repeat split; auto; try discriminate. now apply Hc.
    + intros _ id x Hx.
      destruct (findById_after_payment_write
                  (PaymentController.bookingId b) p _ f st Hf id x Hx)
        as (x' & Hx' & Hsame & Hother).
      exists x'. split; [exact Hx'|]. split; [|exact Hother].
      intros Hid. specialize (Hsame Hid).
      destruct Hsame as (Hps & Hrest). split; [congruence|].
      split; [reflexivity|exact Hrest].
Qed.

(** X6.  [processStripePayment] on a body whose [bookingId] is a number,
    whose [paymentIntentId] is a string of at most 255 characters and whose
    [paymentStatus] is one of the strings pending, paid, refunded, failed.
    It answers 200 exactly when the two ids are truthy, the gateway reports
    the intent as succeeded and some booking row has the id.  Otherwise the
    store is left untouched.  On 200 the booking with that id carries the
    payment status the request asked for, whatever it is, and the intent id
    as its gateway reference, with every other column (the booking status
    among them) as before, and the other bookings are unchanged.  Who sends
    the request plays no part. *)
Theorem processStripePayment_effect (retrieve : string -> outcome string)
    (u : user) (b : Untyped.body) (st : store)
    (id : Z) (intent status : string)
    (Hid : Untyped.bookingId b = Some (Untyped.Number id))
    (Hintent : Untyped.paymentIntentId b = Some (Untyped.Str intent))
    (Hstatus : Untyped.paymentStatus b = Some (Untyped.Str status))
    (Hliteral : In status ["pending"; "paid"; "refunded"; "failed"])
    (Hlength : Nat.leb (String.length intent) 255 = true) :
  exists r,
    Untyped.processStripePayment retrieve u b st = Some r
    /\ (fst r = 200 <->
        id <> 0
        /\ intent <> EmptyString
        /\ retrieve intent = Return "succeeded"
        /\ booking_row_exists id st)
    /\ (fst r <> 200 -> snd r = st)
    /\ (fst r = 200 ->
        forall id' x,
          Booking.findById id' st = Some x ->
          exists x',
            Booking.findById id' (snd r) = Some x'
            /\ (id' = id ->
                payment_status_of_string status = Some (bookings.payment_status x')
                /\ paid_with (bookings.payment_status x')
                     (Some (Some intent)) x x')
            /\ (id' <> id -> x' = x))
    /\ (forall u', Untyped.processStripePayment retrieve u' b st = Some r).
Proof.
  assert (Hb : b = Untyped.of_body (PaymentController.mkBody id intent status)).
  { destruct b as [x y z]. cbn in Hid, Hintent, Hstatus. subst. reflexivity. }
  assert (Henum : enum_of_string payment_status_members status
                  = payment_status_of_string status
                  /\ payment_status_of_string status <> None).
  { destruct Hliteral as [<-|[<-|[<-|[<-|[]]]]]; split;
      try reflexivity; discriminate. }
  destruct Henum as [Henum Hsome].
  subst b. exists (PaymentController.processStripePayment retrieve u
                     (PaymentController.mkBody id intent status) st).
  destruct (processStripePayment_on_strings retrieve u
              (PaymentController.mkBody id intent status) st)
    as (H200 & Hother & Hrow & Hwho).
  cbv zeta in H200, Hother, Hrow, Hwho.
  cbn [PaymentController.bookingId PaymentController.paymentIntentId
       PaymentController.paymentStatus] in H200, Hrow.
  rewrite Henum in H200, Hrow.
  split; [apply untyped_processStripePayment_on_strings|].
  split; [|split; [exact Hother|split; [exact Hrow|]]].
  - rewrite H200. intuition.
  - intros u'. rewrite untyped_processStripePayment_on_strings.
    now rewrite Hwho.
Qed.

Lemma processStripePayment_effect_witness :
  let b := Untyped.mkBody (Some (Untyped.Number 1)) (Some (Untyped.Str "pi_1"))
             (Some (Untyped.Str "paid")) in
  let st := store_with [spot1 active true]
              [sample_booking 1 1 600 660 pending] [] in
  let retrieve := fun _ : string => Return "succeeded" in
  exists r,
    Untyped.processStripePayment retrieve driver20 b st = Some r
    /\ fst r = 200
    /\ map bookings.payment_status (tbl_bookings (snd r)) = [pay_paid]
    /\ map bookings.booking_status (tbl_bookings (snd r)) = [pending].
Proof.
  cbv zeta.
  assert (Hin : In "paid" ["pending"; "paid"; "refunded"; "failed"])
    by (right; left; reflexivity).
  destruct (processStripePayment_effect (fun _ : string => Return "succeeded")
              driver20
              (Untyped.mkBody (Some (Untyped.Number 1))
                 (Some (Untyped.Str "pi_1")) (Some (Untyped.Str "paid")))
              (store_with [spot1 active true]
                 [sample_booking 1 1 600 660 pending] [])
              1 "pi_1" "paid" eq_refl eq_refl eq_refl Hin eq_refl)
    as (r & Hr & _).
  exists r. split; [exact Hr|].
  cbv in Hr. inversion Hr. subst r. repeat split.
Defined.

(** X7.  The booking controller's [updatePaymentStatus] answers 200 exactly
    when the body passes [updatePaymentStatusSchema] (the gateway reference,
    when given as a string, has at most 255 characters), the booking is
    found and the requester is its homeowner or an admin; any other request
    leaves the store untouched.  On 200 the booking is found with the
    requested payment status, with the gateway reference replaced only when
    the body carries one (null included), and with every other column as
    before; the other bookings are unchanged. *)
Theorem updatePaymentStatus_effect (u : user) (id : Z)
    (paymentStatus : PaymentStatus)
    (stripePaymentIntentId : option (option string)) (st : store) :
  let r := BookingController.updatePaymentStatus u id paymentStatus
             stripePaymentIntentId st in
  (fst r = 200 <->
   BookingController.updatePaymentStatusSchema stripePaymentIntentId = true
   /\ exists x, Booking.findById id st = Some x
                /\ (bookings.homeowner_id x = user_id u \/ user_type u = admin))
  /\ (fst r = 400 <->
      BookingController.updatePaymentStatusSchema stripePaymentIntentId = false)
  /\ (fst r <> 200 -> snd r = st)
  /\ (fst r = 200 ->
      forall id' x,
        Booking.findById id' st = Some x ->
        exists x',
          Booking.findById id' (snd r) = Some x'
          /\ (id' = id -> paid_with paymentStatus stripePaymentIntentId x x')
          /\ (id' <> id -> x' = x)).
Proof.
  cbv zeta. unfold BookingController.updatePaymentStatus.
  destruct (BookingController.updatePaymentStatusSchema stripePaymentIntentId)
    eqn:Hschema; cbn [negb].
  2:{ cbn [fst snd]. repeat split; try discriminate; try reflexivity.
      intros [H _]; discriminate. }
  destruct (Booking.findById id st) as [found|] eqn:Hfound.
  2:{ cbn [fst snd]. repeat split; try discriminate.
      intros (_ & x & H & _); discriminate. }
  assert (Hauth : negb (bookings.homeowner_id found =? user_id u)
                  && negb (role_eqb (user_type u) admin) = false
                  <-> (bookings.homeowner_id found = user_id u
                       \/ user_type u = admin)).
  { destruct (Z.eqb_spec (bookings.homeowner_id found) (user_id u));
      destruct (user_type u); cbn; split; auto; try discriminate;
      intros [H|H]; try contradiction; discriminate. }
  destruct (negb _ && _).
  { cbn [fst snd]. repeat split; try discriminate.
    intros (_ & x & Hx & Hor). inversion Hx; subst x.
    apply Hauth in Hor. discriminate. }
  pose proof (updatePaymentStatus_fields id
                (payment_status_to_string paymentStatus)
                stripePaymentIntentId st) as H.
  cbv zeta in H. unfold BookingController.updateFields.
  assert (Hp : enum_of_string payment_status_members
                 (payment_status_to_string paymentStatus)
               = Some paymentStatus) by (destruct paymentStatus; reflexivity).
  rewrite Hp, Hschema in H. destruct H as (f & -> & Hf).
  assert (Hrow : booking_row_exists id st).
  { destruct (findById_in _ _ _ Hfound) as [Hin Hid]. now exists found. }
  apply (update_where_id_count id f st) in Hrow. rewrite Hrow.
  cbn [fst snd]. split; [|split; [|split; [intros Hn; now elim Hn|]]].
  - split; [intros _|reflexivity]. split; [reflexivity|].
    exists found. split; [reflexivity|]. now apply Hauth.
  - split; discriminate.
  - intros _ id' x Hx.
    exact (findById_after_payment_write id paymentStatus _ f st Hf id' x Hx).
Qed.

(** ** The availability ledger *)

Lemma free_slot_disjoint (spot s e : Z) (exclude : option Z) (st : store)
    (r : spot_availability.row) :
  SpotAvailability.isTimeRangeAvailable spot s e exclude st = true ->
  In r (tbl_spot_availability st) ->
  spot_availability.spot_id r = spot ->
  spot_availability.is_booked r = false ->
  match exclude with
  | Some x => spot_availability.availability_id r <> x
  | None => True
  end ->
  overlaps (spot_availability.start_time r) (spot_availability.end_time r) s e
  = false.
Proof.
  unfold SpotAvailability.isTimeRangeAvailable.
  intros Hfree Hin Hspot Hbooked Hx.
  apply Nat.eqb_eq, length_zero_iff_nil in Hfree.
  pose proof (filter_nil_forall _ _ Hfree r Hin) as Hc.
  destruct (overlaps _ _ s e) eqn:Ho; [|reflexivity].
  apply overlaps_ledger_time_conflict in Ho.
  unfold SpotAvailability.conflicts in Hc.
  rewrite Ho, Hbooked in Hc. apply Z.eqb_eq in Hspot. rewrite Hspot in Hc.
  destruct exclude as [x|]; [|discriminate].
  apply Z.eqb_neq in Hx. rewrite Hx in Hc. discriminate.
Qed.

Lemma unbooked_disjoint_exec (o : ledger_op) (st : store) :
  never_books o = true ->
  ledger_consistent st ->
  unbooked_disjoint st ->
  unbooked_disjoint (snd (exec_ledger o st)).
Proof.
  intros Ho [_ Hnd _] Hinv. pose proof Hinv as [Hun Hdis].
  destruct o as [now u spotId s e|u id upd|u id]; cbn [exec_ledger].
  - unfold SpotAvailabilityController.createSpotAvailability.
    destruct (negb _); [exact Hinv|].
    destruct (ParkingSpot.findById spotId st) as [spot|]; [|exact Hinv].
    destruct (negb _); [exact Hinv|].
    destruct (SpotAvailability.isTimeRangeAvailable spotId s e None st) eqn:Hfree;
      [|exact Hinv].
    cbn. constructor; cbn.
    + intros r Hr. apply in_app_or in Hr as [Hr|[<-|[]]]; [now apply Hun|reflexivity].
    + intros r1 r2 H1 H2 Hid Hspot.
      apply in_app_or in H1 as [H1|[<-|[]]];
        apply in_app_or in H2 as [H2|[<-|[]]]; cbn in *.
      * now apply Hdis.
      * apply (free_slot_disjoint spotId s e None st r1); auto.
      * rewrite overlaps_sym.
        apply (free_slot_disjoint spotId s e None st r2); auto.
      * now elim Hid.
  - unfold SpotAvailabilityController.updateSpotAvailability.
    destruct (negb _); [exact Hinv|].
    destruct (SpotAvailability.findById id st) as [found|] eqn:Hfind;
      [|exact Hinv].
    destruct (ParkingSpot.findById _ st) as [spot|]; [|exact Hinv].
    destruct (negb _); [exact Hinv|].
    apply slot_findById_in in Hfind as [Hin Hid].
    set (ns := match SpotAvailability.startTime upd with
               | Some t => t
               | None => spot_availability.start_time found
               end).
    set (ne := match SpotAvailability.endTime upd with
               | Some t => t
               | None => spot_availability.end_time found
               end).
    set (given := match SpotAvailability.startTime upd,
                        SpotAvailability.endTime upd with
                  | None, None => false
                  | _, _ => true
                  end).
    destruct (given && (ns >=? ne)); [exact Hinv|].
    destruct (given && negb _) eqn:Hcheck; [exact Hinv|].
    assert (Hothers : forall r, In r (tbl_spot_availability st) ->
              spot_availability.availability_id r <> id ->
              spot_availability.spot_id r = spot_availability.spot_id found ->
              overlaps (spot_availability.start_time r)
                       (spot_availability.end_time r) ns ne = false).
    { intros r Hr Hne Hspot. destruct given eqn:Hgiven.
      - cbn [andb] in Hcheck. apply negb_false_iff in Hcheck.
        apply (free_slot_disjoint (spot_availability.spot_id found) ns ne
                 (Some id) st r); auto.
      - assert (ns = spot_availability.start_time found
                /\ ne = spot_availability.end_time found) as [-> ->].
        { subst ns ne given.
          destruct (SpotAvailability.startTime upd),
                   (SpotAvailability.endTime upd); try discriminate; auto. }
        apply Hdis; auto. congruence. }
    assert (Hwrite : forall r,
              spot_availability.availability_id (SpotAvailability.apply_update upd r)
              = spot_availability.availability_id r
              /\ spot_availability.spot_id (SpotAvailability.apply_update upd r)
                 = spot_availability.spot_id r) by (intros r; split; reflexivity).
    assert (Hfound : spot_availability.start_time
                       (SpotAvailability.apply_update upd found) = ns
                     /\ spot_availability.end_time
                          (SpotAvailability.apply_update upd found) = ne)
      by (split; reflexivity).
    assert (Hmap : unbooked_disjoint
              (with_spot_availability st
                 (map (fun r => if spot_availability.availability_id r =? id
                                then SpotAvailability.apply_update upd r else r)
                      (tbl_spot_availability st))
                 (next_availability_id st))).
    { constructor; cbn [tbl_spot_availability with_spot_availability].
      - intros r' Hr'. apply in_map_iff in Hr' as (r & <- & Hr).
        destruct (_ =? id); [|now apply Hun].
        cbn. cbn in Ho. specialize (Hun r Hr).
        destruct (SpotAvailability.isBooked upd) as [[|]|];
          [discriminate|reflexivity|exact Hun].
      - intros r1' r2' H1 H2.
        apply in_map_iff in H1 as (r1 & <- & H1).
        apply in_map_iff in H2 as (r2 & <- & H2).
        destruct (Z.eqb_spec (spot_availability.availability_id r1) id) as [E1|N1];
          destruct (Z.eqb_spec (spot_availability.availability_id r2) id) as [E2|N2].
        + intros Hne. destruct (Hwrite r1) as [Ha _], (Hwrite r2) as [Hb _].
          congruence.
        + assert (r1 = found) as ->
            by (apply (NoDup_map_injective_on _ _ Hnd); auto; congruence).
          destruct Hfound as [-> ->]. intros _ Hspot. cbn in Hspot.
          rewrite overlaps_sym. apply Hothers; auto.
        + assert (r2 = found) as ->
            by (apply (NoDup_map_injective_on _ _ Hnd); auto; congruence).
          destruct Hfound as [-> ->]. intros _ Hspot. cbn in Hspot.
          apply Hothers; auto.
        + now apply Hdis. }
    unfold SpotAvailability.updateAvailability.
    destruct (SpotAvailability.startTime upd), (SpotAvailability.endTime upd),
             (SpotAvailability.isBooked upd); cbn [snd]; try exact Hmap; exact Hinv.
  - unfold SpotAvailabilityController.deleteSpotAvailability.
    destruct (id <=? 0); [exact Hinv|].
    destruct (SpotAvailability.findById id st) as [found|]; [|exact Hinv].
    destruct (ParkingSpot.findById _ st) as [spot|]; [|exact Hinv].
    destruct (negb _); [exact Hinv|].
    destruct (spot_availability.is_booked found); [exact Hinv|].
    cbn. constructor; cbn.
    + intros r Hr. apply filter_In in Hr as [Hr _]. now apply Hun.
    + intros r1 r2 H1 H2.
      apply filter_In in H1 as [H1 _]. apply filter_In in H2 as [H2 _].
      now apply Hdis.
Qed.

(** X8.  For ledger requests served one after the other, each finishing
    before the next one starts: starting from an empty ledger, as long as no
    request sets [is_booked] to TRUE, after any such run of create, update
    and delete requests every slot is unbooked and any two slots of the same
    spot are disjoint, so no two overlapping unbooked slots exist.  This is
    a property of such serial runs only: two declarations of overlapping
    ranges whose round trips alternate leave two overlapping unbooked
    slots. *)
Theorem unbooked_ledger_stays_disjoint (ops : list ledger_op) (st : store)
    (Hempty : tbl_spot_availability st = [])
    (Hops : forallb never_books ops = true) :
  unbooked_disjoint (ledger_run ops st)
  /\ ~ overlapping_unbooked_slots (ledger_run ops st)
  /\ overlapping_unbooked_slots
       (snd (InFlight.run [0; 1; 0; 1; 0; 1]%nat
               [InFlight.createSpotAvailability 0 homeowner10 1 540 720;
                InFlight.createSpotAvailability 0 homeowner10 1 660 780]
               (store_with [spot1 active true] [] []))).
Proof.
  assert (Hrace : overlapping_unbooked_slots
                    (snd (InFlight.run [0; 1; 0; 1; 0; 1]%nat
                            [InFlight.createSpotAvailability 0 homeowner10 1 540 720;
                             InFlight.createSpotAvailability 0 homeowner10 1 660 780]
                            (store_with [spot1 active true] [] [])))).
  { exists (spot_availability.mk 1 1 540 720 false),
           (spot_availability.mk 2 1 660 780 false).
    cbn. repeat split; auto. discriminate. }
  assert (Hinv : ledger_consistent (ledger_run ops st)
                 /\ unbooked_disjoint (ledger_run ops st)).
  { assert (H0 : ledger_consistent st /\ unbooked_disjoint st).
    { split; [apply ledger_reachable_consistent; now constructor|].
      constructor; rewrite Hempty; intros;
        match goal with H : In _ [] |- _ => destruct H end. }
    clear Hempty. unfold ledger_run. revert st H0.
    induction ops as [|o ops IH]; intros st [Hc Hd]; [now split|].
    cbn [forallb] in Hops. apply andb_true_iff in Hops as [Ho Hops].
    cbn [fold_left]. apply (IH Hops). split.
    - now apply ledger_consistent_exec.
    - now apply unbooked_disjoint_exec. }
  destruct Hinv as [_ Hd]. split; [exact Hd|]. split; [|exact Hrace].
  intros (r1 & r2 & H1 & H2 & Hid & Hspot & _ & _ & Ho).
  rewrite (slots_disjoint _ Hd r1 r2 H1 H2 Hid Hspot) in Ho. discriminate.
Qed.

Lemma unbooked_ledger_stays_disjoint_witness :
  unbooked_disjoint
    (ledger_run [DeclareAvailability 0 homeowner10 1 540 720;
                 DeclareAvailability 0 homeowner10 1 660 780;
                 UpdateAvailability homeowner10 1
                   (SpotAvailability.mkUpdate (Some 600) None None)]
       (store_with [spot1 active true] [] [])).
Proof.
  exact (proj1 (unbooked_ledger_stays_disjoint
                  [DeclareAvailability 0 homeowner10 1 540 720;
                   DeclareAvailability 0 homeowner10 1 660 780;
                   UpdateAvailability homeowner10 1
                     (SpotAvailability.mkUpdate (Some 600) None None)]
                  (store_with [spot1 active true] [] [])
                  eq_refl eq_refl)).
Defined.

Lemma declare_on_free_range (now : Z) (u : user) (spotId s e : Z)
    (spot : parking_spots.row) (st : store) :
  s < e -> now < e ->
  ParkingSpot.findById spotId st = Some spot ->
  SpotAvailabilityController.owns u spot = true ->
  SpotAvailability.isTimeRangeAvailable spotId s e None st = true ->
  SpotAvailabilityController.createSpotAvailability now u spotId s e st
  = (201,
     with_spot_availability st
       (tbl_spot_availability st
        ++ [spot_availability.mk (next_availability_id st) spotId s e false])
       (next_availability_id st + 1)).
Proof.
  intros Hse Hnow Hspot Howns Hfree.
  unfold SpotAvailabilityController.createSpotAvailability,
    SpotAvailabilityController.createAvailabilitySchema.
  rewrite Hspot, Howns, Hfree.
  replace (s >=? e) with false by (symmetry; rewrite Z.geb_leb; apply Z.leb_gt; lia).
  replace (e <=? now) with false by (symmetry; apply Z.leb_gt; lia).
  reflexivity.
Qed.

Lemma set_is_booked_flag (u : user) (id : Z) (v : bool)
    (slot : spot_availability.row) (spot : parking_spots.row) (st : store) :
  SpotAvailability.findById id st = Some slot ->
  ParkingSpot.findById (spot_availability.spot_id slot) st = Some spot ->
  SpotAvailabilityController.owns u spot = true ->
  SpotAvailabilityController.updateSpotAvailability u id
    (SpotAvailability.mkUpdate None None (Some v)) st
  = (200,
     with_spot_availability st
       (map (fun r => if spot_availability.availability_id r =? id
                      then SpotAvailabilityModel.set_is_booked v r else r)
            (tbl_spot_availability st))
       (next_availability_id st)).
Proof.
  intros Hslot Hspot Howns.
  unfold SpotAvailabilityController.updateSpotAvailability.
  cbn [SpotAvailabilityController.updateAvailabilitySchema
       SpotAvailability.startTime SpotAvailability.endTime
       SpotAvailability.isBooked negb].
  rewrite Hslot, Hspot, Howns.
  cbn [negb andb SpotAvailability.updateAvailability
       SpotAvailability.startTime SpotAvailability.endTime
       SpotAvailability.isBooked].
  assert (Hcount : Nat.ltb 0 (List.length
            (filter (fun r => spot_availability.availability_id r =? id)
                    (tbl_spot_availability st))) = true).
  { apply slot_findById_in in Hslot as [Hin Hid].
    assert (In slot (filter (fun r => spot_availability.availability_id r =? id)
                            (tbl_spot_availability st))) as Hf
        by (apply filter_In; split; [exact Hin|now apply Z.eqb_eq]).
    destruct (filter _ (tbl_spot_availability st)); [contradiction|reflexivity]. }
  rewrite Hcount. reflexivity.
Qed.

(** X9.  The [is_booked] flag, which [updateSpotAvailability] takes from the
    request body without any overlap check, lets overlapping availability
    in: on an empty ledger, whoever manages a spot can declare a range, flag
    it as booked, declare any overlapping range (booked slots are ignored by
    the overlap check) and clear the flag again; all four requests succeed
    and the ledger then holds two overlapping unbooked slots of the spot. *)
Theorem is_booked_flag_lets_overlap_in (now : Z) (u : user)
    (spotId s1 e1 s2 e2 : Z) (spot : parking_spots.row) (st : store)
    (Hempty : tbl_spot_availability st = [])
    (Hspot : ParkingSpot.findById spotId st = Some spot)
    (Howns : SpotAvailabilityController.owns u spot = true)
    (Hfirst : s1 < e1 /\ now < e1)
    (Hsecond : s2 < e2 /\ now < e2)
    (Hoverlap : overlaps s1 e1 s2 e2 = true) :
  let id1 := next_availability_id st in
  let ops := [DeclareAvailability now u spotId s1 e1;
              UpdateAvailability u id1
                (SpotAvailability.mkUpdate None None (Some true));
              DeclareAvailability now u spotId s2 e2;
              UpdateAvailability u id1
                (SpotAvailability.mkUpdate None None (Some false))] in
  overlapping_unbooked_slots (ledger_run ops st)
  /\ tbl_spot_availability (ledger_run ops st)
     = [spot_availability.mk id1 spotId s1 e1 false;
        spot_availability.mk (id1 + 1) spotId s2 e2 false].
Proof.
  cbv zeta. destruct Hfirst as [Hse1 Hn1], Hsecond as [Hse2 Hn2].
  assert (Hrun : tbl_spot_availability
                   (ledger_run
                      [DeclareAvailability now u spotId s1 e1;
                       UpdateAvailability u (next_availability_id st)
                         (SpotAvailability.mkUpdate None None (Some true));
                       DeclareAvailability now u spotId s2 e2;
                       UpdateAvailability u (next_availability_id st)
                         (SpotAvailability.mkUpdate None None (Some false))] st)
                 = [spot_availability.mk (next_availability_id st) spotId s1 e1 false;
                    spot_availability.mk (next_availability_id st + 1) spotId s2 e2
                      false]).
  { set (n := next_availability_id st).
    set (r1 := spot_availability.mk n spotId s1 e1 false).
    set (r1b := spot_availability.mk n spotId s1 e1 true).
    set (r2 := spot_availability.mk (n + 1) spotId s2 e2 false).
    assert (E1 : snd (exec_ledger (DeclareAvailability now u spotId s1 e1) st)
                 = with_spot_availability st [r1] (n + 1)).
    { cbn [exec_ledger].
      rewrite (declare_on_free_range now u spotId s1 e1 spot st Hse1 Hn1 Hspot Howns)
        by (unfold SpotAvailability.isTimeRangeAvailable; now rewrite Hempty).
      cbn [snd]. now rewrite Hempty. }
    assert (E2 : snd (exec_ledger
                        (UpdateAvailability u n
                           (SpotAvailability.mkUpdate None None (Some true)))
                        (with_spot_availability st [r1] (n + 1)))
                 = with_spot_availability st [r1b] (n + 1)).
    { cbn [exec_ledger].
      rewrite (set_is_booked_flag u n true r1 spot);
        [|unfold SpotAvailability.findById; cbn; now rewrite Z.eqb_refl
         |exact Hspot|exact Howns].
      cbn. now rewrite Z.eqb_refl. }
    assert (E3 : snd (exec_ledger (DeclareAvailability now u spotId s2 e2)
                        (with_spot_availability st [r1b] (n + 1)))
                 = with_spot_availability st [r1b; r2] (n + 1 + 1)).
    { cbn [exec_ledger].
      rewrite (declare_on_free_range now u spotId s2 e2 spot _ Hse2 Hn2);
        [reflexivity|exact Hspot|exact Howns|].
      unfold SpotAvailability.isTimeRangeAvailable, SpotAvailability.conflicts.
      cbn. now rewrite !andb_false_r. }
    assert (E4 : snd (exec_ledger
                        (UpdateAvailability u n
                           (SpotAvailability.mkUpdate None None (Some false)))
                        (with_spot_availability st [r1b; r2] (n + 1 + 1)))
                 = with_spot_availability st [r1; r2] (n + 1 + 1)).
    { cbn [exec_ledger].
      rewrite (set_is_booked_flag u n false r1b spot);
        [|unfold SpotAvailability.findById; cbn; now rewrite Z.eqb_refl
         |exact Hspot|exact Howns].
      cbn. rewrite Z.eqb_refl.
      replace (n + 1 =? n) with false by (symmetry; apply Z.eqb_neq; lia).
      reflexivity. }
    unfold ledger_run. cbn [fold_left]. now rewrite E1, E2, E3, E4. }
  split; [|exact Hrun].
  unfold overlapping_unbooked_slots. rewrite Hrun.
  exists (spot_availability.mk (next_availability_id st) spotId s1 e1 false),
         (spot_availability.mk (next_availability_id st + 1) spotId s2 e2 false).
  cbn. repeat split; auto. lia.
Qed.

Lemma is_booked_flag_lets_overlap_in_witness :
  overlapping_unbooked_slots
    (ledger_run
       [DeclareAvailability 0 homeowner10 1 540 720;
        UpdateAvailability homeowner10 1
          (SpotAvailability.mkUpdate None None (Some true));
        DeclareAvailability 0 homeowner10 1 660 780;
        UpdateAvailability homeowner10 1
          (SpotAvailability.mkUpdate None None (Some false))]
       (store_with [spot1 active true] [] [])).
Proof.
  assert (H1 : 540 < 720 /\ 0 < 720) by lia.
  assert (H2 : 660 < 780 /\ 0 < 780) by lia.
  exact (proj1 (is_booked_flag_lets_overlap_in 0 homeowner10 1 540 720 660 780
                  (spot1 active true) (store_with [spot1 active true] [] [])
                  eq_refl eq_refl eq_refl H1 H2 eq_refl)).
Defined.

(** X10.  [deleteSpotAvailability] on a ledger with distinct slot ids.  A
    request that is not answered 200 changes nothing.  One answered 200
    found an unbooked slot of a spot the requester manages; afterwards no
    slot has that id and the ledger holds exactly the other slots.  A booked
    slot is never removed, whoever asks. *)
Theorem deleteSpotAvailability_effect (u : user) (id : Z) (st : store)
    (Huniq : NoDup (map spot_availability.availability_id
                        (tbl_spot_availability st))) :
  let r := SpotAvailabilityController.deleteSpotAvailability u id st in
  (fst r <> 200 -> snd r = st)
  /\ (fst r = 200 ->
      exists slot spot,
        0 < id
        /\ SpotAvailability.findById id st = Some slot
        /\ spot_availability.is_booked slot = false
        /\ ParkingSpot.findById (spot_availability.spot_id slot) st = Some spot
        /\ SpotAvailabilityController.owns u spot = true
        /\ SpotAvailability.findById id (snd r) = None
        /\ forall x, In x (tbl_spot_availability (snd r))
                     <-> In x (tbl_spot_availability st) /\ x <> slot)
  /\ (forall x, In x (tbl_spot_availability st) ->
                spot_availability.is_booked x = true ->
                In x (tbl_spot_availability (snd r))).
Proof.
  cbv zeta. unfold SpotAvailabilityController.deleteSpotAvailability.
  destruct (Z.leb_spec id 0) as [Hid0|Hid0]; [refused|].
  destruct (SpotAvailability.findById id st) as [slot|] eqn:Hslot; [|refused].
  destruct (ParkingSpot.findById _ st) as [spot|] eqn:Hspot; [|refused].
  destruct (SpotAvailabilityController.owns u spot) eqn:Howns; cbn [negb];
    [|refused].
  destruct (spot_availability.is_booked slot) eqn:Hbooked; [refused|].
  pose proof (slot_findById_in _ _ _ Hslot) as [Hin Hid].
  unfold SpotAvailability.deleteAvailability.
  assert (Hcount : Nat.ltb 0 (List.length
            (filter (fun r => spot_availability.availability_id r =? id)
                    (tbl_spot_availability st))) = true).
  { assert (In slot (filter (fun r => spot_availability.availability_id r =? id)
                            (tbl_spot_availability st))) as Hf
        by (apply filter_In; split; [exact Hin|now apply Z.eqb_eq]).
    destruct (filter _ (tbl_spot_availability st)); [contradiction|reflexivity]. }
  rewrite Hcount. cbn [fst snd tbl_spot_availability with_spot_availability].
  assert (Hkept : forall x,
             In x (filter (fun r => negb (spot_availability.availability_id r =? id))
                          (tbl_spot_availability st))
             <-> In x (tbl_spot_availability st) /\ x <> slot).
  { intros x. rewrite filter_In, negb_true_iff, Z.eqb_neq. split.
    - intros [Hx Hne]. split; [exact Hx|]. intros ->. contradiction.
    - intros [Hx Hne]. split; [exact Hx|]. intros Heq. apply Hne.
      apply (NoDup_map_injective_on _ _ Huniq); auto. congruence. }
  split; [intros Hn; now elim Hn|]. split.
  - intros _. exists slot, spot.
    split; [exact Hid0|]. split; [reflexivity|]. split; [exact Hbooked|].
    split; [exact Hspot|]. split; [exact Howns|]. split; [|exact Hkept].
    unfold SpotAvailability.findById.
    cbn [tbl_spot_availability with_spot_availability].
    apply find_none_iff. intros x Hx. apply filter_In in Hx as [_ Hx].
    now apply negb_true_iff in Hx.
  - intros x Hx Hb. apply Hkept. split; [exact Hx|]. intros ->. congruence.
Qed.

Lemma deleteSpotAvailability_effect_witness :
  let booked := spot_availability.mk 1 1 540 1020 true in
  let st := store_with [spot1 active true] [] [booked] in
  In booked
     (tbl_spot_availability
        (snd (SpotAvailabilityController.deleteSpotAvailability homeowner10 1 st))).
Proof.
  intros booked st.
  assert (Huniq : NoDup (map spot_availability.availability_id
                             (tbl_spot_availability st)))
    by (repeat constructor; intros []).
  exact (proj2 (proj2 (deleteSpotAvailability_effect homeowner10 1 st Huniq))
           booked (or_introl eq_refl) eq_refl).
Defined.

(** X11.  [markAsBooked] is a compare-and-set on [is_booked]: it returns true
    exactly when some slot with the id is not yet booked; afterwards every
    slot with the id is booked, the slots with another id are the same rows,
    and the spot and the time range of every row are as before; a second
    call returns false and changes nothing. *)
Theorem markAsBooked_once (id : Z) (st : store) :
  let r := SpotAvailabilityModel.markAsBooked id st in
  (fst r = true <->
   exists x, In x (tbl_spot_availability st)
             /\ spot_availability.availability_id x = id
             /\ spot_availability.is_booked x = false)
  /\ (forall x, In x (tbl_spot_availability (snd r)) ->
                spot_availability.availability_id x = id ->
                spot_availability.is_booked x = true)
  /\ (forall x, spot_availability.availability_id x <> id ->
                (In x (tbl_spot_availability (snd r))
                 <-> In x (tbl_spot_availability st)))
  /\ map (SpotAvailabilityModel.set_is_booked false) (tbl_spot_availability (snd r))
     = map (SpotAvailabilityModel.set_is_booked false) (tbl_spot_availability st)
  /\ SpotAvailabilityModel.markAsBooked id (snd r) = (false, snd r).
Proof.
  cbv zeta.
  pose (hit := fun r : spot_availability.row =>
                 (spot_availability.availability_id r =? id)
                 && negb (spot_availability.is_booked r)).
  pose (g := fun r : spot_availability.row =>
               if hit r then SpotAvailabilityModel.set_is_booked true r else r).
  assert (Hdef : forall s,
             SpotAvailabilityModel.markAsBooked id s
             = (Nat.ltb 0 (List.length (filter hit (tbl_spot_availability s))),
                with_spot_availability s (map g (tbl_spot_availability s))
                  (next_availability_id s))) by reflexivity.
  rewrite (Hdef st).
  cbn [fst snd tbl_spot_availability with_spot_availability].
  assert (Hhit : forall x, hit x = true
                           <-> spot_availability.availability_id x = id
                               /\ spot_availability.is_booked x = false).
  { intros x. unfold hit. now rewrite andb_true_iff, negb_true_iff, Z.eqb_eq. }
  assert (Hafter : forall x, hit (g x) = false).
  { intros x. unfold g. destruct (hit x) eqn:Hx; [|exact Hx].
    unfold hit. cbn. apply andb_false_r. }
  split; [|split; [|split; [|split]]].
  - split.
    + intros Hn.
      destruct (filter hit (tbl_spot_availability st)) as [|x l] eqn:Hf;
        [discriminate|].
      assert (In x (filter hit (tbl_spot_availability st))) as Hin
          by (rewrite Hf; now left).
      apply filter_In in Hin as [Hin Hx]. exists x. split; [exact Hin|].
      now apply Hhit.
    + intros (x & Hin & Hx).
      assert (In x (filter hit (tbl_spot_availability st))) as Hf
          by (apply filter_In; split; [exact Hin|now apply Hhit]).
      destruct (filter hit (tbl_spot_availability st)); [contradiction|reflexivity].
  - intros x' Hx' Hid. apply in_map_iff in Hx' as (x & <- & Hx).
    unfold g in *. destruct (hit x) eqn:Hh; [reflexivity|].
    unfold hit in Hh. apply Z.eqb_eq in Hid. rewrite Hid in Hh.
    now apply negb_false_iff in Hh.
  - intros x Hne. split.
    + intros Hx. apply in_map_iff in Hx as (y & Hy & Hin). unfold g in Hy.
      destruct (hit y) eqn:Hh; [|now subst].
      apply Hhit in Hh as [Hid _]. subst x. now elim Hne.
    + intros Hx. apply in_map_iff. exists x. split; [|exact Hx].
      unfold g. destruct (hit x) eqn:Hh; [|reflexivity].
      apply Hhit in Hh as [Hid _]. now elim Hne.
  - rewrite map_map. apply map_ext. intros x. unfold g.
    destruct (hit x); reflexivity.
  - rewrite Hdef.
    cbn [tbl_spot_availability with_spot_availability next_availability_id].
    assert (Hnone : filter hit (map g (tbl_spot_availability st)) = []).
    { apply filter_nil_iff. intros x Hx.
      apply in_map_iff in Hx as (y & <- & _). apply Hafter. }
    rewrite Hnone. cbn [List.length Nat.ltb Nat.leb]. f_equal.
    unfold with_spot_availability. cbn. f_equal.
    transitivity (map (fun x : spot_availability.row => x)
                      (map g (tbl_spot_availability st))); [|apply map_id].
    apply map_ext_in. intros x Hx.
    apply in_map_iff in Hx as (y & <- & _).
    change (g (g y)) with (if hit (g y)
                           then SpotAvailabilityModel.set_is_booked true (g y)
                           else g y).
    now rewrite Hafter.
Qed.

(** ** Listing the slots of a spot *)

Lemma insert_by_permutation {A : Type} (le : A -> A -> bool) (x : A) (l : list A) :
  Permutation (insert_by le x l) (x :: l).
Proof.
  induction l as [|y l IH]; cbn [insert_by]; [reflexivity|].
  destruct (le x y); [reflexivity|].
  rewrite IH. apply perm_swap.
Qed.

Lemma order_by_permutation {A : Type} (le : A -> A -> bool) (l : list A) :
  Permutation (order_by le l) l.
Proof.
  induction l as [|x l IH]; cbn [order_by]; [reflexivity|].
  rewrite insert_by_permutation. now constructor.
Qed.

Lemma insert_by_sorted {A : Type} (le : A -> A -> bool) (x : A) (l : list A) :
  (forall a b, le a b = false -> le b a = true) ->
  Sorted (fun a b => le a b = true) l ->
  Sorted (fun a b => le a b = true) (insert_by le x l).
Proof.
  intros Htotal. induction l as [|y l IH]; cbn [insert_by]; intros Hs.
  - repeat constructor.
  - destruct (le x y) eqn:Hxy.
    + constructor; [exact Hs|]. now constructor.
    + inversion Hs as [|? ? Hs' Hhd]; subst. constructor; [now apply IH|].
      destruct l as [|z l]; cbn [insert_by].
      * constructor. now apply Htotal.
      * destruct (le x z); constructor.
        -- now apply Htotal.
        -- now inversion Hhd.
Qed.

Lemma order_by_sorted {A : Type} (le : A -> A -> bool) (l : list A) :
  (forall a b, le a b = false -> le b a = true) ->
  Sorted (fun a b => le a b = true) (order_by le l).
Proof.
  intros Htotal. induction l as [|x l IH]; cbn [order_by]; [constructor|].
  now apply insert_by_sorted.
Qed.

(** X12.  [SpotAvailability.findBySpotId] returns, in ascending order of
    [start_time], each slot of the spot that lies inside the bounds given:
    a slot is listed iff it belongs to the spot, starts at or after [start]
    (when given) and ends at or before [end] (when given), so a slot that
    only intersects the window is left out; no row is lost or repeated.
    [getSpotAvailability] answers 400 with no rows for a spot id that is not
    positive and 200 with that list otherwise. *)
Theorem findBySpotId_sorted_within_bounds (spotId : Z) (start end_ : option Z)
    (st : store) :
  let l := SpotAvailabilityModel.findBySpotId spotId start end_ st in
  Sorted (fun a b => spot_availability.start_time a
                     <= spot_availability.start_time b) l
  /\ (forall x, In x l <->
        In x (tbl_spot_availability st)
        /\ spot_availability.spot_id x = spotId
        /\ (forall s, start = Some s -> s <= spot_availability.start_time x)
        /\ (forall e, end_ = Some e -> spot_availability.end_time x <= e))
  /\ Permutation l
       (filter (SpotAvailabilityModel.in_bounds spotId start end_)
               (tbl_spot_availability st))
  /\ getSpotAvailability spotId start end_ st
     = if spotId <=? 0 then (400, []) else (200, l).
Proof.
  cbv zeta. unfold SpotAvailabilityModel.findBySpotId.
  split; [|split; [|split; [apply order_by_permutation|reflexivity]]].
  - eapply Sorted_ind with
      (P := fun l => Sorted (fun a b => spot_availability.start_time a
                                        <= spot_availability.start_time b) l);
      [constructor| |apply order_by_sorted].
    + intros a l _ IH Hhd. constructor; [exact IH|].
      destruct Hhd as [|b l Hab]; constructor. now apply Z.leb_le.
    + intros a b Hab. cbv beta in *. apply Z.leb_le. apply Z.leb_gt in Hab. lia.
  - intros x. split.
    + intros Hx.
      apply (Permutation_in _ (order_by_permutation _ _)) in Hx.
      apply filter_In in Hx as [Hin Hb]. split; [exact Hin|].
      unfold SpotAvailabilityModel.in_bounds in Hb.
      apply andb_true_iff in Hb as [Hb He]. apply andb_true_iff in Hb as [Hs Hb].
      apply Z.eqb_eq in Hs. split; [exact Hs|]. split.
      * intros s ->. rewrite Z.geb_leb in Hb. now apply Z.leb_le.
      * intros e ->. now apply Z.leb_le.
    + intros (Hin & Hs & Hb & He).
      apply (Permutation_in _ (Permutation_sym (order_by_permutation _ _))).
      apply filter_In. split; [exact Hin|].
      unfold SpotAvailabilityModel.in_bounds.
      apply Z.eqb_eq in Hs. rewrite Hs. cbn [andb].
      apply andb_true_iff. split.
      * destruct start as [s|]; [|reflexivity].
        rewrite Z.geb_leb. apply Z.leb_le. now apply Hb.
      * destruct end_ as [e|]; [|reflexivity]. apply Z.leb_le. now apply He.
Qed.

(** ** Toggling the availability of a spot *)

Lemma spot_eta (st : store) :
  with_parking_spots st (tbl_parking_spots st) = st.
Proof. destruct st; reflexivity. Qed.

Lemma spot_findById_in (id : Z) (st : store) (spot : parking_spots.row) :
  ParkingSpot.findById id st = Some spot ->
  In spot (tbl_parking_spots st) /\ parking_spots.spot_id spot = id.
Proof.
  unfold ParkingSpot.findById. intros H. apply find_some in H as [Hin Hp].
  apply Z.eqb_eq in Hp. auto.
Qed.

Lemma spot_findById_after_write (id id' : Z) (a : bool) (st : store) :
  ParkingSpot.findById id'
    (snd (ParkingSpotModel.updateAvailability id a st))
  = option_map (fun ps => if parking_spots.spot_id ps =? id
                          then ParkingSpotModel.set_is_available a ps else ps)
      (ParkingSpot.findById id' st).
Proof.
  unfold ParkingSpot.findById, ParkingSpotModel.updateAvailability.
  cbn [snd tbl_parking_spots with_parking_spots].
  induction (tbl_parking_spots st) as [|ps l IH]; [reflexivity|].
  cbn [map find].
  replace (parking_spots.spot_id
             (if parking_spots.spot_id ps =? id
              then ParkingSpotModel.set_is_available a ps else ps))
    with (parking_spots.spot_id ps)
    by (destruct (parking_spots.spot_id ps =? id); reflexivity).
  destruct (parking_spots.spot_id ps =? id'); [reflexivity|exact IH].
Qed.

Lemma toggle_cases (u : user) (id : Z) (st : store) :
  let r := ParkingSpotController.toggleParkingSpotAvailability u id st in
  (fst r <> 200 /\ snd r = st)
  \/ (exists spot,
        fst r = 200
        /\ ParkingSpot.findById id st = Some spot
        /\ (user_id u = parking_spots.homeowner_id spot \/ user_type u = admin)
        /\ snd r = snd (ParkingSpotModel.updateAvailability id
                          (negb (parking_spots.is_available spot)) st)).
Proof.
  cbv zeta. unfold ParkingSpotController.toggleParkingSpotAvailability.
  destruct (ParkingSpot.findById id st) as [spot|] eqn:Hspot;
    [|left; split; [discriminate|reflexivity]].
  destruct (negb (user_id u =? parking_spots.homeowner_id spot)
            && negb (role_eqb (user_type u) admin)) eqn:Hauth;
    [left; split; [discriminate|reflexivity]|].
  right. exists spot.
  assert (Hcount : fst (ParkingSpotModel.updateAvailability id
                          (negb (parking_spots.is_available spot)) st) = true).
  { unfold ParkingSpotModel.updateAvailability. cbn [fst].
    apply spot_findById_in in Hspot as [Hin Hid].
    assert (In spot (filter (fun ps => parking_spots.spot_id ps =? id)
                            (tbl_parking_spots st))) as Hf
        by (apply filter_In; split; [exact Hin|now apply Z.eqb_eq]).
    destruct (filter _ (tbl_parking_spots st)); [contradiction|reflexivity]. }
  destruct (ParkingSpotModel.updateAvailability id _ st) as [updated st'].
  cbn [fst snd] in *. subst updated. repeat split.
  apply andb_false_iff in Hauth as [H|H]; apply negb_false_iff in H.
  - left. now apply Z.eqb_eq.
  - right. destruct (user_type u); try discriminate. reflexivity.
Qed.

(** X13.  The route PATCH /:id/toggle-availability (protect, then
    authorizeHomeowner, then the controller).  A request that is not answered
    200 changes nothing.  A 200 means that the token names a user of the
    store whose role is homeowner and who owns the spot: the controller's
    exemption for admins cannot be reached through the route, an admin is
    answered 403.  On 200 the spot is found with [is_available] negated and
    its other columns unchanged, the other spots are found as before, and
    the public GET /:id of the spot answers 200 afterwards exactly when the
    spot is active and was unavailable before. *)
Theorem toggle_route_effect (decoded : option Z) (id : Z) (st : store) :
  let r := ParkingSpotRoutes.patch_toggle_availability decoded id st in
  (fst r <> 200 -> snd r = st)
  /\ (forall uid urow, decoded = Some uid -> User.findById uid st = Some urow ->
        user_type urow = admin -> fst r = 403)
  /\ (fst r = 200 ->
      exists uid urow spot,
        decoded = Some uid
        /\ User.findById uid st = Some urow
        /\ user_type urow = homeowner
        /\ ParkingSpot.findById id st = Some spot
        /\ parking_spots.homeowner_id spot = user_id urow
        /\ ParkingSpot.findById id (snd r)
           = Some (ParkingSpotModel.set_is_available
                     (negb (parking_spots.is_available spot)) spot)
        /\ (forall id' other, id' <> id ->
              ParkingSpot.findById id' st = Some other ->
              ParkingSpot.findById id' (snd r) = Some other)
        /\ (fst (ParkingSpotRoutes.get_by_id id (snd r)) = 200
            <-> parking_spots.status spot = active
                /\ parking_spots.is_available spot = false)).
Proof.
  cbv zeta. unfold ParkingSpotRoutes.patch_toggle_availability, Auth.protect,
    Auth.authorizeHomeowner.
  destruct decoded as [uid|]; [|refused].
  destruct (User.findById uid st) as [urow|] eqn:Hu; [|refused].
  cbn [user_type user_id].
  destruct (user_type urow) eqn:Hrole; cbn [role_eqb];
    [refused| |refused].
  destruct (toggle_cases (mkUser (user_id urow) homeowner) id st)
    as [[Hcode Hst]|(spot & Hcode & Hspot & Hown & Hst)].
  { split; [intros _; exact Hst|]. split; [intros ? ? H1 H2; congruence|].
    intros H. contradiction. }
  split; [intros H; contradiction|]. split; [intros ? ? H1 H2; congruence|].
  intros _. exists uid, urow, spot.
  cbn [user_id user_type] in Hown. destruct Hown as [Hown|Hown]; [|discriminate].
  destruct (spot_findById_in _ _ _ Hspot) as [_ Hid].
  assert (Hafter : ParkingSpot.findById id
                     (snd (ParkingSpotController.toggleParkingSpotAvailability
                             (mkUser (user_id urow) homeowner) id st))
                   = Some (ParkingSpotModel.set_is_available
                             (negb (parking_spots.is_available spot)) spot)).
  { rewrite Hst, spot_findById_after_write, Hspot. cbn [option_map].
    apply Z.eqb_eq in Hid. now rewrite Hid. }
  repeat split; auto.
  - intros id' other Hne Hother.
    rewrite Hst, spot_findById_after_write, Hother. cbn [option_map].
    destruct (spot_findById_in _ _ _ Hother) as [_ Hid'].
    destruct (Z.eqb_spec (parking_spots.spot_id other) id); [congruence|reflexivity].
  - unfold ParkingSpotRoutes.get_by_id, ParkingSpotController.getParkingSpotById in H.
    rewrite Hafter in H. cbn in H.
    destruct (parking_spots.status spot); cbn in H; try discriminate; reflexivity.
  - unfold ParkingSpotRoutes.get_by_id, ParkingSpotController.getParkingSpotById in H.
    rewrite Hafter in H. cbn in H.
    destruct (parking_spots.status spot), (parking_spots.is_available spot);
      cbn in H; try discriminate; reflexivity.
  - intros [Hactive Hunavailable].
    unfold ParkingSpotRoutes.get_by_id, ParkingSpotController.getParkingSpotById.
    rewrite Hafter. cbn. now rewrite Hactive, Hunavailable.
Qed.

(** X14.  Toggling twice restores the store: on a store with distinct spot
    ids, when a toggle request is answered 200, the same request served
    again is answered 200 and leaves the store exactly as it was before the
    first one. *)
Theorem toggle_twice_restores (u : user) (id : Z) (st : store)
    (Huniq : NoDup (map parking_spots.spot_id (tbl_parking_spots st)))
    (Hfirst : fst (ParkingSpotController.toggleParkingSpotAvailability u id st)
              = 200) :
  ParkingSpotController.toggleParkingSpotAvailability u id
    (snd (ParkingSpotController.toggleParkingSpotAvailability u id st))
  = (200, st).
Proof.
  destruct (toggle_cases u id st)
    as [[Hcode _]|(spot & _ & Hspot & Hown & Hst)]; [contradiction|].
  cbv zeta in Hst. rewrite Hst.
  destruct (spot_findById_in _ _ _ Hspot) as [Hin Hid].
  set (a := parking_spots.is_available spot) in *.
  set (st1 := snd (ParkingSpotModel.updateAvailability id (negb a) st)).
  assert (Hspot1 : ParkingSpot.findById id st1
                   = Some (ParkingSpotModel.set_is_available (negb a) spot)).
  { subst st1. rewrite spot_findById_after_write, Hspot. cbn [option_map].
    apply Z.eqb_eq in Hid. now rewrite Hid. }
  destruct (toggle_cases u id st1)
    as [[Hcode Hsame]|(spot1 & Hcode & Hs1 & _ & Hst2)]; cbv zeta in *.
  - exfalso. revert Hcode.
    unfold ParkingSpotController.toggleParkingSpotAvailability.
    rewrite Hspot1. cbn [parking_spots.homeowner_id
                         ParkingSpotModel.set_is_available].
    replace (negb (user_id u =? parking_spots.homeowner_id spot)
             && negb (role_eqb (user_type u) admin)) with false.
    + pose proof (spot_findById_in _ _ _ Hspot1) as [Hin1 Hid1].
      unfold ParkingSpotModel.updateAvailability.
      assert (In (ParkingSpotModel.set_is_available (negb a) spot)
                 (filter (fun ps => parking_spots.spot_id ps =? id)
                         (tbl_parking_spots st1))) as Hf
          by (apply filter_In; split; [exact Hin1|now apply Z.eqb_eq]).
      destruct (filter _ (tbl_parking_spots st1)); [contradiction|].
      cbn. intros H. now apply H.
    + symmetry. apply andb_false_iff.
      destruct Hown as [Hown|Hown]; [left|right]; apply negb_false_iff.
      * now apply Z.eqb_eq.
      * now rewrite Hown.
  - rewrite Hspot1 in Hs1. inversion Hs1; subst spot1.
    rewrite (surjective_pairing
               (ParkingSpotController.toggleParkingSpotAvailability u id st1)).
    rewrite Hcode, Hst2. f_equal.
    cbn [parking_spots.is_available ParkingSpotModel.set_is_available].
    rewrite negb_involutive. subst st1.
    unfold ParkingSpotModel.updateAvailability.
    cbn [snd tbl_parking_spots with_parking_spots].
    transitivity (with_parking_spots st (tbl_parking_spots st));
      [|apply spot_eta].
    unfold with_parking_spots. cbn. f_equal.
    rewrite map_map.
    transitivity (map (fun x : parking_spots.row => x) (tbl_parking_spots st));
      [|apply map_id].
    apply map_ext_in. intros ps Hps.
    destruct (Z.eqb_spec (parking_spots.spot_id ps) id) as [Heq|Hne].
    + cbn [parking_spots.spot_id ParkingSpotModel.set_is_available].
      apply Z.eqb_eq in Heq as Heqb. rewrite Heqb.
      assert (ps = spot) as ->
        by (apply (NoDup_map_injective_on _ _ Huniq); auto; congruence).
      subst a. destruct spot; reflexivity.
    + apply Z.eqb_neq in Hne. now rewrite Hne.
Qed.

Lemma toggle_twice_restores_witness :
  ParkingSpotController.toggleParkingSpotAvailability homeowner10 1
    (snd (ParkingSpotController.toggleParkingSpotAvailability homeowner10 1
            store_A))
  = (200, store_A).
Proof.
  assert (Huniq : NoDup (map parking_spots.spot_id (tbl_parking_spots store_A)))
    by (repeat constructor; intros []).
  exact (toggle_twice_restores homeowner10 1 store_A Huniq eq_refl).
Defined.

(** ** Notifications *)

Lemma filter_all {A : Type} (p : A -> bool) (l : list A) :
  (forall x, In x l -> p x = true) -> filter p l = l.
Proof.
  induction l as [|x l IH]; cbn [filter]; intros H; [reflexivity|].
  rewrite (H x (or_introl eq_refl)). f_equal. apply IH.
  intros y Hy. apply H. now right.
Qed.

Lemma notification_findById_in (id : Z) (t : notifications.table)
    (n : notifications.row) :
  Notification.findById id t = Some n ->
  In n (notifications.rows t) /\ notifications.notification_id n = id.
Proof.
  unfold Notification.findById. intros H. apply find_some in H as [Hin Hp].
  apply Z.eqb_eq in Hp. auto.
Qed.

(** X15.  [markNotificationAsRead] only ever sets [is_read], and only on
    notifications of the requester: the rows of every other user are
    untouched, every row keeps its other columns and its place, and no row
    goes back to unread.  After the mark-all form the requester has no
    unread notification left ([getNotifications] with [unread=true] answers
    an empty list); after the single form the addressed notification, when
    it is the requester's, is read.  A 404 leaves the table as it was. *)
Theorem markNotificationAsRead_effect (u : user) (id : option Z)
    (t : notifications.table) :
  let r := NotificationController.markNotificationAsRead u id t in
  map Notification.set_read (notifications.rows (snd r))
  = map Notification.set_read (notifications.rows t)
  /\ filter (fun x => negb (notifications.user_id x =? user_id u))
            (notifications.rows (snd r))
     = filter (fun x => negb (notifications.user_id x =? user_id u))
              (notifications.rows t)
  /\ (forall x, In x (notifications.rows t) ->
                notifications.is_read x = true ->
                In x (notifications.rows (snd r)))
  /\ (forall x, In x (notifications.rows (snd r)) ->
                notifications.user_id x = user_id u ->
                match id with
                | Some i => notifications.notification_id x = i
                | None => True
                end ->
                notifications.is_read x = true)
  /\ (id = None ->
      NotificationController.getNotifications u true (snd r) = (200, []))
  /\ (fst r = 404 -> snd r = t)
  /\ notifications.next_id (snd r) = notifications.next_id t.
Proof.
  cbv zeta. unfold NotificationController.markNotificationAsRead,
    Notification.markAsRead.
  cbn [fst snd notifications.rows notifications.next_id].
  set (hit := Notification.addressed (user_id u) id).
  assert (Hhit : forall x, hit x = true ->
                           notifications.user_id x = user_id u).
  { intros x. unfold hit, Notification.addressed.
    intros H. apply andb_true_iff in H as [H _]. now apply Z.eqb_eq. }
  split; [|split; [|split; [|split; [|split; [|split]]]]].
  - rewrite map_map. apply map_ext. intros x. now destruct (hit x).
  - induction (notifications.rows t) as [|x l IH]; [reflexivity|].
    cbn [map filter]. destruct (hit x) eqn:Hx.
    + apply Hhit in Hx. cbn [Notification.set_read notifications.user_id].
      apply Z.eqb_eq in Hx. rewrite Hx. cbn [negb]. exact IH.
    + destruct (negb _); [f_equal|]; exact IH.
  - intros x Hx Hread. apply in_map_iff. exists x. split; [|exact Hx].
    destruct (hit x); [|reflexivity]. destruct x; cbn in *. now subst.
  - intros x' Hx' Huser Hid. apply in_map_iff in Hx' as (x & <- & Hx).
    destruct (hit x) eqn:Hh; [reflexivity|].
    exfalso. unfold hit, Notification.addressed in Hh.
    apply Z.eqb_eq in Huser. rewrite Huser in Hh. cbn [andb] in Hh.
    destruct id as [i|]; [|discriminate].
    apply Z.eqb_eq in Hid. congruence.
  - intros ->. unfold NotificationController.getNotifications,
      Notification.findByUserId. cbn [notifications.rows]. f_equal.
    replace (filter _ (map _ (notifications.rows t))) with (@nil notifications.row);
      [reflexivity|].
    symmetry. apply filter_nil_iff. intros x' Hx'.
    apply in_map_iff in Hx' as (x & <- & Hx).
    unfold hit, Notification.addressed.
    destruct (notifications.user_id x =? user_id u) eqn:Hu; cbn [andb].
    + cbn [Notification.set_read notifications.user_id notifications.is_read].
      rewrite Hu. reflexivity.
    + now rewrite Hu.
  - destruct (Nat.ltb 0 _) eqn:Hcount; [discriminate|]. intros _.
    destruct t as [rows next]. cbn [notifications.rows notifications.next_id] in *.
    f_equal.
    transitivity (map (fun x : notifications.row => x) rows); [|apply map_id].
    apply map_ext_in. intros x Hx. destruct (hit x) eqn:Hh; [|reflexivity].
    assert (Nat.ltb 0 (List.length (filter hit rows)) = true) as Hpos
        by (apply count_positive_iff; now exists x).
    congruence.
  - reflexivity.
Qed.

(** X16.  [deleteNotification] on a table with distinct notification ids.
    The request is answered 200 exactly when the notification exists and
    belongs to the requester; then it is gone and every other row is kept.
    Any other request leaves the table as it was.  The admin exemption of
    the authorization check has no effect on the outcome: the DELETE is
    restricted to the requester's own rows, so an admin asking for somebody
    else's notification passes the check and is answered 400.  No request
    removes a notification of another user. *)
Theorem deleteNotification_effect (u : user) (id : Z)
    (t : notifications.table)
    (Huniq : NoDup (map notifications.notification_id (notifications.rows t))) :
  let r := NotificationController.deleteNotification u id t in
  (fst r = 200 <->
   exists n, Notification.findById id t = Some n
             /\ notifications.user_id n = user_id u)
  /\ (fst r <> 200 -> snd r = t)
  /\ (fst r = 200 ->
      Notification.findById id (snd r) = None
      /\ forall x, In x (notifications.rows (snd r))
                   <-> In x (notifications.rows t)
                       /\ notifications.notification_id x <> id)
  /\ (forall n, Notification.findById id t = Some n ->
                notifications.user_id n <> user_id u ->
                user_type u = admin -> fst r = 400)
  /\ (forall x, In x (notifications.rows t) ->
                notifications.user_id x <> user_id u ->
                In x (notifications.rows (snd r))).
Proof.
  cbv zeta. unfold NotificationController.deleteNotification.
  destruct (Notification.findById id t) as [n|] eqn:Hn.
  2:{ cbn [fst snd]. repeat split; try discriminate; auto; try tauto.
      intros (x & H & _); discriminate. }
  pose proof (notification_findById_in _ _ _ Hn) as [Hin Hid].
  destruct (Z.eqb_spec (notifications.user_id n) (user_id u)) as [Hown|Hother];
    cbn [negb andb].
  - unfold Notification.delete.
    assert (Hcount : Nat.ltb 0 (List.length
              (filter (fun x => (notifications.notification_id x =? id)
                                && (notifications.user_id x =? user_id u))
                      (notifications.rows t))) = true).
    { apply count_positive_iff. exists n. split; [exact Hin|].
      apply andb_true_iff. split; now apply Z.eqb_eq. }
    rewrite Hcount. cbn [fst snd notifications.rows].
    assert (Hkept : forall x,
               In x (filter (fun x => negb ((notifications.notification_id x =? id)
                                            && (notifications.user_id x =? user_id u)))
                            (notifications.rows t))
               <-> In x (notifications.rows t)
                   /\ notifications.notification_id x <> id).
    { intros x. rewrite filter_In, negb_true_iff, andb_false_iff, !Z.eqb_neq.
      split; intros [Hx Hc]; (split; [exact Hx|]).
      - intros Heq. destruct Hc as [Hc|Hc]; [contradiction|].
        assert (x = n) by (apply (NoDup_map_injective_on _ _ Huniq); auto; congruence).
        subst x. contradiction.
      - now left. }
    split; [|split; [|split; [|split]]].
    + split; [intros _; now exists n|reflexivity].
    + intros H. now elim H.
    + intros _. split; [|exact Hkept].
      unfold Notification.findById. cbn [notifications.rows].
      apply find_none_iff. intros x Hx. apply Hkept in Hx as [_ Hx].
      now apply Z.eqb_neq.
    + intros n' Hn' Hne. inversion Hn'; subst n'. contradiction.
    + intros x Hx Hne. apply Hkept. split; [exact Hx|]. intros Heq.
      assert (x = n) by (apply (NoDup_map_injective_on _ _ Huniq); auto; congruence).
      subst x. contradiction.
  - assert (Hnone : filter (fun x => (notifications.notification_id x =? id)
                                     && (notifications.user_id x =? user_id u))
                           (notifications.rows t) = []).
    { apply filter_nil_iff. intros x Hx.
      destruct (Z.eqb_spec (notifications.notification_id x) id) as [Heq|];
        [|reflexivity].
      assert (x = n) by (apply (NoDup_map_injective_on _ _ Huniq); auto; congruence).
      subst x. cbn [andb]. now apply Z.eqb_neq. }
    assert (Hsame : snd (Notification.delete id (user_id u) t) = t).
    { unfold Notification.delete. cbn [snd]. destruct t as [rows next].
      cbn [notifications.rows notifications.next_id] in *. f_equal.
      apply filter_all. intros x Hx. apply negb_true_iff.
      exact (proj1 (filter_nil_iff _ _) Hnone x Hx). }
    assert (Hfalse : fst (Notification.delete id (user_id u) t) = false).
    { unfold Notification.delete. cbn [fst]. now rewrite Hnone. }
    destruct (role_eqb (user_type u) admin) eqn:Hadmin; cbn [negb].
    + destruct (Notification.delete id (user_id u) t) as [deleted t'].
      cbn [fst snd] in *. subst deleted t'.
      split; [|split; [|split; [|split]]]; try discriminate; auto.
      split; [discriminate|]. intros (x & Hx & Hu). inversion Hx; subst x.
      contradiction.
    + cbn [fst snd].
      split; [|split; [|split; [|split]]]; try discriminate; auto.
      * split; [discriminate|]. intros (x & Hx & Hu). inversion Hx; subst x.
        contradiction.
      * intros n' _ _ Hrole. rewrite Hrole in Hadmin. discriminate.
Qed.

Lemma deleteNotification_effect_witness :
  let t := notifications.mkTable
             [notifications.mk 1 20 "booking" (Some 1) "confirmed" false 100;
              notifications.mk 2 21 "booking" (Some 2) "rejected" false 200] 3 in
  fst (NotificationController.deleteNotification admin30 2 t) = 400
  /\ fst (NotificationController.deleteNotification driver21 2 t) = 200.
Proof.
  intros t.
  assert (Huniq : NoDup (map notifications.notification_id (notifications.rows t)))
    by (repeat constructor; cbn; intuition discriminate).
  split.
  - exact (proj1 (proj2 (proj2 (proj2
             (deleteNotification_effect admin30 2 t Huniq))))
             (notifications.mk 2 21 "booking" (Some 2) "rejected" false 200)
             eq_refl ltac:(discriminate) eq_refl).
  - apply (proj1 (deleteNotification_effect driver21 2 t Huniq)).
    exists (notifications.mk 2 21 "booking" (Some 2) "rejected" false 200).
    split; reflexivity.
Defined.

(** ** Reviews *)

Lemma transition_from_completed (u : user) (b : bookings.row)
    (status : BookingStatus) (tf : option string) :
  BookingController.transition u b status = BookingController.Proceed tf ->
  bookings.booking_status b = completed ->
  status = completed.
Proof.
  unfold BookingController.transition, BookingController.isCancelBlocked.
  intros H Hc. rewrite Hc in H.
  destruct status; try reflexivity; cbn in H;
    repeat match type of H with
           | context [if ?c then _ else _] => destruct c
           end; discriminate.
Qed.

Lemma exec_keeps_completed (o : booking_op) (st : store) (b : bookings.row) :
  NoDup (map bookings.booking_id (tbl_bookings st)) ->
  In b (tbl_bookings st) ->
  bookings.booking_status b = completed ->
  exists b',
    In b' (tbl_bookings (snd (exec o st)))
    /\ bookings.booking_id b' = bookings.booking_id b
    /\ bookings.booking_status b' = completed
    /\ bookings.driver_id b' = bookings.driver_id b
    /\ bookings.spot_id b' = bookings.spot_id b.
Proof.
  intros Hnd Hin Hc. destruct o as [u body|now u id status]; cbn [exec].
  - exists b. split; [|auto].
    unfold BookingController.createBooking, Booking.create.
    destruct (BookingController.createBookingSchema body); [|exact Hin].
    destruct (Booking.select_spot _ st); [exact Hin|].
    destruct (Booking.select_overlap _ _ _ st); [|exact Hin].
    unfold Booking.insert. destruct (Booking.accepts _); [|exact Hin].
    cbn. apply in_or_app. now left.
  - destruct (updateBookingStatus_cases now u id status st)
      as [[_ ->]|(b0 & g & _ & Hb0 & Ht & -> & _ & Hg)]; [now exists b|].
    cbn [tbl_bookings with_bookings].
    exists (if bookings.booking_id b =? id then g b else b).
    split; [apply in_map_iff; now exists b|].
    destruct (Z.eqb_spec (bookings.booking_id b) id) as [Hid|_]; [|auto].
    destruct (findById_in _ _ _ Hb0) as [Hin0 Hid0].
    assert (b0 = b) as ->
      by (apply (NoDup_map_injective_on _ _ Hnd); auto; congruence).
    destruct (Hg b) as ((H1 & H2 & H3 & _) & Hs & _).
    rewrite (transition_from_completed _ _ _ _ Ht Hc) in Hs. auto.
Qed.

Lemma review_findByBookingId_none (id : Z) (t : reviews.table) :
  Review.findByBookingId id t = None ->
  ~ In id (map reviews.booking_id (reviews.rows t)).
Proof.
  unfold Review.findByBookingId. intros Hnone Hin.
  apply in_map_iff in Hin as (r & Hid & Hr).
  apply (find_none _ _ Hnone) in Hr. apply Z.eqb_neq in Hr. contradiction.
Qed.

Lemma reviews_sound_exec (o : review_op) (s : store * reviews.table) :
  consistent (fst s) ->
  reviews_sound s ->
  consistent (fst (snd (review_exec o s)))
  /\ reviews_sound (snd (review_exec o s)).
Proof.
  intros Hc [Hone Hrate Hrev]. destruct s as [st t]. cbn [fst snd] in *.
  destruct o as [o|u body]; cbn [review_exec fst snd].
  - split; [now apply consistent_exec|].
    constructor; cbn [fst snd]; auto.
    intros r Hr. destruct (Hrev r Hr) as (b & Hin & Hid & Hs & Hd & Hsp).
    destruct (exec_keeps_completed o st b (ids_unique _ Hc) Hin Hs)
      as (b' & Hin' & Hid' & Hs' & Hd' & Hsp').
    exists b'. repeat split; congruence.
  - split; [exact Hc|].
    unfold ReviewController.createReview.
    destruct (ReviewController.createReviewSchema body) eqn:Hschema;
      cbn [negb]; [|now constructor].
    destruct (Booking.findById _ st) as [b|] eqn:Hb; [|now constructor].
    destruct (Z.eqb_spec (bookings.driver_id b) (user_id u)) as [Hdriver|];
      cbn [negb]; [|now constructor].
    destruct (bookings.booking_status b) eqn:Hstatus; cbn [booking_status_eqb negb];
      try (now constructor).
    destruct (Review.findByBookingId _ t) eqn:Hnone; [now constructor|].
    cbn [Review.createReview snd fst].
    unfold ReviewController.createReviewSchema in Hschema.
    apply andb_true_iff in Hschema as [Hschema _].
    apply andb_true_iff in Hschema as [Hschema Hmax].
    apply andb_true_iff in Hschema as [_ Hmin].
    apply Z.leb_le in Hmin, Hmax.
    destruct (findById_in _ _ _ Hb) as [Hin Hid].
    constructor; cbn [fst snd reviews.rows].
    + rewrite map_app. cbn [map reviews.booking_id].
      apply NoDup_snoc; [exact Hone|].
      now apply review_findByBookingId_none.
    + intros r Hr. apply in_app_or in Hr as [Hr|[<-|[]]]; [now apply Hrate|].
      cbn. lia.
    + intros r Hr. apply in_app_or in Hr as [Hr|[<-|[]]]; [now apply Hrev|].
      exists b. cbn. auto.
Qed.

(** X17.  Reviews stay attached to completed bookings.  Starting with no
    booking and no review, after any run of booking requests (create, change
    of status) and review requests: every booking has at most one review,
    every rating is between 1 and 5, and every review is about a booking
    that is in the table, is completed, has the reviewer as its driver and
    is on the spot the review names.  This rests on [completed] being final:
    the switch of [updateBookingStatus] lets a completed booking through
    only towards [completed]. *)
Theorem reviews_stay_sound (ops : list review_op) (st : store)
    (t : reviews.table)
    (Hbookings : tbl_bookings st = [])
    (Hreviews : reviews.rows t = []) :
  reviews_sound (review_run ops (st, t)).
Proof.
  assert (H0 : consistent (fst (st, t)) /\ reviews_sound (st, t)).
  { split; [apply reachable_consistent; now constructor|].
    constructor; cbn [fst snd]; rewrite Hreviews;
      [constructor|intros r []|intros r []]. }
  clear Hbookings Hreviews. unfold review_run.
  generalize dependent (st, t). clear st t.
  induction ops as [|o ops IH]; intros s [Hc Hs]; [exact Hs|].
  cbn [fold_left]. apply IH. now apply reviews_sound_exec.
Qed.

Lemma reviews_stay_sound_witness :
  reviews_sound
    (review_run
       [OnBooking (CreateBooking driver20 (request 1 600 660));
        OnBooking (UpdateBookingStatus 700 admin30 1 completed);
        CreateReview driver20 (ReviewController.mkBody 1 5 None);
        CreateReview driver20 (ReviewController.mkBody 1 4 None)]
       (store_with [spot1 active true] [] [], reviews.mkTable [] 1)).
Proof.
  exact (reviews_stay_sound
           [OnBooking (CreateBooking driver20 (request 1 600 660));
            OnBooking (UpdateBookingStatus 700 admin30 1 completed);
            CreateReview driver20 (ReviewController.mkBody 1 5 None);
            CreateReview driver20 (ReviewController.mkBody 1 4 None)]
           (store_with [spot1 active true] [] []) (reviews.mkTable [] 1)
           eq_refl eq_refl).
Defined.

(** ** Column names from request keys *)

Lemma lower_not_upper (c : Ascii.ascii) : Keys.is_upper (Keys.lower c) = false.
Proof. destruct c as [[] [] [] [] [] [] [] []]; reflexivity. Qed.

Lemma toLowerCase_no_capital (s : string) :
  Keys.has_upper (Keys.toLowerCase s) = false.
Proof.
  induction s as [|c s IH]; [reflexivity|].
  cbn [Keys.toLowerCase Keys.has_upper]. now rewrite lower_not_upper, IH.
Qed.

Lemma no_capital_fixed (s : string) :
  Keys.has_upper s = false ->
  Keys.underscore_capitals s = s /\ Keys.toLowerCase s = s.
Proof.
  induction s as [|c s IH]; [now split|].
  cbn [Keys.has_upper Keys.underscore_capitals Keys.toLowerCase].
  intros H. apply orb_false_iff in H as [Hc Hs].
  destruct (IH Hs) as [-> ->]. unfold Keys.lower. now rewrite Hc.
Qed.

(** X18.  The camelCase to snake_case conversion
    [key.replace(/([A-Z])/g, "_$1").toLowerCase()] of [User.updateUser] and
    [updateParkingSpot]: its result holds no capital letter, a key without
    capitals is left as it is, and converting twice is converting once.  It
    sends every key that [updateUserById] hands over to the column
    [createUser] writes.  For the keys of [updateParkingSpotSchema] it
    yields the column [createSpot] writes except for [addressLine1] and
    [addressLine2], which become [address_line1] and [address_line2]: no
    underscore is put before a digit, while the columns are
    [address_line_1] and [address_line_2]. *)
Theorem column_of_key_spec :
  (forall key, Keys.has_upper (Keys.column_of_key key) = false)
  /\ (forall key, Keys.has_upper key = false -> Keys.column_of_key key = key)
  /\ (forall key, Keys.column_of_key (Keys.column_of_key key)
                  = Keys.column_of_key key)
  /\ map Keys.column_of_key Keys.updateUser_keys = Keys.user_columns
  /\ (forall key, In key Keys.updateParkingSpotSchema_keys ->
        (In (Keys.column_of_key key) Keys.parking_spot_columns
         <-> key <> "addressLine1" /\ key <> "addressLine2"))
  /\ Keys.column_of_key "addressLine1" = "address_line1"
  /\ Keys.column_of_key "addressLine2" = "address_line2".
Proof.
  assert (Hfix : forall key, Keys.has_upper key = false ->
                             Keys.column_of_key key = key).
  { intros key H. unfold Keys.column_of_key.
    destruct (no_capital_fixed key H) as [-> ->]. reflexivity. }
  split; [intros key; apply toLowerCase_no_capital|].
  split; [exact Hfix|].
  split; [intros key; apply Hfix, toLowerCase_no_capital|].
  split; [reflexivity|]. split; [|split; reflexivity].
  intros key Hkey. unfold Keys.updateParkingSpotSchema_keys in Hkey.
  cbn [In] in Hkey.
  repeat (destruct Hkey as [<-|Hkey];
          [vm_compute; split;
           [intros H; split; intros E; try discriminate E;
            repeat (destruct H as [H|H]; [discriminate H|]); contradiction
           |intros [H1 H2]; try (now elim H1); try (now elim H2); tauto]|]).
  contradiction.
Qed.

(** ** The bookings of a spot, as listed *)

Lemma spot_exists_findById (spot : Z) (st : store) :
  spot_exists spot st <-> ParkingSpot.findById spot st <> None.
Proof.
  unfold spot_exists, ParkingSpot.findById. split.
  - intros (ps & Hin & Hid) Hnone.
    apply (find_none _ _ Hnone) in Hin. apply Z.eqb_neq in Hin. contradiction.
  - destruct (find _ (tbl_parking_spots st)) as [ps|] eqn:Hf;
      [|intros H; now elim H].
    intros _. apply find_some in Hf as [Hin Hid]. apply Z.eqb_eq in Hid.
    now exists ps.
Qed.

Lemma existsb_false {A : Type} (p : A -> bool) (l : list A) :
  existsb p l = false -> forall x, In x l -> p x = false.
Proof.
  intros H x Hx. destruct (p x) eqn:Hp; [|reflexivity].
  assert (existsb p l = true) by (apply existsb_exists; now exists x).
  congruence.
Qed.

Lemma calendar_entries (spotId : Z) (st : store) (e : BookingCalendar.entry) :
  In e (BookingCalendar.findBySpotId spotId st)
  <-> exists b, In b (tbl_bookings st)
                /\ bookings.spot_id b = spotId
                /\ e = BookingCalendar.entry_of b.
Proof.
  unfold BookingCalendar.findBySpotId. split.
  - intros He. apply (Permutation_in _ (order_by_permutation _ _)) in He.
    apply in_map_iff in He as (b & <- & Hb). apply filter_In in Hb as [Hb Hs].
    apply Z.eqb_eq in Hs. now exists b.
  - intros (b & Hb & Hs & ->).
    apply (Permutation_in _ (Permutation_sym (order_by_permutation _ _))).
    apply in_map. apply filter_In. split; [exact Hb|now apply Z.eqb_eq].
Qed.

Lemma free_iff_calendar (body : BookingController.createBody) (st : store) :
  free body st
  <-> forall e, In e (BookingCalendar.findBySpotId
                        (BookingController.spotId body) st) ->
                terminal (BookingCalendar.status e) = true
                \/ Booking.time_conflict (BookingCalendar.start_time e)
                     (BookingCalendar.end_time e)
                     (BookingController.startTime body)
                     (BookingController.endTime body) = false.
Proof.
  unfold free, Booking.conflicts. split.
  - intros Hfree e He. apply calendar_entries in He as (b & Hb & Hs & ->).
    specialize (Hfree b Hb). apply Z.eqb_eq in Hs. rewrite Hs in Hfree.
    cbn [andb BookingCalendar.status BookingCalendar.start_time
         BookingCalendar.end_time BookingCalendar.entry_of] in *.
    destruct (Booking.time_conflict _ _ _ _); [|now right].
    left. now apply negb_false_iff in Hfree.
  - intros Hcal b Hb.
    destruct (Z.eqb_spec (bookings.spot_id b) (BookingController.spotId body))
      as [Hs|]; [|reflexivity].
    cbn [andb].
    destruct (Hcal (BookingCalendar.entry_of b)) as [Ht|Ht];
      [apply calendar_entries; now exists b| |];
      cbn [BookingCalendar.status BookingCalendar.start_time
           BookingCalendar.end_time BookingCalendar.entry_of] in Ht;
      rewrite Ht; [apply andb_false_r|reflexivity].
Qed.

(** X19.  The list that [getBookingsForSpot] serves is enough to predict
    [createBooking].  [Booking.findBySpotId] lists every booking of the
    spot, whatever its status, in ascending order of [start_time];
    [getBookingsForSpot] answers 404 for a spot that does not exist and
    otherwise 200 with that list, to whoever asks.  A create request that
    passes the schema on an existing spot is answered 409 exactly when some
    listed non-terminal entry meets the three-clause time condition; it is
    answered 201 exactly when no listed entry does and the row is one the
    table takes: [startTime < endTime] and a price of at most 99999999. *)
Theorem calendar_predicts_createBooking (u viewer : user)
    (body : BookingController.createBody) (st : store) :
  let spotId := BookingController.spotId body in
  let calendar := BookingCalendar.findBySpotId spotId st in
  let clashes (e : BookingCalendar.entry) :=
    terminal (BookingCalendar.status e) = false
    /\ Booking.time_conflict (BookingCalendar.start_time e)
         (BookingCalendar.end_time e)
         (BookingController.startTime body) (BookingController.endTime body)
       = true in
  let code := fst (BookingController.createBooking u body st) in
  Sorted (fun a b => BookingCalendar.start_time a <= BookingCalendar.start_time b)
         calendar
  /\ (forall e, In e calendar <->
        exists b, In b (tbl_bookings st) /\ bookings.spot_id b = spotId
                  /\ e = BookingCalendar.entry_of b)
  /\ BookingCalendar.getBookingsForSpot viewer spotId st
     = match ParkingSpot.findById spotId st with
       | Some _ => (200, calendar)
       | None => (404, [])
       end
  /\ (code = 409 <->
      BookingController.createBookingSchema body = true
      /\ ParkingSpot.findById spotId st <> None
      /\ exists e, In e calendar /\ clashes e)
  /\ (code = 201 <->
      BookingController.createBookingSchema body = true
      /\ ParkingSpot.findById spotId st <> None
      /\ BookingController.startTime body < BookingController.endTime body
      /\ BookingController.totalPrice body <= 99999999
      /\ forall e, In e calendar -> ~ clashes e).
Proof.
  cbv zeta.
  destruct (createBooking_status u body st) as (_ & _ & H409 & H201 & _).
  cbv zeta in H409, H201.
  split; [|split; [intros e; apply calendar_entries|split; [|split]]].
  - unfold BookingCalendar.findBySpotId.
    eapply Sorted_ind with
      (P := fun l => Sorted (fun a b => BookingCalendar.start_time a
                                        <= BookingCalendar.start_time b) l);
      [constructor| |apply order_by_sorted].
    + intros a l _ IH Hhd. constructor; [exact IH|].
      destruct Hhd as [|b l Hab]; constructor. now apply Z.leb_le.
    + intros a b Hab. cbv beta in *. apply Z.leb_le. apply Z.leb_gt in Hab. lia.
  - unfold BookingCalendar.getBookingsForSpot.
    destruct (ParkingSpot.findById _ st); reflexivity.
  - rewrite H409, spot_exists_findById, free_iff_calendar.
    split; intros (Hs & He & Hc); (split; [exact Hs|split; [exact He|]]).
    + destruct (existsb (fun e => negb (terminal (BookingCalendar.status e))
                            && Booking.time_conflict (BookingCalendar.start_time e)
                                 (BookingCalendar.end_time e)
                                 (BookingController.startTime body)
                                 (BookingController.endTime body))
                  (BookingCalendar.findBySpotId (BookingController.spotId body) st))
        eqn:Hex.
      * apply existsb_exists in Hex as (e & Hin & Hp).
        apply andb_true_iff in Hp as [Ht Hc']. apply negb_true_iff in Ht.
        now exists e.
      * exfalso. apply Hc. intros e Hin.
        assert (Hp := existsb_false _ _ Hex e Hin).
        apply andb_false_iff in Hp as [Hp|Hp]; [left|right; exact Hp].
        now apply negb_false_iff in Hp.
    + intros Hfree. destruct Hc as (e & Hin & Ht & Hc).
      destruct (Hfree e Hin); congruence.
  - rewrite H201, spot_exists_findById, free_iff_calendar, accepts_iff.
    split.
    + intros (Hs & He & Hc & Ht & Hp).
      repeat (split; [solve [auto | lia]|]).
      intros e Hin [Ht' Hc']. destruct (Hc e Hin); congruence.
    + intros (Hs & He & Ht & Hp & Hc).
      pose proof (schema_price_positive _ Hs).
      split; [exact Hs|]. split; [exact He|]. split; [|lia].
      intros e Hin.
      destruct (terminal (BookingCalendar.status e)) eqn:Ht'; [now left|].
      destruct (Booking.time_conflict _ _ _ _) eqn:Hc'; [|now right].
      exfalso. apply (Hc e Hin). now split.
Qed.

(** ** Search and the public view of a spot *)

(** X20.  Search and the public detail route agree on what is visible.  On a
    store with distinct spot ids, every spot that [searchSpots] returns,
    whatever the criteria, is served by GET /:id with status 200; and a spot
    that GET /:id serves is returned by the search without criteria.  A spot
    that is not active, or not available, is in no search result. *)
Theorem search_results_are_public (criteria : parking_spots.row -> bool)
    (st : store) (spot : parking_spots.row)
    (Huniq : NoDup (map parking_spots.spot_id (tbl_parking_spots st))) :
  (In spot (ParkingSpotSearch.searchSpots criteria st) ->
   ParkingSpotRoutes.get_by_id (parking_spots.spot_id spot) st = (200, Some spot))
  /\ (ParkingSpotRoutes.get_by_id (parking_spots.spot_id spot) st
      = (200, Some spot) ->
      In spot (ParkingSpotSearch.searchSpots (fun _ => true) st))
  /\ (parking_spots.status spot <> active
      \/ parking_spots.is_available spot = false ->
      ~ In spot (ParkingSpotSearch.searchSpots criteria st)).
Proof.
  unfold ParkingSpotSearch.searchSpots, ParkingSpotRoutes.get_by_id,
    ParkingSpotController.getParkingSpotById.
  split; [|split].
  - intros Hin. apply filter_In in Hin as [Hin Hp].
    apply andb_true_iff in Hp as [Hp _]. apply andb_true_iff in Hp as [Ha Hs].
    assert (Hfind : ParkingSpot.findById (parking_spots.spot_id spot) st
                    = Some spot).
    { unfold ParkingSpot.findById.
      destruct (find _ (tbl_parking_spots st)) as [ps|] eqn:Hf.
      - apply find_some in Hf as [Hps Hid]. apply Z.eqb_eq in Hid.
        f_equal. apply (NoDup_map_injective_on _ _ Huniq); auto.
      - apply (find_none _ _ Hf) in Hin. now rewrite Z.eqb_refl in Hin. }
    rewrite Hfind. now rewrite Hs, Ha.
  - destruct (ParkingSpot.findById _ st) as [ps|] eqn:Hf; [|discriminate].
    destruct (spot_findById_in _ _ _ Hf) as [Hin _].
    destruct (negb _ || negb _) eqn:Hvis; [discriminate|].
    intros H. inversion H; subst ps. apply filter_In. split; [exact Hin|].
    apply orb_false_iff in Hvis as [Hs Ha].
    apply negb_false_iff in Hs, Ha. now rewrite Hs, Ha.
  - intros Hhidden Hin. apply filter_In in Hin as [_ Hp].
    apply andb_true_iff in Hp as [Hp _]. apply andb_true_iff in Hp as [Ha Hs].
    destruct Hhidden as [Hne|Hna]; [|congruence].
    apply Hne. destruct (parking_spots.status spot); try discriminate; reflexivity.
Qed.

Lemma search_results_are_public_witness :
  ParkingSpotRoutes.get_by_id 1 store_A = (200, Some (spot1 active true)).
Proof.
  assert (Huniq : NoDup (map parking_spots.spot_id (tbl_parking_spots store_A)))
    by (repeat constructor; intros []).
  exact (proj1 (search_results_are_public (fun _ => true) store_A
                  (spot1 active true) Huniq)
               (or_introl eq_refl)).
Defined.
